(** * zstack-ctl: lifecycle and upgrade orchestration

    A shallow embedding of the orchestration core of [zstackctl/ctl.py]:
    the polling decorator [loop_until_timeout], the management-node
    [start_node] / [stop_node] commands, the topology-wide [start] / [stop]
    commands, the liveness gate and the steps of [upgrade_db], and the
    scoped identity switch [UseUserZstack].

    Python code that talks to the operating system is embedded as a
    computation over a [World] (a clock and the chronological trace of what
    the program did) inside an environment [Env] that answers every
    observation the program makes (exit codes, process table, files,
    database rows).  Every answer may depend on the whole world so far, so
    an [Env] is an arbitrary deterministic environment.  Time is counted in
    integer ticks (seconds for the management-node commands); only
    [time.sleep] advances the clock. *)

From Stdlib Require Import ZArith List Ascii String Bool Lia.
Import ListNotations.
Local Open Scope string_scope.
Local Open Scope list_scope.
Local Open Scope Z_scope.

(* ===================================================================== *)
(** ** Values, errors and events *)
(* ===================================================================== *)

(** The external tools the program looks up with [which]. *)
Inductive Tool : Type := Mysqldump | Mysql | Wget | Curl.

(** [db_hostname, db_port, db_user, db_password] as returned by
    [Ctl.get_database_portal]; the password may be the empty string. *)
Record Portal : Type := mkPortal {
  db_hostname : string;
  db_port : string;
  db_user : string;
  db_password : string
}.

(** One row of [select hostname,heartBeat from ManagementNodeVO]: the
    dictionary that [MySqlCommandLineQuery.query] builds for it. *)
Record Node : Type := mkNode {
  hostname : string;
  heartBeat : string
}.

(** Every command line handed to [ShellCmd] by the embedded functions. *)
Inductive ShellLine : Type :=
| Which (t : Tool)
| RmBootErrorLog
| Netstat8080
| MysqlSelect1 (p : Portal)
| StartupScript
| ShutdownScript
| Kill9 (pid : positive)
| SshStartNode (host : string) (timeout : Z)
| SshStopNode (host : string) (force : bool)
| CurlIsReady (timeout : Z)
| WgetIsReady (timeout : Z)
| MkdirBackupDir
| MysqldumpZstack (p : Portal) (with_password : bool)
| ShowTablesSchemaVersion (p : Portal) (with_password : bool)
| FlywayBaseline (p : Portal) (db_url : string) (with_password : bool)
| FlywayMigrate (p : Portal) (db_url : string) (with_password : bool).

(** The messages of the [CtlError]s raised by the embedded functions. *)
Inductive CtlErr : Type :=
| ShellFailed (c : ShellLine) (rc : Z)
| ToolMissing (t : Tool)
| NodesStillRunning (node_ips : list string)
| NodeStillAlive (host old_beat new_beat : string)
| FlywayNotFound
| UpgradeSchemaDirNotFound
| BootFailed (log : string)
| NoReadyMessage (timeout : Z)
| NeedRoot
| Port8080Occupied
| MysqlUnreachable (host port : string)
| NoRabbitIps
| RabbitUnreachable (ip key : string)
| OtherCtlError (msg : string).

(** Python exceptions: [CtlError], [SystemExit] (raised by [error]), and
    the built-in errors that the embedded code can meet. *)
Inductive Exn : Type :=
| CtlError (e : CtlErr)
| SystemExit (code : Z)
| TypeError
| IOError
| KeyError
| OSError.

(** What [info] prints. *)
Inductive Message : Type :=
| MsgAlreadyRunning (pid : positive)
| MsgAlreadyStopped
| MsgStoppedOk
| MsgKillAfter (timeout : Z)
| MsgTomcatStarted
| MsgStopFailedStart
| MsgStartedOk
| MsgRemoteWait
| MsgUseCatalinaOpts
| MsgStaleWait (node_ips : list string)
| MsgDryRun
| MsgBackupStart
| MsgBackupDone
| MsgInitVersionTable
| MsgUpgraded
| MsgSkip (svc : string)
| MsgStopping (svc : string)
| MsgStarting (svc : string)
| MsgError.

(** The result of running a piece of Python: a value, a raised exception,
    or [Hang] when a loop never ends. *)
Inductive Outcome (A : Type) : Type :=
| Ok (a : A)
| Raise (e : Exn)
| Hang.
Arguments Ok {A} a.
Arguments Raise {A} e.
Arguments Hang {A}.

(** What the program did, in order.  [EvPid] records an answer of
    [get_management_node_pid], [EvPredicate] a call of a polled predicate,
    [EvInternalRun] the entry into [ctl.internal_run]. *)
Inductive Event : Type :=
| EvShell (c : ShellLine) (rc : Z)
| EvSleep (d : Z)
| EvInfo (m : Message)
| EvPid (r : option positive)
| EvPredicate (b : bool)
| EvQuery (rows : list Node)
| EvWriteSetenv (catalina_opts : list string)
| EvInternalRun (cmd_name args : string).

Record World : Type := mkWorld {
  clock : Z;
  trace : list (Z * Event)
}.

Definition log (e : Event) (w : World) : World :=
  mkWorld (clock w) (trace w ++ [(clock w, e)]).

(* ===================================================================== *)
(** ** The monad of the embedding *)
(* ===================================================================== *)

Definition M (A : Type) : Type := World -> Outcome A * World.

Definition ret {A} (a : A) : M A := fun w => (Ok a, w).

Definition bind {A B} (m : M A) (k : A -> M B) : M B :=
  fun w => match m w with
           | (Ok a, w') => k a w'
           | (Raise e, w') => (Raise e, w')
           | (Hang, w') => (Hang, w')
           end.

Definition raise {A} (e : Exn) : M A := fun w => (Raise e, w).

Definition emit (e : Event) : M unit := fun w => (Ok tt, log e w).

Declare Scope ctl_scope.
Delimit Scope ctl_scope with ctl.
Notation "x <- m ;; k" := (bind m (fun x => k))
  (at level 61, m at next level, right associativity) : ctl_scope.
Notation "m ;; k" := (bind m (fun _ => k))
  (at level 61, right associativity) : ctl_scope.
Local Open Scope ctl_scope.

(** [info(msg)] *)
Definition info (m : Message) : M unit := emit (EvInfo m).

(** [time.time()] *)
Definition time_time : M Z := fun w => (Ok (clock w), w).

(** [time.sleep(secs)]: a negative argument is refused by the interpreter. *)
Definition time_sleep (secs : Z) : M unit :=
  fun w => if secs <? 0 then (Raise IOError, w)
           else (Ok tt, mkWorld (clock w + secs) (trace (log (EvSleep secs) w))).

(** [try: body except: pass]: a bare [except] swallows every exception. *)
Definition try_except_pass (body : M unit) : M unit :=
  fun w => match body w with
           | (Raise _, w') => (Ok tt, w')
           | r => r
           end.

(** [try: body except CtlError as e: handler(e)] *)
Definition try_except_CtlError {A} (body : M A) (handler : CtlErr -> M A) : M A :=
  fun w => match body w with
           | (Raise (CtlError e), w') => handler e w'
           | r => r
           end.

(** [with on_error(msg): body].  [ExceptionWrapper.__exit__] lets a
    [CtlError] through and turns any other exception into [error(...)],
    which prints and calls [sys.exit(1)]. *)
Definition on_error {A} (body : M A) : M A :=
  fun w => match body w with
           | (Raise (CtlError e), w') => (Raise (CtlError e), w')
           | (Raise _, w') => (Raise (SystemExit 1), log (EvInfo MsgError) w')
           | r => r
           end.

(* ===================================================================== *)
(** ** [loop_until_timeout] *)
(* ===================================================================== *)

(** The [while current_time < expired] loop of [inner].  Each round either
    returns or sleeps, so with a positive interval [fuel] rounds are enough
    once [fuel] exceeds the timeout; a loop that outlives its fuel is
    reported as [Hang]. *)
Fixpoint loop_rounds (fuel : nat) (expired interval : Z) (f : M bool)
    (current_time : Z) : M bool :=
  if current_time <? expired then
    match fuel with
    | O => fun w => (Hang, w)
    | S fuel' =>
        b <- f ;;
        if b then ret true
        else
          time_sleep interval ;;
          current_time' <- time_time ;;
          loop_rounds fuel' expired interval f current_time'
    end
  else ret false.

Definition loop_until_timeout (timeout : Z) (interval : Z) (f : M bool) : M bool :=
  current_time <- time_time ;;
  let expired := current_time + timeout in
  loop_rounds (S (Z.to_nat timeout)) expired interval f current_time.

(** A predicate over wall-clock time, called the way the decorator calls
    [f]: it answers from the current time and takes no time itself. *)
Definition timed_predicate (P : Z -> bool) : M bool :=
  fun w => let b := P (clock w) in (Ok b, log (EvPredicate b) w).

(** The predicate that first becomes true [t] ticks after [start] and
    stays true. *)
Definition becomes_true_at (start t : Z) : Z -> bool :=
  fun now => start + t <=? now.

(** [waitUntil] on a fresh world whose clock reads [start]. *)
Definition fresh (start : Z) : World := mkWorld start [].

Definition waitUntil (timeout interval : Z) (P : Z -> bool) (start : Z)
  : Outcome bool * World :=
  loop_until_timeout timeout interval (timed_predicate P) (fresh start).

Definition elapsed (start : Z) (r : Outcome bool * World) : Z :=
  clock (snd r) - start.

(* ===================================================================== *)
(** ** Python values and string helpers *)
(* ===================================================================== *)

(** Truth value of a Python string. *)
Definition str_truthy (s : string) : bool := negb (s =? "")%string.

(** Truth value of [None] or a string, as tested by [if not exe]. *)
Definition opt_truthy (o : option string) : bool :=
  match o with
  | Some s => str_truthy s
  | None => false
  end.

(** [sub in s] *)
Fixpoint contains (sub s : string) : bool :=
  if String.prefix sub s then true
  else match s with
       | EmptyString => false
       | String _ s' => contains sub s'
       end.

(** [s.rstrip('/')] *)
Fixpoint rstrip_slash (s : string) : string :=
  match s with
  | EmptyString => EmptyString
  | String c s' =>
      match rstrip_slash s' with
      | EmptyString => if Ascii.eqb c "/"%char then EmptyString else String c EmptyString
      | r => String c r
      end
  end.

(** [s.split(' ')] *)
Fixpoint split_space (s : string) : list string :=
  match s with
  | EmptyString => [EmptyString]
  | String c s' =>
      match split_space s' with
      | [] => [String c EmptyString]
      | h :: t => if Ascii.eqb c " "%char then EmptyString :: h :: t
                  else String c h :: t
      end
  end.

(* ===================================================================== *)
(** ** The environment *)
(* ===================================================================== *)

(** Everything the program observes, each answer a function of the world
    at the moment of the question:
    - [shell_rc], [shell_stdout]: the return code and the standard output
      of a command line run through [ShellCmd];
    - [proc_cmdline keyword]: [find_process_by_cmdline(keyword)], the pid
      of a process whose command line holds the keyword;
    - [pid_in_file path]: the integer written in the pid file when
      [int(...)] accepts it and [/proc/<pid>] exists;
    - [read_property], [read_property_list], [get_env]: the methods of
      [ctl] of these names, which raise when the property file is missing
      or unreadable;
    - [path_exists], [read_file]: [os.path.exists] and the content of a
      file; [getuser]: [getpass.getuser()];
    - [check_ip_port host port]: the TCP connection test of [start_node];
    - [get_db_url], [get_database_portal]: the methods of [ctl] that read
      and parse the database settings;
    - [query_nodes]: the rows [MySqlCommandLineQuery.query] parses out of
      [select hostname,heartBeat from ManagementNodeVO];
    - [locate_zstack_home], [check_zstack_user]: the two checks made before
      a command is called;
    - [other_command name args]: the run of a command that is not embedded
      here ([stop_ui], [start_ui], [kairosdb], [cassandra]).
    Writing a file is taken to succeed, and the program runs without [-v]. *)
Record Env : Type := mkEnv {
  shell_rc : ShellLine -> World -> Z;
  shell_stdout : ShellLine -> World -> string;
  proc_cmdline : string -> World -> option positive;
  pid_in_file : string -> World -> option positive;
  read_property : string -> World -> Outcome (option string);
  read_property_list : string -> World -> Outcome (list (string * string));
  get_env : string -> World -> Outcome (option string);
  path_exists : string -> World -> bool;
  read_file : string -> World -> string;
  getuser : World -> string;
  check_ip_port : string -> string -> World -> Outcome bool;
  get_db_url : World -> Outcome string;
  get_database_portal : World -> Outcome Portal;
  query_nodes : Portal -> World -> Outcome (list Node);
  locate_zstack_home : World -> Outcome unit;
  check_zstack_user : World -> Outcome unit;
  other_command : string -> string -> World -> Outcome unit
}.

(** An observation that leaves the world as it is. *)
Definition observe {A} (o : World -> Outcome A) : M A := fun w => (o w, w).

Definition observe_pure {A} (o : World -> A) : M A := fun w => (Ok (o w), w).

(** [ShellCmd(cmd)(is_exception)]: runs the command to its end and, when
    asked to, raises on a non-zero return code.  Gives the return code and
    the standard output. *)
Definition ShellCmd_call (E : Env) (cmd : ShellLine) (is_exception : bool)
  : M (Z * string) :=
  fun w =>
    let rc := shell_rc E cmd w in
    let out := shell_stdout E cmd w in
    let w' := log (EvShell cmd rc) w in
    if is_exception && negb (rc =? 0)
    then (Raise (CtlError (ShellFailed cmd rc)), w')
    else (Ok (rc, out), w').

Definition shell (E : Env) (cmd : ShellLine) : M string :=
  r <- ShellCmd_call E cmd true ;; ret (snd r).

Definition shell_no_pipe (E : Env) (cmd : ShellLine) : M unit :=
  ShellCmd_call E cmd true ;; ret tt.

Definition shell_return (E : Env) (cmd : ShellLine) : M Z :=
  r <- ShellCmd_call E cmd false ;; ret (fst r).

Definition error_if_tool_is_missing (E : Env) (tool : Tool) : M unit :=
  rc <- shell_return E (Which tool) ;;
  if negb (rc =? 0) then raise (CtlError (ToolMissing tool)) else ret tt.

(** ** Finding the management node *)

Definition DEFAULT_PID_FILE_PATH : string := "~zstack/management-server.pid".

(** The answer of [get_management_node_pid] in a given world. *)
Definition pid_lookup (E : Env) (w : World) : Outcome (option positive) :=
  match proc_cmdline E "appName=zstack" w with
  | Some pid => Ok (Some pid)
  | None =>
      match read_property E "pidFilePath" w with
      | Ok v =>
          let pid_file_path :=
            match v with
            | Some s => if str_truthy s then s else DEFAULT_PID_FILE_PATH
            | None => DEFAULT_PID_FILE_PATH
            end in
          if negb (path_exists E pid_file_path w) then Ok None
          else Ok (pid_in_file E pid_file_path w)
      | Raise e => Raise e
      | Hang => Hang
      end
  end.

Definition get_management_node_pid (E : Env) : M (option positive) :=
  pid <- observe (pid_lookup E) ;;
  emit (EvPid pid) ;;
  ret pid.

(** [create_check_mgmt_node_command(timeout)]: the readiness request, sent
    with [wget] when present, else with [curl], else [None]. *)
Definition create_check_mgmt_node_command (E : Env) (timeout : Z)
  : M (option ShellLine) :=
  rc <- shell_return E (Which Wget) ;;
  if rc =? 0 then ret (Some (WgetIsReady timeout))
  else
    rc' <- shell_return E (Which Curl) ;;
    if rc' =? 0 then ret (Some (CurlIsReady timeout))
    else ret None.

(* ===================================================================== *)
(** ** [stop_node] *)
(* ===================================================================== *)

Module StopCmd.

Record Args : Type := mkArgs {
  host : option string;
  force : bool
}.

(** What [parse_known_args(['stop_node'])] gives. *)
Definition default_args : Args := mkArgs None false.

Definition _stop_remote (E : Env) (args : Args) : M unit :=
  match host args with
  | Some h => shell_no_pipe E (SshStopNode h (force args))
  | None => ret tt
  end.

(** [wait_stop], the predicate polled under [@loop_until_timeout(timeout)]. *)
Definition wait_stop (E : Env) : M bool :=
  pid <- get_management_node_pid E ;;
  ret (match pid with None => true | Some _ => false end).

(** The tail of [run] from the second [pid = get_management_node_pid()]. *)
Definition kill_if_present (E : Env) (args : Args) (timeout : Z) : M unit :=
  pid <- get_management_node_pid E ;;
  match pid with
  | Some p =>
      (if negb (force args) then info (MsgKillAfter timeout) else ret tt) ;;
      on_error (shell E (Kill9 p)) ;;
      ret tt
  | None => ret tt
  end.

Definition run (E : Env) (args : Args) : M unit :=
  if opt_truthy (host args) then _stop_remote E args
  else
    pid <- get_management_node_pid E ;;
    match pid with
    | None => info MsgAlreadyStopped
    | Some _ =>
        let timeout := 30 in
        if negb (force args) then
          shell E ShutdownScript ;;
          stopped <- loop_until_timeout timeout 1 (wait_stop E) ;;
          if stopped then info MsgStoppedOk
          else kill_if_present E args timeout
        else kill_if_present E args timeout
    end.

End StopCmd.

(** [ctl.internal_run(cmd_name, args)] around the command [cmd] that the
    name selects: parse the arguments, locate the installation, check the
    service account, then call the command ([Command.__call__] runs it and
    then its cleanup routines, of which the commands here have none). *)
Definition internal_run_with (E : Env) (cmd : M unit) (cmd_name args : string)
  : M unit :=
  emit (EvInternalRun cmd_name args) ;;
  observe (locate_zstack_home E) ;;
  observe (check_zstack_user E) ;;
  cmd.

(** [ctl.internal_run('stop_node')] *)
Definition internal_run_stop_node (E : Env) : M unit :=
  internal_run_with E (StopCmd.run E StopCmd.default_args) "stop_node" "".

(* ===================================================================== *)
(** ** [start_node] *)
(* ===================================================================== *)

Module StartCmd.

Record Args : Type := mkArgs {
  host : option string;
  timeout : Z
}.

(** What [parse_known_args(['start_node'])] gives. *)
Definition default_args : Args := mkArgs None 300.

Definition boot_error_log : string := "~zstack/bootError.log".
Definition log_path : string := "../../logs/management-server.log".

Definition _start_remote (E : Env) (args : Args) : M unit :=
  match host args with
  | Some h =>
      info MsgRemoteWait ;;
      shell_no_pipe E (SshStartNode h (timeout args))
  | None => ret tt
  end.

Definition check_8080 (E : Env) : M unit :=
  rc <- shell_return E Netstat8080 ;;
  if rc =? 0 then raise (CtlError Port8080Occupied) else ret tt.

Definition check_msyql (E : Env) : M unit :=
  p <- observe (get_database_portal E) ;;
  up <- observe (check_ip_port E (db_hostname p) (db_port p)) ;;
  if negb up then raise (CtlError (MysqlUnreachable (db_hostname p) (db_port p)))
  else on_error (shell E (MysqlSelect1 p)) ;; ret tt.

Definition RABBIT_PORT : string := "5672".

Fixpoint check_rabbit_ips (E : Env) (ips : list (string * string)) : M unit :=
  match ips with
  | [] => ret tt
  | (key, ip) :: rest =>
      up <- observe (check_ip_port E ip RABBIT_PORT) ;;
      if negb up then raise (CtlError (RabbitUnreachable ip key))
      else check_rabbit_ips E rest
  end.

Definition check_rabbitmq (E : Env) : M unit :=
  on_error (
    ips <- observe (read_property_list E "CloudBus.serverIp.") ;;
    match ips with
    | [] => raise (CtlError NoRabbitIps)
    | _ => check_rabbit_ips E ips
    end).

Definition prepare_setenv (E : Env) : M unit :=
  let catalina_opts :=
    ["-Djava.net.preferIPv4Stack=true";
     "-Dcom.sun.management.jmxremote=true";
     "-Djava.security.egd=file:/dev/./urandom"] in
  co <- observe (get_env E "CATALINA_OPTS") ;;
  match co with
  | Some s =>
      if str_truthy s then
        info MsgUseCatalinaOpts ;;
        emit (EvWriteSetenv (catalina_opts ++ split_space s))
      else emit (EvWriteSetenv catalina_opts)
  | None => emit (EvWriteSetenv catalina_opts)
  end.

Definition start_mgmt_node (E : Env) : M unit :=
  shell E StartupScript ;;
  info MsgTomcatStarted.

(** The predicate [check] polled under [@loop_until_timeout(timeout)]. *)
Definition check (E : Env) : M bool :=
  failed <- observe_pure (path_exists E boot_error_log) ;;
  if failed then
    brief <- observe_pure (read_file E boot_error_log) ;;
    raise (CtlError (BootFailed brief))
  else
    cmd <- create_check_mgmt_node_command E 1 ;;
    match cmd with
    | None => raise TypeError
    | Some c =>
        r <- ShellCmd_call E c false ;;
        ret (fst r =? 0)
    end.

Definition wait_mgmt_node_start (E : Env) (args : Args) : M unit :=
  let timeout := timeout args in
  ready <- loop_until_timeout timeout 1 (check E) ;;
  if negb ready then raise (CtlError (NoReadyMessage timeout)) else ret tt.

(** The statements of [run] from [getpass.getuser()] to [time.sleep(5)]:
    the dependency checks, the start command and the fixed pause. *)
Definition launch (E : Env) : M unit :=
  user <- observe_pure (getuser E) ;;
  if negb (user =? "root")%string then raise (CtlError NeedRoot)
  else
    check_8080 E ;;
    check_msyql E ;;
    check_rabbitmq E ;;
    prepare_setenv E ;;
    start_mgmt_node E ;;
    time_sleep 5.

(** The [try: wait_mgmt_node_start() except CtlError as e: ...] statement
    of [run]. *)
Definition guarded_wait (E : Env) (args : Args) : M unit :=
  try_except_CtlError (wait_mgmt_node_start E args)
    (fun e =>
       try_except_pass (info MsgStopFailedStart ;;
                        internal_run_stop_node E) ;;
       raise (CtlError e)).

Definition run (E : Env) (args : Args) : M unit :=
  if opt_truthy (host args) then _start_remote E args
  else
    shell E RmBootErrorLog ;;
    pid <- get_management_node_pid E ;;
    match pid with
    | Some p => info (MsgAlreadyRunning p)
    | None =>
        launch E ;;
        guarded_wait E args ;;
        info MsgStartedOk
    end.

End StartCmd.

(** [ctl.internal_run(cmd_name, args)].  [stop_node] and [start_node] are
    the commands embedded above, called with the arguments that the parser
    gives for an empty argument string; the other commands are the
    environment's. *)
Definition internal_run (E : Env) (cmd_name args : string) : M unit :=
  let cmd :=
    if (cmd_name =? "stop_node")%string then StopCmd.run E StopCmd.default_args
    else if (cmd_name =? "start_node")%string then StartCmd.run E StartCmd.default_args
    else observe (other_command E cmd_name args) in
  internal_run_with E cmd cmd_name args.

(* ===================================================================== *)
(** ** The topology-wide [stop] and [start] *)
(* ===================================================================== *)

Definition UI_VIRTUALENV : string := "/var/lib/zstack/virtualenv/zstack-dashboard".

(** [not exe or not os.path.exists(exe)] *)
Definition not_installed (E : Env) (exe : option string) : M bool :=
  match exe with
  | Some path =>
      if str_truthy path then
        present <- observe_pure (path_exists E path) ;;
        ret (negb present)
      else ret true
  | None => ret true
  end.

Module StopAllCmd.

Definition stop_cassandra (E : Env) : M unit :=
  exe <- observe (get_env E "CASSANDRA_EXEC") ;;
  absent <- not_installed E exe ;;
  if absent then info (MsgSkip "cassandra")
  else
    info (MsgStopping "cassandra") ;;
    internal_run E "cassandra" "--stop".

Definition stop_kairosdb (E : Env) : M unit :=
  exe <- observe (get_env E "KAIROSDB_EXEC") ;;
  absent <- not_installed E exe ;;
  if absent then info (MsgSkip "kairosdb")
  else
    info (MsgStopping "kairosdb") ;;
    internal_run E "kairosdb" "--stop".

Definition stop_mgmt_node (E : Env) : M unit :=
  info (MsgStopping "management node") ;;
  internal_run E "stop_node" "".

Definition stop_ui (E : Env) : M unit :=
  present <- observe_pure (path_exists E UI_VIRTUALENV) ;;
  if negb present then info (MsgSkip "web UI")
  else
    info (MsgStopping "web UI") ;;
    internal_run E "stop_ui" "".

(** The four calls of [run], in order. *)
Definition steps (E : Env) : list (M unit) :=
  [stop_ui E; stop_mgmt_node E; stop_kairosdb E; stop_cassandra E].

Definition run (E : Env) : M unit :=
  stop_ui E ;;
  stop_mgmt_node E ;;
  stop_kairosdb E ;;
  stop_cassandra E.

End StopAllCmd.

Module StartAllCmd.

Definition start_cassandra (E : Env) : M unit :=
  exe <- observe (get_env E "CASSANDRA_EXEC") ;;
  absent <- not_installed E exe ;;
  if absent then info (MsgSkip "cassandra")
  else
    info (MsgStarting "cassandra") ;;
    internal_run E "cassandra" "--start --wait-timeout 120".

Definition start_kairosdb (E : Env) : M unit :=
  exe <- observe (get_env E "KAIROSDB_EXEC") ;;
  absent <- not_installed E exe ;;
  if absent then info (MsgSkip "kairosdb")
  else
    info (MsgStarting "kairosdb") ;;
    internal_run E "kairosdb" "--start --wait-timeout 120".

Definition start_mgmt_node (E : Env) : M unit :=
  info (MsgStarting "management node") ;;
  internal_run E "start_node" "".

Definition start_ui (E : Env) : M unit :=
  present <- observe_pure (path_exists E UI_VIRTUALENV) ;;
  if negb present then info (MsgSkip "web UI")
  else
    info (MsgStarting "web UI") ;;
    internal_run E "start_ui" "".

(** The four calls of [run], in order. *)
Definition steps (E : Env) : list (M unit) :=
  [start_cassandra E; start_kairosdb E; start_mgmt_node E; start_ui E].

Definition run (E : Env) : M unit :=
  start_cassandra E ;;
  start_kairosdb E ;;
  start_mgmt_node E ;;
  start_ui E.

End StartAllCmd.

(* ===================================================================== *)
(** ** The liveness gate of the database commands *)
(* ===================================================================== *)

(** [get_nodes()]: the rows of the node registry. *)
Definition get_nodes (E : Env) (p : Portal) : M (list Node) :=
  nodes <- observe (query_nodes E p) ;;
  emit (EvQuery nodes) ;;
  ret nodes.

(** [[n['hostname'] for n in nodes]] *)
Definition node_ips (nodes : list Node) : list string := map hostname nodes.

(** [check()], the branch taken without [--force]. *)
Definition check (E : Env) (p : Portal) : M unit :=
  nodes <- get_nodes E p ;;
  match nodes with
  | [] => ret tt
  | _ => raise (CtlError (NodesStillRunning (node_ips nodes)))
  end.

(** The inner loop [for o in nodes] for one row [n] of the second sample:
    the error of the first old row with the same host name and another
    heart beat. *)
Fixpoint compare_with_old (n : Node) (nodes : list Node) : option CtlErr :=
  match nodes with
  | [] => None
  | o :: rest =>
      if (hostname o =? hostname n)%string && negb (heartBeat o =? heartBeat n)%string
      then Some (NodeStillAlive (hostname n) (heartBeat o) (heartBeat n))
      else compare_with_old n rest
  end.

(** The outer loop [for n in new_nodes]. *)
Fixpoint compare_samples (new_nodes nodes : list Node) : option CtlErr :=
  match new_nodes with
  | [] => None
  | n :: rest =>
      match compare_with_old n nodes with
      | Some e => Some e
      | None => compare_samples rest nodes
      end
  end.

(** The branch taken with [--force]: the nested function [bypass_check()]
    of [check_if_management_node_has_stopped]. *)
Definition bypass_stale_check (E : Env) (p : Portal) : M unit :=
  nodes <- get_nodes E p ;;
  match nodes with
  | [] => ret tt
  | _ =>
      info (MsgStaleWait (node_ips nodes)) ;;
      time_sleep 10 ;;
      new_nodes <- get_nodes E p ;;
      match compare_samples new_nodes nodes with
      | Some e => raise (CtlError e)
      | None => ret tt
      end
  end.

Definition check_if_management_node_has_stopped (E : Env) (force : bool) : M unit :=
  p <- observe (get_database_portal E) ;;
  if force then bypass_stale_check E p else check E p.

(* ===================================================================== *)
(** ** [upgrade_db] *)
(* ===================================================================== *)

Module UpgradeDbCmd.

(** The value argparse stores for an option declared with
    [default=False] and no [action]: [False] when the option is absent,
    else the string that follows it on the command line. *)
Inductive ArgValue : Type :=
| ArgFalse
| ArgStr (s : string).

Definition parse_no_backup (given : option string) : ArgValue :=
  match given with
  | None => ArgFalse
  | Some s => ArgStr s
  end.

(** Truth value of such an argument, as tested by [if args.no_backup]. *)
Definition truthy (v : ArgValue) : bool :=
  match v with
  | ArgFalse => false
  | ArgStr s => str_truthy s
  end.

Record Args : Type := mkArgs {
  force : bool;
  no_backup : ArgValue;
  dry_run : bool
}.

Definition flyway_path : string :=
  "$ZSTACK_HOME/WEB-INF/classes/tools/flyway-3.2.1/flyway".
Definition upgrading_schema_dir : string :=
  "$ZSTACK_HOME/WEB-INF/classes/db/upgrade/".

(** The statements of [run] before the liveness gate: the tools, the
    database URL and portal, the migration tool and its scripts. *)
Definition preflight (E : Env) : M (string * Portal) :=
  error_if_tool_is_missing E Mysqldump ;;
  error_if_tool_is_missing E Mysql ;;
  url <- observe (get_db_url E) ;;
  let db_url :=
    if negb (contains "zstack" url) then (rstrip_slash url ++ "/zstack")%string
    else url in
  p <- observe (get_database_portal E) ;;
  have_flyway <- observe_pure (path_exists E flyway_path) ;;
  if negb have_flyway then raise (CtlError FlywayNotFound)
  else
    have_dir <- observe_pure (path_exists E upgrading_schema_dir) ;;
    if negb have_dir then raise (CtlError UpgradeSchemaDirNotFound)
    else ret (db_url, p).

Definition backup_current_database (E : Env) (args : Args) (p : Portal) : M unit :=
  if truthy (no_backup args) then ret tt
  else
    info MsgBackupStart ;;
    shell E MkdirBackupDir ;;
    (if str_truthy (db_password p) then shell E (MysqldumpZstack p true)
     else shell E (MysqldumpZstack p false)) ;;
    info MsgBackupDone.

Definition create_schema_version_table_if_needed (E : Env) (p : Portal)
    (db_url : string) : M unit :=
  out <- (if str_truthy (db_password p) then shell E (ShowTablesSchemaVersion p true)
          else shell E (ShowTablesSchemaVersion p false)) ;;
  if contains "schema_version" out then ret tt
  else
    info MsgInitVersionTable ;;
    if str_truthy (db_password p) then shell_no_pipe E (FlywayBaseline p db_url true)
    else shell_no_pipe E (FlywayBaseline p db_url false).

Definition migrate (E : Env) (p : Portal) (db_url : string) : M unit :=
  (if str_truthy (db_password p) then shell_no_pipe E (FlywayMigrate p db_url true)
   else shell_no_pipe E (FlywayMigrate p db_url false)) ;;
  info MsgUpgraded.

(** The statements of [run] after the liveness gate. *)
Definition after_gate (E : Env) (args : Args) (p : Portal) (db_url : string)
  : M (option bool) :=
  if dry_run args then
    info MsgDryRun ;;
    ret (Some true)
  else
    backup_current_database E args p ;;
    create_schema_version_table_if_needed E p db_url ;;
    migrate E p db_url ;;
    ret None.

(** [run] returns [True] after a dry run and [None] otherwise. *)
Definition run (E : Env) (args : Args) : M (option bool) :=
  ctx <- preflight E ;;
  let db_url := fst ctx in
  let p := snd ctx in
  check_if_management_node_has_stopped E (force args) ;;
  after_gate E args p db_url.

End UpgradeDbCmd.

(* ===================================================================== *)
(** ** [UseUserZstack] *)
(* ===================================================================== *)

Module UseUserZstack.

(** The user and group ids of the process: real, effective and saved. *)
Record Cred : Type := mkCred {
  ruid : Z; euid : Z; suid : Z;
  rgid : Z; egid : Z; sgid : Z
}.

(** The account databases: the [zstack] entry of [pwd] (uid and home
    directory) and of [grp] (gid), when present. *)
Record Accounts : Type := mkAccounts {
  pw_zstack : option (Z * string);
  gr_zstack : option Z
}.

Section Scoped.

(** Whatever else the enclosed operation works on (the files). *)
Variable Store : Type.

Record Proc : Type := mkProc {
  cred : Cred;
  HOME : option string;
  store : Store
}.

Definition Act (A : Type) : Type := Proc -> Outcome A * Proc.

(** [os.seteuid(uid)]: an unprivileged process may only take its real,
    effective or saved user id. *)
Definition seteuid (uid : Z) : Act unit :=
  fun s =>
    let c := cred s in
    if (euid c =? 0) || (uid =? ruid c) || (uid =? euid c) || (uid =? suid c)
    then (Ok tt, mkProc (mkCred (ruid c) uid (suid c) (rgid c) (egid c) (sgid c))
                        (HOME s) (store s))
    else (Raise OSError, s).

(** [os.setegid(gid)] *)
Definition setegid (gid : Z) : Act unit :=
  fun s =>
    let c := cred s in
    if (euid c =? 0) || (gid =? rgid c) || (gid =? egid c) || (gid =? sgid c)
    then (Ok tt, mkProc (mkCred (ruid c) (euid c) (suid c) (rgid c) gid (sgid c))
                        (HOME s) (store s))
    else (Raise OSError, s).

(** [os.environ['HOME'] = value] *)
Definition set_HOME (value : string) : Act unit :=
  fun s => (Ok tt, mkProc (cred s) (Some value) (store s)).

(** The fields [root_uid], [root_gid], [root_home] of the object. *)
Record Saved : Type := mkSaved {
  root_uid : Z;
  root_gid : Z;
  root_home : string
}.

(** [check_zstack_user()], called by [__init__]. *)
Definition init (acc : Accounts) : Act unit :=
  fun s =>
    match pw_zstack acc, gr_zstack acc with
    | Some _, Some _ => (Ok tt, s)
    | _, _ => (Raise (CtlError (OtherCtlError "cannot find user account zstack")), s)
    end.

(** [os.path.expanduser('~zstack')] *)
Definition expanduser_zstack (acc : Accounts) : string :=
  match pw_zstack acc with
  | Some (_, dir) => dir
  | None => "~zstack"
  end.

(** [__enter__]: remembers [os.getuid()], [os.getgid()] and [HOME], then
    takes the group, the user and the home directory of [zstack]. *)
Definition enter (acc : Accounts) : Act Saved :=
  fun s =>
    match HOME s with
    | None => (Raise KeyError, s)
    | Some home =>
        let saved := mkSaved (ruid (cred s)) (rgid (cred s)) home in
        match gr_zstack acc with
        | None => (Raise KeyError, s)
        | Some gid =>
            match setegid gid s with
            | (Ok _, s1) =>
                match pw_zstack acc with
                | None => (Raise KeyError, s1)
                | Some (uid, _) =>
                    match seteuid uid s1 with
                    | (Ok _, s2) =>
                        (Ok saved, snd (set_HOME (expanduser_zstack acc) s2))
                    | (Raise e, s2) => (Raise e, s2)
                    | (Hang, s2) => (Hang, s2)
                    end
                end
            | (Raise e, s1) => (Raise e, s1)
            | (Hang, s1) => (Hang, s1)
            end
        end
    end.

(** [__exit__]: it returns [None], so an exception of the block goes on. *)
Definition exit (saved : Saved) : Act unit :=
  fun s =>
    match seteuid (root_uid saved) s with
    | (Ok _, s1) =>
        match setegid (root_gid saved) s1 with
        | (Ok _, s2) => set_HOME (root_home saved) s2
        | r => r
        end
    | r => r
    end.

(** [with use_user_zstack(): body].  The block is entered once [__init__]
    and [__enter__] have returned; [__exit__] then runs however the block
    ends, and an exception of [__exit__] itself replaces the block's. *)
Definition with_use_user_zstack {A} (acc : Accounts) (body : Act A) : Act A :=
  fun s =>
    match init acc s with
    | (Ok _, s0) =>
        match enter acc s0 with
        | (Ok saved, s1) =>
            match body s1 with
            | (Hang, s2) => (Hang, s2)
            | (r, s2) =>
                match exit saved s2 with
                | (Ok _, s3) => (r, s3)
                | (Raise e, s3) => (Raise e, s3)
                | (Hang, s3) => (Hang, s3)
                end
            end
        | (Raise e, s1) => (Raise e, s1)
        | (Hang, s1) => (Hang, s1)
        end
    | (Raise e, s0) => (Raise e, s0)
    | (Hang, s0) => (Hang, s0)
    end.

End Scoped.

Arguments mkProc {Store} _ _ _.
Arguments cred {Store} _.
Arguments HOME {Store} _.
Arguments store {Store} _.
Arguments seteuid {Store} _ _.
Arguments setegid {Store} _ _.
Arguments enter {Store} _ _.
Arguments exit {Store} _ _.
Arguments with_use_user_zstack {Store A} _ _ _.

End UseUserZstack.

(* ===================================================================== *)
(** ** The bounded poll, by count *)
(* ===================================================================== *)

(** A reference definition, not a function of the program: at most [n]
    calls of the predicate, each followed when it fails by a sleep of
    [interval].  The clock-driven loop of [loop_until_timeout] is compared
    with it. *)
Fixpoint poll_n (n : nat) (interval : Z) (f : M bool) : M bool :=
  match n with
  | O => ret false
  | S n' =>
      b <- f ;;
      if b then ret true
      else time_sleep interval ;; poll_n n' interval f
  end.

(** The number of polls that fit before the deadline. *)
Definition rounds (timeout interval : Z) : nat :=
  Z.to_nat ((timeout + interval - 1) / interval).

(** A predicate that takes no time when it answers [False]. *)
Definition instantaneous (f : M bool) : Prop :=
  forall w w', f w = (Ok false, w') -> clock w' = clock w.

(** The events a computation adds to the trace. *)
Definition extends (w w' : World) (added : list (Z * Event)) : Prop :=
  trace w' = trace w ++ added.

(* ===================================================================== *)
(** ** Reference definitions and sample environments *)
(* ===================================================================== *)

Import UseUserZstack.

Definition sample_portal : Portal :=
  mkPortal "localhost" "3306" "zstack" "zstack.password".

(** An installation in which every observation succeeds, apart from what
    the four arguments decide: the return code of each command line, the
    process table, the files and the rows of the node registry. *)
Definition sample_env
    (rc : ShellLine -> World -> Z)
    (pid : World -> option positive)
    (exists_ : string -> World -> bool)
    (rows : World -> list Node) : Env :=
  mkEnv rc
        (fun _ _ => "schema_version")
        (fun _ w => pid w)
        (fun _ _ => None)
        (fun _ _ => Ok None)
        (fun _ _ => Ok [("CloudBus.serverIp.0", "10.0.0.2")])
        (fun _ _ => Ok None)
        exists_
        (fun _ _ => "")
        (fun _ => "root")
        (fun _ _ _ => Ok true)
        (fun _ => Ok "jdbc:mysql://localhost:3306")
        (fun _ => Ok sample_portal)
        (fun _ w => Ok (rows w))
        (fun _ => Ok tt)
        (fun _ => Ok tt)
        (fun _ _ _ => Ok tt).

(** Whether a command line was run so far. *)
Definition shell_line_eqb (a b : ShellLine) : bool :=
  match a, b with
  | RmBootErrorLog, RmBootErrorLog => true
  | StartupScript, StartupScript => true
  | ShutdownScript, ShutdownScript => true
  | Kill9 p, Kill9 q => Pos.eqb p q
  | _, _ => false
  end.

Definition was_run (c : ShellLine) (w : World) : bool :=
  existsb (fun te => match snd te with
                     | EvShell c' _ => shell_line_eqb c c'
                     | _ => false
                     end) (trace w).

(** Every command exits with 0, except the port test of [check_8080]
    (nothing listens on 8080) and the readiness request (never answered). *)
Definition rc_never_ready (c : ShellLine) (w : World) : Z :=
  match c with
  | Netstat8080 => 1
  | WgetIsReady _ => 4
  | CurlIsReady _ => 7
  | _ => 0
  end.

(** The files of a complete installation that has not failed to boot. *)
Definition files_installed (path : string) (w : World) : bool :=
  negb (path =? StartCmd.boot_error_log)%string.

(** A management node that is up from the start script on and that nothing
    brings down. *)
Definition pid_after_startup (w : World) : option positive :=
  if was_run StartupScript w then Some 4242%positive else None.

(** A management node that is up whatever happens. *)
Definition pid_always (w : World) : option positive := Some 4242%positive.

(** A management node that is up until the stop script has run. *)
Definition pid_until_shutdown (w : World) : option positive :=
  if was_run ShutdownScript w then None else Some 4242%positive.

(** No management node. *)
Definition pid_never (w : World) : option positive := None.

Definition rc_ok (c : ShellLine) (w : World) : Z := 0.

(** The stop script fails; everything else is as in [rc_never_ready]. *)
Definition rc_shutdown_fails (c : ShellLine) (w : World) : Z :=
  match c with
  | ShutdownScript => 1
  | _ => rc_never_ready c w
  end.

(** Neither [wget] nor [curl] is installed; nothing listens on 8080. *)
Definition rc_no_probe_tool (c : ShellLine) (w : World) : Z :=
  match c with
  | Which Wget => 1
  | Which Curl => 1
  | Netstat8080 => 1
  | _ => 0
  end.

(** The readiness request is answered from the seventh second on. *)
Definition rc_ready_at_7 (c : ShellLine) (w : World) : Z :=
  match c with
  | Netstat8080 => 1
  | WgetIsReady _ => if clock w <? 7 then 4 else 0
  | _ => 0
  end.

Definition no_rows (w : World) : list Node := [].

(** [adds Q m]: [m] never rewrites the trace; it only appends events, and
    all of them satisfy [Q]. *)
Definition adds {A} (Q : Event -> Prop) (m : M A) : Prop :=
  forall w, exists added,
    extends w (snd (m w)) added /\ Forall (fun te => Q (snd te)) added.

(** Any computation of the embedding only appends to the trace. *)
Definition anything (e : Event) : Prop := True.

(** [timeless m]: [m] leaves the clock where it is. *)
Definition timeless {A} (m : M A) : Prop :=
  forall w, clock (snd (m w)) = clock w.

(** A boot error log that is there until [rm -f] removes it. *)
Definition files_with_boot_error_log (path : string) (w : World) : bool :=
  if (path =? StartCmd.boot_error_log)%string then negb (was_run RmBootErrorLog w)
  else true.

(** A management node that is up between the start script and the stop
    script. *)
Definition pid_managed (w : World) : option positive :=
  if was_run ShutdownScript w then None
  else if was_run StartupScript w then Some 4242%positive
  else None.

(** A reference definition, not a function of the program: steps run one
    after the other; the first that does not return ends the run. *)
Fixpoint run_steps (steps : list (M unit)) : M unit :=
  match steps with
  | [] => ret tt
  | s :: rest => s ;; run_steps rest
  end.

(** [E] with the answers [g] for [ctl.get_env]. *)
Definition with_get_env (E : Env) (g : string -> World -> Outcome (option string)) : Env :=
  mkEnv (shell_rc E) (shell_stdout E) (proc_cmdline E) (pid_in_file E)
        (read_property E) (read_property_list E) g (path_exists E)
        (read_file E) (getuser E) (check_ip_port E) (get_db_url E)
        (get_database_portal E) (query_nodes E) (locate_zstack_home E)
        (check_zstack_user E) (other_command E).

(** The time-series store and its database are installed. *)
Definition env_store_installed (name : string) (w : World) : Outcome (option string) :=
  if (name =? "KAIROSDB_EXEC")%string then Ok (Some "/opt/kairosdb/bin/kairosdb.sh")
  else if (name =? "CASSANDRA_EXEC")%string then Ok (Some "/opt/cassandra/bin/cassandra")
  else Ok None.

(** Events that leave the database and the backup directory alone: every
    event but the backup commands and the two runs of the migration tool. *)
Definition harmless (e : Event) : Prop :=
  match e with
  | EvShell MkdirBackupDir _ => False
  | EvShell (MysqldumpZstack _ _) _ => False
  | EvShell (FlywayBaseline _ _ _) _ => False
  | EvShell (FlywayMigrate _ _ _) _ => False
  | _ => True
  end.

Definition one_live_node : list Node :=
  [mkNode "10.0.0.11" "2016-01-01 10:00:00"].

(** [mysqldump] is not installed. *)
Definition rc_no_mysqldump (c : ShellLine) (w : World) : Z :=
  match c with
  | Which Mysqldump => 1
  | _ => 0
  end.

(** Two registered nodes, sampled before and after the 10 second wait:
    the heart beat of the first stays, that of the second moves. *)
Definition first_sample : list Node :=
  [mkNode "10.0.0.11" "1001"; mkNode "10.0.0.12" "1001"].
Definition second_sample : list Node :=
  [mkNode "10.0.0.11" "1001"; mkNode "10.0.0.12" "1002"].
Definition rows_one_stale_one_alive (w : World) : list Node :=
  if clock w <? 10 then first_sample else second_sample.

(** Two stale rows: no heart beat moves. *)
Definition rows_all_stale (w : World) : list Node := first_sample.

(** A process that already runs under the [zstack] identity while its real
    ids are root's, as inside an enclosing block. *)
Definition already_switched : Proc unit :=
  mkProc (mkCred 0 1000 0 0 1000 0) (Some "/root") tt.

Definition zstack_accounts : Accounts :=
  mkAccounts (Some (1000, "/home/zstack")) (Some 1000).

(* ===================================================================== *)
(** ** Reference definitions for the further properties *)
(* ===================================================================== *)

From Stdlib Require Import Permutation.

(** The statements of [StartCmd.run] that only check: the user test and
    [check_8080], [check_msyql], [check_rabbitmq], as [launch] runs them. *)
Definition dependency_checks (E : Env) : M unit :=
  user <- observe_pure (getuser E) ;;
  if negb (user =? "root")%string then raise (CtlError NeedRoot)
  else
    StartCmd.check_8080 E ;;
    StartCmd.check_msyql E ;;
    StartCmd.check_rabbitmq E.

(** Every event but a run of the start script. *)
Definition not_start_script (e : Event) : Prop :=
  match e with
  | EvShell StartupScript _ => False
  | _ => True
  end.

(** Every event but a run of the migration tool. *)
Definition no_flyway (e : Event) : Prop :=
  match e with
  | EvShell (FlywayBaseline _ _ _) _ => False
  | EvShell (FlywayMigrate _ _ _) _ => False
  | _ => True
  end.

(** The dump fails. *)
Definition rc_mysqldump_fails (c : ShellLine) (w : World) : Z :=
  match c with
  | MysqldumpZstack _ _ => 2
  | _ => 0
  end.

(* ===================================================================== *)
(** ** More Python string methods *)
(* ===================================================================== *)

Definition LF : ascii := "010"%char.
Definition TAB : ascii := "009"%char.
Definition CR : ascii := "013"%char.
Definition VT : ascii := "011"%char.
Definition FF : ascii := "012"%char.

(** [c in chars] for a character [c]. *)
Fixpoint in_set (c : ascii) (chars : string) : bool :=
  match chars with
  | EmptyString => false
  | String d rest => Ascii.eqb c d || in_set c rest
  end.

(** [s.lstrip(chars)]: drops the leading characters that are in [chars]. *)
Fixpoint lstrip_chars (chars s : string) : string :=
  match s with
  | EmptyString => EmptyString
  | String c s' => if in_set c chars then lstrip_chars chars s' else s
  end.

(** [s.rstrip(chars)]: drops the trailing characters that are in [chars]. *)
Fixpoint rstrip_chars (chars s : string) : string :=
  match s with
  | EmptyString => EmptyString
  | String c s' =>
      match rstrip_chars chars s' with
      | EmptyString => if in_set c chars then EmptyString else String c EmptyString
      | r => String c r
      end
  end.

(** [s.strip(chars)] *)
Definition strip_chars (chars s : string) : string :=
  lstrip_chars chars (rstrip_chars chars s).

(** The characters [str.strip()] removes. *)
Definition whitespace : string :=
  String " " (String TAB (String LF (String CR (String VT (String FF ""))))).

(** [s.strip()] *)
Definition strip (s : string) : string := strip_chars whitespace s.

(** The argument of [output.strip(' \t\n\r')]. *)
Definition blanks : string := String " " (String TAB (String LF (String CR ""))).

(** [s.split(sep)] for a separator of one character. *)
Fixpoint split_on (sep : ascii) (s : string) : list string :=
  match s with
  | EmptyString => [EmptyString]
  | String c s' =>
      match split_on sep s' with
      | [] => [String c EmptyString]
      | h :: t => if Ascii.eqb c sep then EmptyString :: h :: t
                  else String c h :: t
      end
  end.

(** [s.split(sep, 1)]: one part, or the two parts around the first [sep]. *)
Fixpoint split_once (sep : ascii) (s : string) : list string :=
  match s with
  | EmptyString => [EmptyString]
  | String c s' =>
      if Ascii.eqb c sep then [EmptyString; s']
      else match split_once sep s' with
           | h :: t => String c h :: t
           | [] => [String c EmptyString]
           end
  end.

(** [sep.join(parts)] *)
Fixpoint join (sep : string) (parts : list string) : string :=
  match parts with
  | [] => EmptyString
  | [p] => p
  | p :: rest => (p ++ sep ++ join sep rest)%string
  end.

(** [s[1:]] *)
Definition tail1 (s : string) : string :=
  match s with
  | EmptyString => EmptyString
  | String _ s' => s'
  end.

Definition is_digit (c : ascii) : bool :=
  let n := nat_of_ascii c in (48 <=? n)%nat && (n <=? 57)%nat.

Fixpoint all_digits (s : string) : bool :=
  match s with
  | EmptyString => true
  | String c s' => is_digit c && all_digits s'
  end.

(** [s.isdigit()]: at least one character, and digits only. *)
Definition isdigit (s : string) : bool :=
  match s with
  | EmptyString => false
  | _ => all_digits s
  end.

(** Whether the character occurs in the string. *)
Definition has_char (c : ascii) (s : string) : bool := in_set c s.

(* ===================================================================== *)
(** ** [find_process_by_cmdline] *)
(* ===================================================================== *)

(** The loop [for pid in pids] of [find_process_by_cmdline(keyword)] (the
    second definition of that name, which is the one in force).  An entry
    is the name of a directory of [/proc] with the content of its
    [cmdline] file, or [None] when opening the file raises [IOError]. *)
Fixpoint scan_pids (keyword : string) (pids : list (string * option string))
  : option string :=
  match pids with
  | [] => None
  | (pid, None) :: rest => scan_pids keyword rest
  | (pid, Some cmdline) :: rest =>
      if negb (contains keyword cmdline) then scan_pids keyword rest
      else Some pid
  end.

Definition find_process_by_cmdline (keyword : string)
    (proc : list (string * option string)) : option string :=
  let pids := filter (fun entry => isdigit (fst entry)) proc in
  scan_pids keyword pids.

(* ===================================================================== *)
(** ** Parsing the output of [mysql] and the JDBC URL *)
(* ===================================================================== *)

(** How a function without effects ends: with a value, with a [CtlError]
    (its message abridged), or with the [ValueError] of a failed
    unpacking. *)
Inductive Result (A : Type) : Type :=
| Returns (a : A)
| RaisesCtlError (msg : string)
| RaisesValueError.

Arguments Returns {A} a.
Arguments RaisesCtlError {A} msg.
Arguments RaisesValueError {A}.

(** A Python dictionary from strings to strings, as the list of its items
    in the order in which the keys were first set. *)
Definition Dict : Type := list (string * string).

(** [d[k] = v] *)
Fixpoint dict_set (k v : string) (d : Dict) : Dict :=
  match d with
  | [] => [(k, v)]
  | (k', v') :: rest =>
      if (k' =? k)%string then (k, v) :: rest
      else (k', v') :: dict_set k v rest
  end.

(** [d.get(k, None)] *)
Fixpoint dict_get (k : string) (d : Dict) : option string :=
  match d with
  | [] => None
  | (k', v') :: rest => if (k' =? k)%string then Some v' else dict_get k rest
  end.

(** [if k in d: del d[k]] *)
Fixpoint dict_del (k : string) (d : Dict) : Dict :=
  match d with
  | [] => []
  | (k', v') :: rest =>
      if (k' =? k)%string then rest else (k', v') :: dict_del k rest
  end.

Definition stars : string := "*********".

(** [if current: ret.append(current)] *)
Definition flush (current : option Dict) (ret : list Dict) : list Dict :=
  match current with
  | Some (item :: d) => ret ++ [item :: d]
  | _ => ret
  end.

(** The loop [for l in output.split('\n')] of [MySqlCommandLineQuery.query]
    and the statements after it. *)
Fixpoint parse_lines (lines : list string) (current : option Dict)
    (ret : list Dict) : Result (list Dict) :=
  match lines with
  | [] => Returns (flush current ret)
  | l :: rest =>
      if String.prefix stars l then
        parse_lines rest (Some []) (flush current ret)
      else
        match current with
        | None => RaisesCtlError "cannot parse mysql output"
        | Some d =>
            let l := strip l in
            match split_once ":" l with
            | [key; value] =>
                parse_lines rest (Some (dict_set (strip key) (tail1 value) d)) ret
            | _ => RaisesValueError
            end
        end
  end.

(** What [MySqlCommandLineQuery.query] makes of the output of the [mysql]
    command. *)
Definition query_parse (output : string) : Result (list Dict) :=
  let output := strip_chars blanks output in
  if negb (str_truthy output) then Returns []
  else parse_lines (split_on LF output) None [].

(** A printer of [mysql]'s vertical format ([\G]): for each row a line of
    stars, then one line for each column, the name padded on the left. *)
Fixpoint spaces (n : nat) : string :=
  match n with
  | O => EmptyString
  | S n' => String " " (spaces n')
  end.

Definition render_field (pad : string -> nat) (kv : string * string) : string :=
  (spaces (pad (fst kv)) ++ fst kv ++ ": " ++ snd kv)%string.

Definition render_row (pad : string -> nat) (row : string * Dict) : list string :=
  fst row :: map (render_field pad) (snd row).

Definition render (pad : string -> nat) (rows : list (string * Dict)) : string :=
  join (String LF "") (flat_map (render_row pad) rows).

(** Names [mysql] can print and the parser gives back: not empty, no white
    space on either side, no colon, no line feed, no star in front. *)
Definition key_ok (k : string) : bool :=
  str_truthy k && (lstrip_chars whitespace k =? k)%string
  && (rstrip_chars whitespace k =? k)%string
  && negb (has_char ":" k) && negb (has_char LF k)
  && negb (String.prefix "*" k).

(** Values the parser gives back: not empty, no white space at the end, no
    line feed. *)
Definition value_ok (v : string) : bool :=
  str_truthy v && (rstrip_chars whitespace v =? v)%string
  && negb (has_char LF v).

Fixpoint distinct (l : list string) : bool :=
  match l with
  | [] => true
  | x :: rest => negb (existsb (String.eqb x) rest) && distinct rest
  end.

Definition row_ok (row : string * Dict) : bool :=
  String.prefix stars (fst row) && negb (has_char LF (fst row))
  && match snd row with [] => false | _ => true end
  && distinct (map fst (snd row))
  && forallb (fun kv => key_ok (fst kv) && value_ok (snd kv)) (snd row).

(* ===================================================================== *)
(** ** [PropertyFile] and the commands that write it *)
(* ===================================================================== *)

Module PropertyFile.

Import UseUserZstack.

(** The file at [self.path]: absent, or the items that ConfigObj finds in
    it, which are the items last written to it.  Writing is taken to
    succeed. *)
Definition Files : Type := option Dict.

Definition act_bind {A B} (m : Act Files A) (k : A -> Act Files B) : Act Files B :=
  fun s => match m s with
           | (Ok a, s') => k a s'
           | (Raise e, s') => (Raise e, s')
           | (Hang, s') => (Hang, s')
           end.

Definition act_raise {A} (e : Exn) : Act Files A := fun s => (Raise e, s).

(** [PropertyFile(path)]: the items of the file become [self.config]. *)
Definition init : Act Files Dict :=
  fun s => match store s with
           | None => (Raise (CtlError (OtherCtlError "cannot find property file")), s)
           | Some config => (Ok config, s)
           end.

(** [self.config.write()] *)
Definition config_write (config : Dict) : Act Files unit :=
  fun s => (Ok tt, mkProc (cred s) (HOME s) (Some config)).

(** The loop [for key, value in lst] of [write_properties].  An item that
    is not a pair ends it with the [ValueError] of the unpacking, which is
    carried as the value of the block: [with use_user_zstack()] treats a
    block that raised and a block that returned alike. *)
Fixpoint write_items (lst : list (list string)) (config : Dict)
  : Act Files (Result unit) :=
  fun s =>
    match lst with
    | [] => (Ok (Returns tt), s)
    | [key; value] :: rest =>
        match config_write (dict_set key value config) s with
        | (Ok _, s') => write_items rest (dict_set key value config) s'
        | (Raise e, s') => (Raise e, s')
        | (Hang, s') => (Hang, s')
        end
    | _ :: _ => (Ok RaisesValueError, s)
    end.

(** [with on_error(msg): block] around a block whose own ending is a
    [Result]: a [CtlError] goes on, any other exception ends in
    [error(...)], that is [sys.exit(1)]. *)
Definition on_error_block {A} (block : Act Files (Result A)) : Act Files A :=
  fun s => match block s with
           | (Ok (Returns a), s') => (Ok a, s')
           | (Ok (RaisesCtlError msg), s') => (Raise (CtlError (OtherCtlError msg)), s')
           | (Ok RaisesValueError, s') => (Raise (SystemExit 1), s')
           | (Raise (CtlError e), s') => (Raise (CtlError e), s')
           | (Raise _, s') => (Raise (SystemExit 1), s')
           | (Hang, s') => (Hang, s')
           end.

(** [with on_error(msg): block] *)
Definition on_error_act {A} (block : Act Files A) : Act Files A :=
  fun s => match block s with
           | (Raise (CtlError e), s') => (Raise (CtlError e), s')
           | (Raise _, s') => (Raise (SystemExit 1), s')
           | r => r
           end.

(** [write_properties(lst)] of an object whose [config] is [config]
    ([use_zstack] is [True] for every object the program makes). *)
Definition write_properties (acc : Accounts) (lst : list (list string))
    (config : Dict) : Act Files unit :=
  on_error_block (with_use_user_zstack acc (write_items lst config)).

(** [delete_properties(keys)] *)
Definition delete_properties (acc : Accounts) (keys : list string)
    (config : Dict) : Act Files unit :=
  let config := fold_left (fun d k => dict_del k d) keys config in
  with_use_user_zstack acc (config_write config).

(** [read_property(key)] *)
Definition read_property (config : Dict) (key : string) : option string :=
  dict_get key config.

End PropertyFile.

(* ===================================================================== *)
(** ** [Ctl]: the property file, the database portal, the home directory *)
(* ===================================================================== *)

Module Ctl.

(** [self.read_property(key)]: [PropertyFile(path)] raises when there is no
    file, else the key is looked up in its items.  A value is taken to be a
    string, as it is for a JDBC URL, a user name and a password. *)
Definition read_property (file : option Dict) (key : string)
  : Result (option string) :=
  match file with
  | None => RaisesCtlError "cannot find property file"
  | Some config => Returns (dict_get key config)
  end.

Definition get_db_url (file : option Dict) : Result string :=
  match read_property file "DB.url" with
  | Returns db_url =>
      match (if negb (opt_truthy db_url)
             then read_property file "DbFacadeDataSource.jdbcUrl"
             else Returns db_url) with
      | Returns db_url =>
          match db_url with
          | Some url => if negb (str_truthy url)
                        then RaisesCtlError "cannot find DB url"
                        else Returns url
          | None => RaisesCtlError "cannot find DB url"
          end
      | RaisesCtlError msg => RaisesCtlError msg
      | RaisesValueError => RaisesValueError
      end
  | RaisesCtlError msg => RaisesCtlError msg
  | RaisesValueError => RaisesValueError
  end.

(** [db_url.lstrip('jdbc:mysql:').lstrip('/').split('/')[0].split(':')] *)
Definition host_and_port (db_url : string) : list string :=
  split_on ":"
    (hd "" (split_on "/" (lstrip_chars "/" (lstrip_chars "jdbc:mysql:" db_url)))).

Definition get_database_portal (file : option Dict) : Result Portal :=
  match read_property file "DB.user" with
  | Returns db_user =>
      match (if negb (opt_truthy db_user)
             then read_property file "DbFacadeDataSource.user"
             else Returns db_user) with
      | Returns db_user =>
          match (if negb (opt_truthy db_user) then None else db_user) with
          | None => RaisesCtlError "cannot find DB user"
          | Some db_user =>
              match read_property file "DB.password" with
              | Returns db_password =>
                  match (match db_password with
                         | None => read_property file "DbFacadeDataSource.password"
                         | Some _ => Returns db_password
                         end) with
                  | Returns None => RaisesCtlError "cannot find DB password"
                  | Returns (Some db_password) =>
                      match get_db_url file with
                      | Returns db_url =>
                          match host_and_port db_url with
                          | [db_hostname; db_port] =>
                              Returns (mkPortal db_hostname db_port db_user db_password)
                          | _ => RaisesValueError
                          end
                      | RaisesCtlError msg => RaisesCtlError msg
                      | RaisesValueError => RaisesValueError
                      end
                  | RaisesCtlError msg => RaisesCtlError msg
                  | RaisesValueError => RaisesValueError
                  end
              | RaisesCtlError msg => RaisesCtlError msg
              | RaisesValueError => RaisesValueError
              end
          end
      | RaisesCtlError msg => RaisesCtlError msg
      | RaisesValueError => RaisesValueError
      end
  | RaisesCtlError msg => RaisesCtlError msg
  | RaisesValueError => RaisesValueError
  end.

(** [write_properties(properties)] on [zstack.properties]. *)
Definition write_properties (acc : UseUserZstack.Accounts)
    (properties : list (list string)) : UseUserZstack.Act PropertyFile.Files unit :=
  PropertyFile.act_bind PropertyFile.init (fun config =>
    PropertyFile.on_error_act (PropertyFile.write_properties acc properties config)).

(** [get_env(name)] on the file of [zstack-ctl setenv]. *)
Definition get_env (name : string)
  : UseUserZstack.Act PropertyFile.Files (option string) :=
  PropertyFile.act_bind PropertyFile.init (fun config s =>
    (Ok (PropertyFile.read_property config name), s)).

(** [_locate_zstack_home]: the home directory it settles on.  [file]
    is the file of [zstack-ctl setenv], [environ] is
    [os.environ.get('ZSTACK_HOME', None)] and [isdir] is [os.path.isdir]. *)
Definition DEFAULT_ZSTACK_HOME : string :=
  "/usr/local/zstack/apache-tomcat/webapps/zstack/".

Definition _locate_zstack_home (file : option Dict) (environ : option string)
    (isdir : string -> bool) : Result string :=
  let zstack_home :=
    match file with
    | Some config => PropertyFile.read_property config "ZSTACK_HOME"
    | None => None
    end in
  let zstack_home := if negb (opt_truthy zstack_home) then environ else zstack_home in
  let zstack_home := if negb (opt_truthy zstack_home) then Some DEFAULT_ZSTACK_HOME
                     else zstack_home in
  match zstack_home with
  | Some home => if negb (isdir home)
                 then RaisesCtlError "cannot find ZSTACK_HOME"
                 else Returns home
  | None => RaisesCtlError "cannot find ZSTACK_HOME"
  end.

End Ctl.

Module ConfigureCmd.

(** [run(args)] when none of [--use-file], [--duplicate-to-remote] and
    [--host] is given: the properties on the command line are written to
    [zstack.properties]. *)
Definition run_local (acc : UseUserZstack.Accounts) (extra_arguments : list string)
  : UseUserZstack.Act PropertyFile.Files unit :=
  match extra_arguments with
  | [] => PropertyFile.act_raise
            (CtlError (OtherCtlError "please input properties that are in format of key=value"))
  | _ => let properties := map (split_once "=") extra_arguments in
         Ctl.write_properties acc properties
  end.

End ConfigureCmd.

Module SetEnvironmentVariableCmd.

(** The block [with use_user_zstack()] of [run]: the directory and the
    file are made if they are not there. *)
Definition create_if_missing : UseUserZstack.Act PropertyFile.Files unit :=
  fun s => (Ok tt, UseUserZstack.mkProc (UseUserZstack.cred s) (UseUserZstack.HOME s)
                     (match UseUserZstack.store s with
                      | None => Some []
                      | Some items => Some items
                      end)).

(** [run(args)]; [home_isdir] is [os.path.isdir(ctl.USER_ZSTACK_HOME_DIR)]. *)
Definition run (acc : UseUserZstack.Accounts) (home_isdir : bool)
    (extra_arguments : list string) : UseUserZstack.Act PropertyFile.Files unit :=
  match extra_arguments with
  | [] => PropertyFile.act_raise
            (CtlError (OtherCtlError "please input variables that are in format of key=value"))
  | _ =>
      if negb home_isdir then
        PropertyFile.act_raise
          (CtlError (OtherCtlError "cannot find home directory of user zstack"))
      else
        PropertyFile.act_bind
          (UseUserZstack.with_use_user_zstack acc create_if_missing) (fun _ =>
        PropertyFile.act_bind PropertyFile.init (fun config =>
          let arg_str := join " " extra_arguments in
          PropertyFile.write_properties acc [split_once "=" arg_str] config))
  end.

End SetEnvironmentVariableCmd.

Module UnsetEnvironmentVariableCmd.

(** [run(args)], up to the message it prints at the end. *)
Definition run (acc : UseUserZstack.Accounts) (extra_arguments : list string)
  : UseUserZstack.Act PropertyFile.Files unit :=
  fun s =>
    match UseUserZstack.store s with
    | None => (Ok tt, s)
    | Some _ =>
        match extra_arguments with
        | [] => PropertyFile.act_raise
                  (CtlError (OtherCtlError "please input a list of variable names you want to unset")) s
        | _ => PropertyFile.act_bind PropertyFile.init (fun config =>
                 PropertyFile.delete_properties acc extra_arguments config) s
        end
    end.

End UnsetEnvironmentVariableCmd.

(* ===================================================================== *)
(** ** Reference definitions for the property files *)
(* ===================================================================== *)

(** What the loop of [write_properties] comes to: how it ends and the
    items it has written. *)
Fixpoint written (lst : list (list string)) (config : Dict) : Result unit * Dict :=
  match lst with
  | [] => (Returns tt, config)
  | [key; value] :: rest => written rest (dict_set key value config)
  | _ :: _ => (RaisesValueError, config)
  end.

(** The ids after a block [with use_user_zstack()] has been left. *)
Definition settled (c : UseUserZstack.Cred) : UseUserZstack.Cred :=
  UseUserZstack.mkCred (UseUserZstack.ruid c) (UseUserZstack.ruid c) (UseUserZstack.suid c)
                       (UseUserZstack.rgid c) (UseUserZstack.rgid c) (UseUserZstack.sgid c).

(** [key=value] as typed on the command line. *)
Definition assignment (kv : string * string) : string :=
  (fst kv ++ String "=" (snd kv))%string.

(** The caller is root and [HOME] is set to [h]. *)
Definition privileged {Store} (h : string) (s : UseUserZstack.Proc Store) : Prop :=
  UseUserZstack.ruid (UseUserZstack.cred s) = 0 /\
  UseUserZstack.euid (UseUserZstack.cred s) = 0 /\
  UseUserZstack.HOME s = Some h.

(* ===================================================================== *)
(** ** Commands whose shell lines are built as text *)
(* ===================================================================== *)

(** What these commands do besides what a [World] records: the shell
    command lines they run, with their return codes, and what they print
    with [info] and [warn]. *)
Inductive TextEvent : Type :=
| TxShell (cmd : string) (rc : Z)
| TxInfo (msg : string)
| TxWarn (msg : string).

(** A [World] together with the text events, each with the time on the
    clock when it happened. *)
Record Host : Type := mkHost {
  world : World;
  texts : list (Z * TextEvent)
}.

Definition Cmd (A : Type) : Type := Host -> Outcome A * Host.

Definition cmd_ret {A} (a : A) : Cmd A := fun h => (Ok a, h).

Definition cmd_bind {A B} (m : Cmd A) (k : A -> Cmd B) : Cmd B :=
  fun h => match m h with
           | (Ok a, h') => k a h'
           | (Raise e, h') => (Raise e, h')
           | (Hang, h') => (Hang, h')
           end.

Definition cmd_raise {A} (e : Exn) : Cmd A := fun h => (Raise e, h).

Declare Scope cmd_scope.
Delimit Scope cmd_scope with cmd.
Notation "x <- m ;; k" := (cmd_bind m (fun x => k))
  (at level 61, m at next level, right associativity) : cmd_scope.
Notation "m ;; k" := (cmd_bind m (fun _ => k))
  (at level 61, right associativity) : cmd_scope.

(** A function of the first layer, run on the [World] of the host. *)
Definition lift {A} (m : M A) : Cmd A :=
  fun h => (fst (m (world h)), mkHost (snd (m (world h))) (texts h)).

Definition note (e : TextEvent) : Cmd unit :=
  fun h => (Ok tt, mkHost (world h) (texts h ++ [(clock (world h), e)])).

(** [info(msg)] and [warn(msg)] with the text they print. *)
Definition info_text (msg : string) : Cmd unit := note (TxInfo msg).
Definition warn (msg : string) : Cmd unit := note (TxWarn msg).

Record TextEnv : Type := mkTextEnv {
  under : Env;
  (** return code, standard output and standard error of a shell command
      line *)
  text_rc : string -> Host -> Z;
  text_stdout : string -> Host -> string;
  text_stderr : string -> Host -> string;
  (** the entries of [/proc], each with the content of its [cmdline] *)
  proc_entries : Host -> list (string * option string);
  (** [PropertyFile(path).read_property(key)] *)
  conf_property : string -> string -> Host -> Outcome (option string);
  (** [yaml.load(...)['rpc_port']] of the file at a path: whether the value
      counts as true, and how [%s] prints it *)
  yaml_rpc_port : string -> Host -> Outcome (bool * string);
  (** [os.path.isfile(path)] *)
  path_isfile : string -> Host -> bool
}.

Definition failed_to_execute (cmd : string) : Exn :=
  CtlError (OtherCtlError ("failed to execute shell command: " ++ cmd)).

(** [ShellCmd(cmd)(is_exception)] for a command line given as text. *)
Definition text_ShellCmd (E : TextEnv) (cmd : string) (is_exception : bool)
  : Cmd (Z * string) :=
  fun h =>
    let rc := text_rc E cmd h in
    let out := text_stdout E cmd h in
    let h' := mkHost (world h) (texts h ++ [(clock (world h), TxShell cmd rc)]) in
    if is_exception && negb (rc =? 0)
    then (Raise (failed_to_execute cmd), h')
    else (Ok (rc, out), h').

Definition text_shell (E : TextEnv) (cmd : string) : Cmd string :=
  cmd_bind (text_ShellCmd E cmd true) (fun r => cmd_ret (snd r)).

Definition text_shell_return (E : TextEnv) (cmd : string) : Cmd Z :=
  cmd_bind (text_ShellCmd E cmd false) (fun r => cmd_ret (fst r)).

(** [find_process_by_cmdline(keyword)] on the host. *)
Definition find_process (E : TextEnv) (keyword : string) : Cmd (option string) :=
  fun h => (Ok (find_process_by_cmdline keyword (proc_entries E h)), h).

(** [os.path.exists(path)]; [None] for a path is a [TypeError]. *)
Definition os_path_exists (E : TextEnv) (path : option string) : Cmd bool :=
  match path with
  | None => cmd_raise TypeError
  | Some p => lift (observe_pure (path_exists (under E) p))
  end.

(** ['%s' % pid] *)
Definition show_opt (o : option string) : string :=
  match o with
  | Some s => s
  | None => "None"
  end.

Definition dq : string := String "034"%char "".

(** The loop [while args.wait_timeout > 0] of [KairosdbCmd.start] and of
    [CassandraCmd.start], which runs [Z.to_nat wait_timeout] rounds at
    most: [true] when it returned from inside, [false] when it ran out. *)
Fixpoint wait_port (E : TextEnv) (what : string) (port : string) (rounds : nat)
  : Cmd bool :=
  match rounds with
  | O => cmd_ret false
  | S rounds' =>
      (ret <- text_shell_return E ("netstat -nap | grep " ++ port ++ " > /dev/null") ;;
       if ret =? 0 then
         info_text (what ++ " is listening on the port[" ++ port ++ "] now") ;;
         cmd_ret true
       else
         lift (time_sleep 1) ;;
         wait_port E what port rounds')%cmd
  end.

(** The loop [while count > 0] of the two [stop] methods: whether it
    returned from inside, and the [pid] it leaves. *)
Fixpoint wait_gone (E : TextEnv) (what keyword : string) (count : nat)
    (pid : option string) : Cmd (bool * option string) :=
  match count with
  | O => cmd_ret (false, pid)
  | S count' =>
      (pid <- find_process E keyword ;;
       if negb (opt_truthy pid) then
         info_text ("successfully stopped " ++ what) ;;
         cmd_ret (true, pid)
       else
         lift (time_sleep 1) ;;
         wait_gone E what keyword count' pid)%cmd
  end.

Module KairosdbCmd.

Record Args : Type := mkArgs {
  start_ : bool;
  stop_ : bool;
  status_ : bool;
  wait_timeout : Z
}.

Section WithEnv.

Variable E : TextEnv.
Local Open Scope cmd_scope.

Definition keyword : string := "org.kairosdb.core.Main".

Definition _status : Cmd (option string) := find_process E keyword.

Definition not_listening : Exn :=
  CtlError (OtherCtlError "kairosdb is not listening on the web port").

Definition start (args : Args) : Cmd unit :=
  pid <- _status ;;
  if opt_truthy pid then
    info_text ("kairosdb[PID:" ++ show_opt pid ++ "] is already running")
  else
    exe <- lift (observe (get_env (under E) "KAIROSDB_EXEC")) ;;
    present <- os_path_exists E exe ;;
    if negb present then
      cmd_raise (CtlError (OtherCtlError "cannot find the variable[KAIROSDB_EXEC]"))
    else
      text_shell E ("bash " ++ show_opt exe ++ " start") ;;
      info_text "successfully starts kairosdb" ;;
      if wait_timeout args <? 0 then cmd_ret tt
      else
        info_text "waiting for kairosdb to listen on web port" ;;
        conf <- lift (observe (get_env (under E) "KAIROSDB_CONF")) ;;
        if negb (opt_truthy conf) then
          warn "cannot find the variable[KAIROSDB_CONF], ignore --wait-timeout"
        else
          present <- os_path_exists E conf ;;
          if negb present then
            warn "cannot find kairosdb conf, ignore --wait-timeout"
          else
            port <- (fun h => (conf_property E (show_opt conf) "kairosdb.jetty.port" h, h)) ;;
            if negb (opt_truthy port) then
              cmd_raise (CtlError (OtherCtlError "kairosdb.jetty.port is not set"))
            else
              listening <- wait_port E "kairosdb" (show_opt port)
                             (Z.to_nat (wait_timeout args)) ;;
              if listening then cmd_ret tt
              else
                (* the message names [ctl.get_env(KAIROSDB_CONF)] *)
                lift (observe (get_env (under E) "KAIROSDB_CONF")) ;;
                cmd_raise not_listening.

Definition stop (args : Args) : Cmd unit :=
  pid <- _status ;;
  if negb (opt_truthy pid) then info_text "kairosdb is already stopped"
  else
    exe <- lift (observe (get_env (under E) "KAIROSDB_EXEC")) ;;
    present <- os_path_exists E exe ;;
    (if negb present then text_shell E ("kill " ++ show_opt pid)
     else text_shell E ("bash " ++ show_opt exe ++ " stop")) ;;
    r <- wait_gone E "kairosdb" keyword 30 pid ;;
    if fst r then cmd_ret tt
    else
      info_text "kairosdb is still running after 0 seconds, kill -9 it" ;;
      text_shell E ("kill -9 " ++ show_opt (snd r)) ;;
      cmd_ret tt.

Definition status (args : Args) : Cmd unit :=
  pid <- _status ;;
  if opt_truthy pid then info_text ("kairosdb[PID:" ++ show_opt pid ++ "] is running")
  else info_text "kairosdb is stopped".

Definition run (args : Args) : Cmd unit :=
  if start_ args then start args
  else if stop_ args then stop args
  else if status_ args then status args
  else status args.

End WithEnv.

End KairosdbCmd.

Module CassandraCmd.

Record Args : Type := mkArgs {
  start_ : bool;
  stop_ : bool;
  status_ : bool;
  wait_timeout : Z
}.

Section WithEnv.

Variable E : TextEnv.
Local Open Scope cmd_scope.

Definition keyword : string := "org.apache.cassandra.service.CassandraDaemon".

Definition _status : Cmd (option string) := find_process E keyword.

Definition not_listening : Exn :=
  CtlError (OtherCtlError "cassandra is not listening on RPC port").

(** [os.path.dirname(exe)] and [os.path.basename(exe)] are the
    environment's. *)
Variable dirname basename : string -> string.

Definition start (args : Args) : Cmd unit :=
  pid <- _status ;;
  if opt_truthy pid then
    info_text ("cassandra[PID:" ++ show_opt pid ++ "] is already running")
  else
    exe <- lift (observe (get_env (under E) "CASSANDRA_EXEC")) ;;
    if negb (opt_truthy exe) then
      cmd_raise (CtlError (OtherCtlError "cannot find the variable[CASSANDRA_EXEC]"))
    else
      text_shell E ("cd " ++ dirname (show_opt exe) ++ " && bash " ++ basename (show_opt exe)) ;;
      info_text "successfully starts cassandra" ;;
      if wait_timeout args <=? 0 then cmd_ret tt
      else
        info_text "waiting for cassandra to listen on the RPC port" ;;
        conf <- lift (observe (get_env (under E) "CASSANDRA_CONF")) ;;
        if negb (opt_truthy conf) then
          warn "cannot find the variable[CASSANDRA_CONF], ignore --wait-timeout"
        else
          present <- os_path_exists E conf ;;
          if negb present then
            warn "cannot find cassandra conf, ignore --wait-timeout"
          else
            port <- (fun h => (yaml_rpc_port E (show_opt conf) h, h)) ;;
            (if negb (fst port) then
               warn "cannot find parameter[rpc_port], ignore --wait-timeout"
             else cmd_ret tt) ;;
            listening <- wait_port E "cassandra" (snd port)
                           (Z.to_nat (wait_timeout args)) ;;
            if listening then cmd_ret tt
            else
              (* the message names [ctl.get_env(CASSANDRA_LOG)] *)
              lift (observe (get_env (under E) "CASSANDRA_LOG")) ;;
              cmd_raise not_listening.

Definition stop (args : Args) : Cmd unit :=
  pid <- _status ;;
  if negb (opt_truthy pid) then info_text "cassandra is already stopped"
  else
    text_shell E ("kill " ++ show_opt pid) ;;
    r <- wait_gone E "cassandra" keyword 30 pid ;;
    if fst r then cmd_ret tt
    else
      info_text "cassandra is still running after 0 seconds, kill -9 it" ;;
      text_shell E ("kill -9 " ++ show_opt (snd r)) ;;
      cmd_ret tt.

Definition status (args : Args) : Cmd unit :=
  pid <- _status ;;
  if negb (opt_truthy pid) then info_text "cassandra is stopped"
  else info_text ("cassandra[PID:" ++ show_opt pid ++ "] is running").

Definition run (args : Args) : Cmd unit :=
  if start_ args then start args
  else if stop_ args then stop args
  else if status_ args then status args
  else status args.

End WithEnv.

End CassandraCmd.

Module RollbackDatabaseCmd.

Record Args : Type := mkArgs {
  db_dump : string;
  root_password : option string;
  force : bool
}.

Section WithEnv.

Variable E : TextEnv.
Local Open Scope cmd_scope.

Definition test_cmd (args : Args) (p : Portal) : string :=
  if opt_truthy (root_password args) then
    "mysql -u root -p" ++ show_opt (root_password args) ++ " --host " ++ db_hostname p
      ++ " --port " ++ db_port p ++ " -e " ++ dq ++ "select 1" ++ dq
  else
    "mysql -u root --host " ++ db_hostname p ++ " --port " ++ db_port p
      ++ " -e " ++ dq ++ "select 1" ++ dq.

Definition restore_cmd (args : Args) (p : Portal) : string :=
  if opt_truthy (root_password args) then
    "mysql -u root -p" ++ show_opt (root_password args) ++ " --host " ++ db_hostname p
      ++ " --port " ++ db_port p ++ " -t zstack < " ++ db_dump args
  else
    "mysql -u root --host " ++ db_hostname p ++ " --port " ++ db_port p
      ++ " -t zstack < " ++ db_dump args.

(** [run(args)]; the hint that [error_not_exit] prints when the test of
    the server fails is left out. *)
Definition run (args : Args) : Cmd unit :=
  lift (error_if_tool_is_missing (under E) Mysql) ;;
  lift (check_if_management_node_has_stopped (under E) (force args)) ;;
  present <- lift (observe_pure (path_exists (under E) (db_dump args))) ;;
  if negb present then
    cmd_raise (CtlError (OtherCtlError (db_dump args ++ " not found")))
  else
    p <- lift (observe (get_database_portal (under E))) ;;
    r <- text_ShellCmd E (test_cmd args p) false ;;
    (if negb (fst r =? 0) then cmd_raise (failed_to_execute (test_cmd args p))
     else cmd_ret tt) ;;
    info_text "start to rollback the database ..." ;;
    text_shell E (restore_cmd args p) ;;
    info_text ("successfully rollback the database to the dump file " ++ db_dump args).

End WithEnv.

End RollbackDatabaseCmd.

Module DeployDBCmd.

Import UseUserZstack.

(** [port] is the decimal text of [args.port]. *)
Record Args : Type := mkArgs {
  root_password : option string;
  zstack_password : option string;
  host : string;
  port : string;
  no_update : bool;
  drop : bool;
  keep_db : bool
}.

(** [if not password: password = "''"] *)
Definition quoted_if_empty (password : option string) : string :=
  if negb (opt_truthy password) then "''" else show_opt password.

Definition check_existing_db (args : Args) : string :=
  if opt_truthy (root_password args) then
    "mysql --user=root --password=" ++ show_opt (root_password args) ++ " --host="
      ++ host args ++ " --port=" ++ port args ++ " -e " ++ dq ++ "use zstack" ++ dq
  else
    "mysql --user=root --host=" ++ host args ++ " --port=" ++ port args
      ++ " -e " ++ dq ++ "use zstack" ++ dq.

Definition deploy_cmd (script_path : string) (args : Args) : string :=
  "bash " ++ script_path ++ " root " ++ quoted_if_empty (root_password args) ++ " "
    ++ host args ++ " " ++ port args ++ " " ++ quoted_if_empty (zstack_password args).

(** The properties written at the end of [run]. *)
Definition properties (args : Args) : list (list string) :=
  let zstack_password := quoted_if_empty (zstack_password args) in
  let zstack_password := if (zstack_password =? "''")%string then "" else zstack_password in
  [["DB.user"; "zstack"];
   ["DB.password"; zstack_password];
   ["DB.url"; ("jdbc:mysql://" ++ host args ++ ":" ++ port args)%string]].

Section WithEnv.

Variable E : TextEnv.

(** [os.path.join(ctl.zstack_home, ...)] for the script and for the
    property file. *)
Variables script_path property_file_path : string.

Local Open Scope cmd_scope.

(** [run(args)] up to the update of [zstack.properties]. *)
Definition deploy (args : Args) : Cmd unit :=
  lift (error_if_tool_is_missing (under E) Mysql) ;;
  present <- lift (observe_pure (path_exists (under E) script_path)) ;;
  if negb present then cmd_raise (SystemExit 1)
  else
    present <- lift (observe_pure (path_exists (under E) property_file_path)) ;;
    if negb present then cmd_raise (SystemExit 1)
    else
      r <- text_ShellCmd E (check_existing_db args) false ;;
      if (fst r =? 0) && negb (drop args) then
        if keep_db args then
          info_text "detected existing zstack database and keep it"
        else
          cmd_raise (CtlError (OtherCtlError "detected existing zstack database"))
      else
        (fun h =>
           let cmd := deploy_cmd script_path args in
           let out := text_stdout E cmd h in
           let err := text_stderr E cmd h in
           match text_ShellCmd E cmd false h with
           | (Ok r, h') =>
               if negb (fst r =? 0) then
                 if (contains "ERROR 1044" out || contains "ERROR 1044" err)
                    || (contains "Access denied" out || contains "Access denied" err)
                 then (Raise (CtlError (OtherCtlError
                                "failed to deploy database, access denied")), h')
                 else (Raise (failed_to_execute cmd), h')
               else (Ok tt, h')
           | (Raise e, h') => (Raise e, h')
           | (Hang, h') => (Hang, h')
           end).

(** [run(args)] on the host and on [zstack.properties]. *)
Definition run (acc : Accounts) (args : Args)
  : Host * Proc PropertyFile.Files -> Outcome unit * (Host * Proc PropertyFile.Files) :=
  fun hs =>
    let (h, s) := hs in
    match deploy args h with
    | (Ok _, h1) =>
        match (if negb (no_update args)
               then Ctl.write_properties acc (properties args) s
               else (Ok tt, s)) with
        | (Ok _, s1) =>
            (fst (info_text "Successfully deployed ZStack database" h1),
             (snd (info_text "Successfully deployed ZStack database" h1), s1))
        | (Raise e, s1) => (Raise e, (h1, s1))
        | (Hang, s1) => (Hang, (h1, s1))
        end
    | (Raise e, h1) => (Raise e, (h1, s))
    | (Hang, h1) => (Hang, (h1, s))
    end.

End WithEnv.

End DeployDBCmd.

Module UpgradeManagementNodeCmd.

(** The paths that [run] builds with [os.path] and [time.strftime]. *)
Record Paths : Type := mkPaths {
  (** [ctl.zstack_home] *)
  zstack_home : string;
  (** [~zstack/upgrade/<time>] *)
  upgrade_tmp_dir : string;
  (** [os.path.join(upgrade_tmp_dir, 'zstack.properties')] and its
      [dirname] *)
  property_file_backup_path : string;
  property_file_backup_dir : string;
  (** [os.path.join(upgrade_tmp_dir, 'new', 'zstack.war')] *)
  downloaded_war : string;
  (** [expand_path(args.war_file)] *)
  local_war : string;
  (** the directory above [zstack_home] *)
  webapp_dir : string;
  (** [os.path.join(ctl.zstack_home, "WEB-INF/classes/tools/install.sh")] *)
  install_script : string;
  (** [os.path.join(ctl.zstack_home, "../../../")] and
      [os.path.join(ctl.zstack_home, '../../')] *)
  sdir : string;
  tomcat_dir : string;
  basename : string -> string
}.

Section WithEnv.

Variable E : TextEnv.
Variable P : Paths.

(** [args.war_file] and whether it starts with [http]. *)
Variable war_file : string.
Variable need_download : bool.

Local Open Scope cmd_scope.

(** [new_war.path] once [download_war_if_needed] has run. *)
Definition new_war_path : string :=
  if need_download then downloaded_war P else local_war P.

Definition backup_cmd : string :=
  "cp -r " ++ zstack_home P ++ " " ++ upgrade_tmp_dir P.

Definition wget_cmd : string :=
  "wget --no-check-certificate " ++ war_file ++ " -O " ++ downloaded_war P.

Definition remove_cmd : string := "rm -rf " ++ zstack_home P.

Definition backup : Cmd unit :=
  lift (internal_run (under E) "save_config"
          ("--save-to " ++ property_file_backup_dir P)) ;;
  text_shell E backup_cmd ;;
  info_text ("backup " ++ zstack_home P ++ " to " ++ upgrade_tmp_dir P).

Definition download_war_if_needed : Cmd unit :=
  if need_download then
    text_shell E wget_cmd ;;
    info_text ("downloaded new zstack.war to " ++ downloaded_war P)
  else cmd_ret tt.

Definition stop_node : Cmd unit :=
  info_text "start to stop the management node ..." ;;
  lift (internal_run (under E) "stop_node" "").

(** [upgrade()]; the last command runs in [webapp_dir]. *)
Definition upgrade : Cmd unit :=
  info_text "start to upgrade the management node ..." ;;
  text_shell E remove_cmd ;;
  text_shell E ("cp " ++ new_war_path ++ " " ++ webapp_dir P) ;;
  text_shell E ("unzip " ++ basename P new_war_path ++ " -d zstack") ;;
  cmd_ret tt.

Definition restore_config : Cmd unit :=
  info_text "restoring the zstack.properties ..." ;;
  lift (internal_run (under E) "restore_config"
          ("--restore-from " ++ property_file_backup_path P)).

Definition install_tools : Cmd unit :=
  info_text "upgrading zstack-cli, zstack-ctl; this may cost several minutes ..." ;;
  isfile <- (fun h => (Ok (path_isfile E (install_script P) h), h)) ;;
  if negb isfile then
    cmd_raise (CtlError (OtherCtlError ("cannot find " ++ install_script P)))
  else
    text_shell E ("bash " ++ install_script P ++ " zstack-cli") ;;
    text_shell E ("bash " ++ install_script P ++ " zstack-ctl") ;;
    info_text "successfully upgraded zstack-cli, zstack-ctl".

Definition save_new_war : Cmd unit :=
  text_shell E ("yes | cp " ++ new_war_path ++ " " ++ sdir P) ;;
  cmd_ret tt.

Definition chown_to_zstack : Cmd unit :=
  info_text "change permission to user zstack" ;;
  text_shell E ("chown -R zstack:zstack " ++ tomcat_dir P) ;;
  cmd_ret tt.

Definition local_upgrade : Cmd unit :=
  backup ;;
  download_war_if_needed ;;
  stop_node ;;
  upgrade ;;
  restore_config ;;
  install_tools ;;
  save_new_war ;;
  chown_to_zstack ;;
  info_text "Successfully upgraded the ZStack management node to a new version.".

End WithEnv.

End UpgradeManagementNodeCmd.

(* ===================================================================== *)
(** ** Reference definitions for the commands given as text *)
(* ===================================================================== *)

(** The shell command lines among some text events, in order. *)
Fixpoint shell_cmds (events : list (Z * TextEvent)) : list string :=
  match events with
  | [] => []
  | (_, TxShell cmd _) :: rest => cmd :: shell_cmds rest
  | _ :: rest => shell_cmds rest
  end.

(** The host [h'] comes after [h]: the clock has not gone back and the
    text events of [h] are the first of [h']. *)
Definition later (h h' : Host) (added : list (Z * TextEvent)) : Prop :=
  clock (world h) <= clock (world h') /\ texts h' = texts h ++ added.

(** Sample hosts: the services are installed, every observation of the
    first layer succeeds, and the two arguments decide the return code of
    each command line and the entries of [/proc]. *)
Definition env_services (name : string) (w : World) : Outcome (option string) :=
  if (name =? "KAIROSDB_EXEC")%string then Ok (Some "/opt/kairosdb/bin/kairosdb.sh")
  else if (name =? "KAIROSDB_CONF")%string then Ok (Some "/opt/kairosdb/conf/kairosdb.properties")
  else if (name =? "CASSANDRA_EXEC")%string then Ok (Some "/opt/cassandra/bin/cassandra")
  else if (name =? "CASSANDRA_CONF")%string then Ok (Some "/opt/cassandra/conf/cassandra.yaml")
  else if (name =? "CASSANDRA_LOG")%string then Ok (Some "/opt/cassandra/log")
  else Ok None.

Definition sample_text_env
    (rc : string -> Host -> Z)
    (procs : Host -> list (string * option string))
    (rows : World -> list Node) : TextEnv :=
  mkTextEnv (with_get_env (sample_env rc_ok pid_never (fun _ _ => true) rows) env_services)
            rc
            (fun _ _ => "")
            (fun _ _ => "")
            procs
            (fun _ _ _ => Ok (Some "8080"))
            (fun _ _ => Ok (true, "9160"))
            (fun _ _ => true).

Definition fresh_host : Host := mkHost (mkWorld 0 []) [].

(** No port is ever listened on; every other command line succeeds. *)
Definition rc_port_closed (cmd : string) (h : Host) : Z :=
  if String.prefix "netstat" cmd then 1 else 0.

Definition no_process (h : Host) : list (string * option string) := [].

(** A cassandra that no signal brings down. *)
Definition cassandra_forever (h : Host) : list (string * option string) :=
  [("1", Some "/sbin/init");
   ("812", Some "java org.apache.cassandra.service.CassandraDaemon")].

(** A cassandra that is gone three seconds after the start. *)
Definition cassandra_for_3s (h : Host) : list (string * option string) :=
  if clock (world h) <? 3
  then [("812", Some "java org.apache.cassandra.service.CassandraDaemon")]
  else [].

(** [grows m]: [m] keeps the text events it finds and may add some. *)
Definition grows {A} (m : Cmd A) : Prop :=
  forall h, exists more, texts (snd (m h)) = texts h ++ more.

Definition sample_paths : UpgradeManagementNodeCmd.Paths :=
  UpgradeManagementNodeCmd.mkPaths
    "/usr/local/zstack/apache-tomcat/webapps/zstack"
    "/home/zstack/upgrade/2016-01-12-10-30-00"
    "/home/zstack/upgrade/2016-01-12-10-30-00/zstack.properties"
    "/home/zstack/upgrade/2016-01-12-10-30-00"
    "/home/zstack/upgrade/2016-01-12-10-30-00/new/zstack.war"
    "/root/zstack.war"
    "/usr/local/zstack/apache-tomcat/webapps"
    "/usr/local/zstack/apache-tomcat/webapps/zstack/WEB-INF/classes/tools/install.sh"
    "/usr/local/zstack/apache-tomcat/webapps/zstack/../../../"
    "/usr/local/zstack/apache-tomcat/webapps/zstack/../../"
    (fun p => "zstack.war").

(** No event of [added] is the removal of the installation. *)
Definition no_removal (P : UpgradeManagementNodeCmd.Paths)
    (added : list (Z * TextEvent)) : Prop :=
  forall t rc, ~ In (t, TxShell (UpgradeManagementNodeCmd.remove_cmd P) rc) added.

(* ===================================================================== *)
(** ** Facts about the loop *)
(* ===================================================================== *)

Lemma rounds_nonpos (R I : Z) : 0 < I -> R <= 0 -> rounds R I = O.
Proof.
  intros HI HR. unfold rounds.
  assert ((R + I - 1) / I <= 0).
  { assert (H0 : (R + I - 1) / I < 1).
    { apply Z.div_lt_upper_bound; lia. }
    lia. }
  destruct ((R + I - 1) / I) eqn:Hq; simpl; try reflexivity; lia.
Qed.

Lemma rounds_pos (R I : Z) :
  0 < I -> 0 < R -> rounds R I = S (rounds (R - I) I).
Proof.
  intros HI HR. unfold rounds.
  replace (R + I - 1) with ((R - I + I - 1) + 1 * I) by lia.
  rewrite Z.div_add by lia.
  rewrite Z2Nat.inj_add.
  - simpl. rewrite Nat.add_comm. reflexivity.
  - apply Z.div_pos; lia.
  - lia.
Qed.

Lemma rounds_bounds (T I : Z) :
  0 < I -> 0 < T ->
  let n := Z.of_nat (rounds T I) in
  0 < n /\ (n - 1) * I < T /\ T <= n * I.
Proof.
  intros HI HT. unfold rounds. cbv zeta.
  assert (Hq : 1 <= (T + I - 1) / I).
  { apply Z.div_le_lower_bound; lia. }
  rewrite Z2Nat.id by lia.
  pose proof (Z.div_mod (T + I - 1) I ltac:(lia)) as Hdm.
  pose proof (Z.mod_pos_bound (T + I - 1) I HI) as Hm.
  nia.
Qed.

Lemma rounds_le_timeout (T I : Z) :
  0 < I -> (rounds T I <= Z.to_nat T)%nat.
Proof.
  intros HI. destruct (Z_lt_le_dec 0 T) as [HT|HT].
  - pose proof (rounds_bounds T I HI HT) as [Hn [Hlo _]]. cbv zeta in *.
    assert (Z.of_nat (rounds T I) <= T) by nia.
    lia.
  - rewrite rounds_nonpos by lia. lia.
Qed.

(** The loop driven by the clock makes exactly the polls that fit before
    the deadline. *)
Lemma loop_rounds_poll_n (I : Z) (f : M bool) :
  0 < I -> instantaneous f ->
  forall fuel expired w,
    (rounds (expired - clock w) I <= fuel)%nat ->
    loop_rounds fuel expired I f (clock w) w
    = poll_n (rounds (expired - clock w) I) I f w.
Proof.
  intros HI Hf. induction fuel as [|fuel IH]; intros expired w Hfuel.
  - simpl. destruct (clock w <? expired) eqn:Hlt.
    + apply Z.ltb_lt in Hlt. rewrite rounds_pos in Hfuel by lia. lia.
    + apply Z.ltb_ge in Hlt. rewrite rounds_nonpos by lia. reflexivity.
  - simpl. destruct (clock w <? expired) eqn:Hlt.
    + apply Z.ltb_lt in Hlt.
      rewrite rounds_pos in * by lia. simpl.
      unfold bind. destruct (f w) as [[[|]|e|] w'] eqn:Hfw; try reflexivity.
      apply Hf in Hfw.
      unfold time_sleep. replace (I <? 0) with false by (symmetry; apply Z.ltb_ge; lia).
      unfold time_time.
      set (w'' := mkWorld (clock w' + I) (trace (log (EvSleep I) w'))).
      change (clock w' + I) with (clock w'').
      rewrite IH.
      * subst w''. simpl. rewrite Hfw.
        replace (expired - (clock w + I)) with (expired - clock w - I) by lia.
        reflexivity.
      * subst w''. simpl. rewrite Hfw.
        replace (expired - (clock w + I)) with (expired - clock w - I) by lia.
        lia.
    + apply Z.ltb_ge in Hlt. rewrite rounds_nonpos by lia. reflexivity.
Qed.

Lemma loop_until_timeout_poll_n (T I : Z) (f : M bool) :
  0 < I -> instantaneous f ->
  forall w, loop_until_timeout T I f w = poll_n (rounds T I) I f w.
Proof.
  intros HI Hf w. unfold loop_until_timeout, bind, time_time.
  rewrite loop_rounds_poll_n by
    (auto; replace (clock w + T - clock w) with T by lia;
     pose proof (rounds_le_timeout T I HI); lia).
  replace (clock w + T - clock w) with T by lia. reflexivity.
Qed.

Lemma timed_predicate_instantaneous (P : Z -> bool) :
  instantaneous (timed_predicate P).
Proof.
  intros w w' H. unfold timed_predicate in H. inversion H. reflexivity.
Qed.

(** Polling a predicate that is false before the instant [th] and true
    from it on: either a poll at or after [th] answers, and it is the
    first such poll, or all [n] polls come too early. *)
Lemma poll_n_threshold (I th : Z) (P : Z -> bool) :
  0 < I ->
  (forall now, P now = true <-> th <= now) ->
  forall n w r w',
    poll_n n I (timed_predicate P) w = (r, w') ->
    (r = Ok true /\ th <= clock w' /\
     (exists k, 0 <= k < Z.of_nat n /\ clock w' = clock w + k * I) /\
     (clock w < clock w' -> clock w' - I < th))
    \/
    (r = Ok false /\ clock w' = clock w + Z.of_nat n * I /\
     (0 < Z.of_nat n -> clock w' - I < th)).
Proof.
  intros HI HP. induction n as [|n IH]; intros w r w' Hrun.
  - simpl in Hrun. unfold ret in Hrun. inversion Hrun; subst.
    right. repeat split; lia.
  - simpl in Hrun. unfold bind, timed_predicate in Hrun.
    destruct (P (clock w)) eqn:HPc.
    + unfold ret in Hrun. inversion Hrun; subst. simpl.
      left. repeat split.
      * apply HP; assumption.
      * exists 0. lia.
      * lia.
    + unfold time_sleep in Hrun.
      replace (I <? 0) with false in Hrun by (symmetry; apply Z.ltb_ge; lia).
      assert (Hbefore : clock w < th).
      { destruct (Z_lt_le_dec (clock w) th) as [|Hge]; [assumption|].
        apply HP in Hge. congruence. }
      apply IH in Hrun. simpl in Hrun.
      destruct Hrun as [(Hr & Hth & (k & Hk & Hclk) & Hfirst)
                       |(Hr & Hclk & Hlast)].
      * left. repeat split; try assumption.
        -- exists (k + 1). lia.
        -- intros _. destruct (Z.eq_dec k 0) as [->|Hk0]; [lia|].
           apply Hfirst. nia.
      * right. repeat split; try assumption.
        -- lia.
        -- intros _. destruct n as [|n'].
           ++ simpl in Hclk. lia.
           ++ apply Hlast. lia.
Qed.

Lemma poll_n_timed_extends (I : Z) (P : Z -> bool) :
  0 < I ->
  forall n w, exists added,
    extends w (snd (poll_n n I (timed_predicate P) w)) added.
Proof.
  intros HI. unfold extends. induction n as [|n IH]; intros w.
  - exists []. simpl. rewrite app_nil_r. reflexivity.
  - simpl. unfold bind, timed_predicate.
    destruct (P (clock w)).
    + eexists. reflexivity.
    + unfold time_sleep.
      replace (I <? 0) with false by (symmetry; apply Z.ltb_ge; lia).
      match goal with
      | |- context [poll_n n I _ ?w1] => destruct (IH w1) as [added Hadded]
      end.
      unfold timed_predicate in Hadded. rewrite Hadded. simpl.
      rewrite <- !app_assoc. eexists. reflexivity.
Qed.

(** The first thing a poll with at least one round does is to call the
    predicate. *)
Lemma poll_n_first_call (I : Z) (P : Z -> bool) (n : nat) (w : World) :
  0 < I ->
  exists rest,
    trace (snd (poll_n (S n) I (timed_predicate P) w))
    = trace w ++ (clock w, EvPredicate (P (clock w))) :: rest.
Proof.
  intros HI. simpl. unfold bind. unfold timed_predicate at 1.
  destruct (P (clock w)).
  - exists []. reflexivity.
  - unfold time_sleep.
    replace (I <? 0) with false by (symmetry; apply Z.ltb_ge; lia).
    match goal with
    | |- context [poll_n n I _ ?w1] =>
        destruct (poll_n_timed_extends I P HI n w1) as [added Hadded]
    end.
    unfold extends in Hadded. rewrite Hadded. simpl.
    rewrite <- !app_assoc. simpl. eexists. reflexivity.
Qed.

(* ===================================================================== *)
(** ** C1: the polling loop *)
(* ===================================================================== *)

(** C1, as stated, fails: with timeout 10 and interval 4 the loop polls at
    0, 4 and 8 and gives up at 12, so a predicate that becomes true at 9
    (within the timeout) is reported as timed out. *)
Lemma waitUntil_misses_late_success :
  ~ (fst (waitUntil 10 4 (becomes_true_at 0 9) 0) = Ok true <-> 9 <= 10).
Proof.
  intros [_ H]. specialize (H ltac:(lia)). vm_compute in H. discriminate H.
Qed.

(** C1 (amended).  For a timeout [T > 0], an interval [I > 0] and a
    predicate that is false before [t] and true from [t] on (time counted
    from the call): the loop calls the predicate at once; it always returns;
    it returns [True] exactly when one of the poll instants [0, I, 2I, ...]
    lies in [[t, T)]; when it returns [True] the elapsed time lies in
    [[t, t + I)]; otherwise it returns [False] and the elapsed time lies in
    [[T, T + I)]. *)
Theorem waitUntil_polls_on_a_grid (T I t start : Z) (P : Z -> bool) :
  0 < T -> 0 < I -> 0 <= t ->
  (forall now, P now = true <-> start + t <= now) ->
  let r := waitUntil T I P start in
  (exists rest, trace (snd r) = (start, EvPredicate (P start)) :: rest) /\
  (fst r = Ok true \/ fst r = Ok false) /\
  (fst r = Ok true <-> exists k, 0 <= k /\ t <= k * I < T) /\
  (fst r = Ok true -> t <= elapsed start r < t + I) /\
  (fst r = Ok false -> T <= elapsed start r < T + I).
Proof.
  intros HT HI Ht HP r.
  assert (Hr : r = poll_n (rounds T I) I (timed_predicate P) (fresh start)).
  { unfold r, waitUntil.
    apply loop_until_timeout_poll_n;
      [assumption | apply timed_predicate_instantaneous]. }
  pose proof (rounds_bounds T I HI HT) as (Hn & Hlo & Hhi). cbv zeta in *.
  split.
  { destruct (rounds T I) as [|n] eqn:Hrn; [simpl in Hn; lia|].
    rewrite Hr.
    destruct (poll_n_first_call I P n (fresh start) HI) as [rest Hrest].
    exists rest. rewrite Hrest. reflexivity. }
  destruct r as [res w'] eqn:Hres. symmetry in Hr.
  pose proof (poll_n_threshold I (start + t) P HI HP _ _ _ _ Hr) as Hcases.
  unfold elapsed. simpl in *.
  destruct Hcases as [(Hres' & Hth & (k & Hk & Hclk) & Hfirst)
                     |(Hres' & Hclk & Hlast)]; subst res.
  - split; [left; reflexivity|]. split; [|split].
    + split; [intros _|reflexivity]. exists k. nia.
    + intros _. split; [lia|].
      destruct (Z.eq_dec k 0) as [->|Hk0]; [lia|].
      assert (clock w' - I < start + t) by (apply Hfirst; nia). lia.
    + intros H; discriminate H.
  - split; [right; reflexivity|]. split; [|split].
    + split; [intros H; discriminate H|].
      intros (k & Hk0 & Hkt & HkT). exfalso.
      specialize (Hlast Hn).
      assert (k <= Z.of_nat (rounds T I) - 1) by nia.
      nia.
    + intros H; discriminate H.
    + intros _. nia.
Qed.

(** A run of the amended C1: timeout 10, interval 3, true from 5 on. *)
Lemma waitUntil_polls_on_a_grid_witness :
  let r := waitUntil 10 3 (becomes_true_at 100 5) 100 in
  (exists rest, trace (snd r) = (100, EvPredicate false) :: rest) /\
  (fst r = Ok true \/ fst r = Ok false) /\
  (fst r = Ok true <-> exists k, 0 <= k /\ 5 <= k * 3 < 10) /\
  (fst r = Ok true -> 5 <= elapsed 100 r < 5 + 3) /\
  (fst r = Ok false -> 10 <= elapsed 100 r < 10 + 3).
Proof.
  apply (waitUntil_polls_on_a_grid 10 3 5 100 (becomes_true_at 100 5));
    try lia.
  intros now. unfold becomes_true_at. apply Z.leb_le.
Defined.

(* ===================================================================== *)
(** ** Running the embedding step by step *)
(* ===================================================================== *)

Lemma bind_ok {A B} (m : M A) (k : A -> M B) (w w' : World) (a : A) :
  m w = (Ok a, w') -> bind m k w = k a w'.
Proof. intros H. unfold bind. rewrite H. reflexivity. Qed.

Lemma bind_raise {A B} (m : M A) (k : A -> M B) (w w' : World) (e : Exn) :
  m w = (Raise e, w') -> bind m k w = (Raise e, w').
Proof. intros H. unfold bind. rewrite H. reflexivity. Qed.

Lemma bind_hang {A B} (m : M A) (k : A -> M B) (w w' : World) :
  m w = (Hang, w') -> bind m k w = (Hang, w').
Proof. intros H. unfold bind. rewrite H. reflexivity. Qed.

Lemma bind_assoc {A B C} (m : M A) (k : A -> M B) (h : B -> M C) (w : World) :
  bind (bind m k) h w = bind m (fun a => bind (k a) h) w.
Proof. unfold bind. destruct (m w) as [[a|e|] w']; reflexivity. Qed.

Lemma ShellCmd_call_checked (E : Env) (c : ShellLine) (w : World) :
  ShellCmd_call E c true w =
    if shell_rc E c w =? 0
    then (Ok (shell_rc E c w, shell_stdout E c w), log (EvShell c (shell_rc E c w)) w)
    else (Raise (CtlError (ShellFailed c (shell_rc E c w))),
          log (EvShell c (shell_rc E c w)) w).
Proof.
  unfold ShellCmd_call. destruct (shell_rc E c w =? 0); reflexivity.
Qed.

Lemma shell_ok (E : Env) (c : ShellLine) (w : World) :
  shell_rc E c w = 0 ->
  shell E c w = (Ok (shell_stdout E c w), log (EvShell c 0) w).
Proof.
  intros H. unfold shell. erewrite bind_ok.
  2:{ rewrite ShellCmd_call_checked, H. reflexivity. }
  reflexivity.
Qed.

Lemma shell_failed (E : Env) (c : ShellLine) (w : World) :
  shell_rc E c w <> 0 ->
  shell E c w = (Raise (CtlError (ShellFailed c (shell_rc E c w))),
                 log (EvShell c (shell_rc E c w)) w).
Proof.
  intros H. unfold shell. erewrite bind_raise; [reflexivity|].
  rewrite ShellCmd_call_checked.
  destruct (shell_rc E c w =? 0) eqn:Hrc; [|reflexivity].
  apply Z.eqb_eq in Hrc. contradiction.
Qed.

Lemma shell_return_eq (E : Env) (c : ShellLine) (w : World) :
  shell_return E c w = (Ok (shell_rc E c w), log (EvShell c (shell_rc E c w)) w).
Proof. reflexivity. Qed.

Lemma get_management_node_pid_eq (E : Env) (w : World) (r : option positive) :
  pid_lookup E w = Ok r ->
  get_management_node_pid E w = (Ok r, log (EvPid r) w).
Proof.
  intros H. unfold get_management_node_pid, bind, observe, emit, ret.
  rewrite H. reflexivity.
Qed.

Lemma info_eq (m : Message) (w : World) :
  info m w = (Ok tt, log (EvInfo m) w).
Proof. reflexivity. Qed.

(* ===================================================================== *)
(** ** Computations that take no time *)
(* ===================================================================== *)

Lemma timeless_ret {A} (a : A) : timeless (ret a).
Proof. intros w. reflexivity. Qed.

Lemma timeless_raise {A} (e : Exn) : timeless (@raise A e).
Proof. intros w. reflexivity. Qed.

Lemma timeless_observe {A} (o : World -> Outcome A) : timeless (observe o).
Proof. intros w. reflexivity. Qed.

Lemma timeless_emit (e : Event) : timeless (emit e).
Proof. intros w. reflexivity. Qed.

Lemma timeless_info (m : Message) : timeless (info m).
Proof. intros w. reflexivity. Qed.

Lemma timeless_bind {A B} (m : M A) (k : A -> M B) :
  timeless m -> (forall a, timeless (k a)) -> timeless (bind m k).
Proof.
  intros Hm Hk w. unfold bind. pose proof (Hm w) as Hw.
  destruct (m w) as [[a|e|] w1]; simpl in *; try assumption.
  rewrite Hk. assumption.
Qed.

Lemma timeless_ShellCmd_call (E : Env) (c : ShellLine) (b : bool) :
  timeless (ShellCmd_call E c b).
Proof.
  intros w. unfold ShellCmd_call.
  destruct (b && negb (shell_rc E c w =? 0)); reflexivity.
Qed.

Lemma timeless_shell (E : Env) (c : ShellLine) : timeless (shell E c).
Proof.
  apply timeless_bind; [apply timeless_ShellCmd_call|].
  intros a. apply timeless_ret.
Qed.

Lemma timeless_on_error {A} (body : M A) :
  timeless body -> timeless (on_error body).
Proof.
  intros Hb w. unfold on_error. pose proof (Hb w) as Hw.
  destruct (body w) as [[a|[e|code| | | |]|] w1]; simpl in *; assumption.
Qed.

Lemma timeless_get_management_node_pid (E : Env) :
  timeless (get_management_node_pid E).
Proof.
  unfold get_management_node_pid.
  apply timeless_bind; [apply timeless_observe|]. intros r.
  apply timeless_bind; [apply timeless_emit|]. intros _. apply timeless_ret.
Qed.

Create HintDb timeless.
#[export] Hint Resolve timeless_ret timeless_raise timeless_observe
  timeless_emit timeless_info timeless_ShellCmd_call timeless_shell
  timeless_on_error timeless_get_management_node_pid : timeless.
#[export] Hint Extern 4 (timeless (bind _ _)) =>
  apply timeless_bind; [|intros ?] : timeless.
#[export] Hint Extern 4 (timeless (if ?b then _ else _)) => destruct b : timeless.
#[export] Hint Extern 4 (timeless (match ?x with _ => _ end)) => destruct x : timeless.

(** A poll of [n] rounds sleeps at most [n] intervals. *)
Lemma poll_n_clock (f : M bool) (I : Z) :
  0 <= I -> timeless f ->
  forall n w,
    clock w <= clock (snd (poll_n n I f w)) <= clock w + Z.of_nat n * I.
Proof.
  intros HI Hf. induction n as [|n IH]; intros w.
  - simpl. lia.
  - rewrite Nat2Z.inj_succ. cbn [poll_n].
    pose proof (Hf w) as Hw. unfold bind, time_sleep, ret.
    replace (I <? 0) with false by (symmetry; apply Z.ltb_ge; lia).
    destruct (f w) as [[[|]|e|] w1]; cbn [fst snd] in Hw |- *; try nia.
    match goal with
    | |- context [poll_n n I f ?w2] => pose proof (IH w2) as Hn
    end.
    cbn [clock] in Hn. nia.
Qed.

(* ===================================================================== *)
(** ** Facts about [stop_node] *)
(* ===================================================================== *)

Lemma wait_stop_instantaneous (E : Env) : instantaneous (StopCmd.wait_stop E).
Proof.
  intros w w' H.
  unfold StopCmd.wait_stop, get_management_node_pid, bind, observe, emit, ret in H.
  destruct (pid_lookup E w) as [[p|]|e|]; inversion H; reflexivity.
Qed.

Lemma rounds_30_1 : rounds 30 1 = 30%nat.
Proof. reflexivity. Qed.

(** Three runs of [stop_node]: the node goes away with the stop script;
    the node stays, is polled for 30 seconds and killed; the node is killed
    at once with [--force]. *)
Example stop_node_graceful :
  StopCmd.run (sample_env rc_ok pid_until_shutdown files_installed no_rows)
              (StopCmd.mkArgs None false) (fresh 0)
  = (Ok tt, mkWorld 0 [(0, EvPid (Some 4242%positive));
                       (0, EvShell ShutdownScript 0);
                       (0, EvPid None);
                       (0, EvInfo MsgStoppedOk)]).
Proof. reflexivity. Qed.

Example stop_node_kills_after_30_seconds :
  let r := StopCmd.run (sample_env rc_ok pid_always files_installed no_rows)
                       (StopCmd.mkArgs None false) (fresh 0) in
  fst r = Ok tt /\ clock (snd r) = 30 /\
  last (trace (snd r)) (0, EvSleep 0) = (30, EvShell (Kill9 4242) 0) /\
  List.length
    (filter (fun te => match snd te with EvSleep _ => true | _ => false end)
            (trace (snd r))) = 30%nat.
Proof. vm_compute. repeat split. Qed.

Example stop_node_forced :
  StopCmd.run (sample_env rc_ok pid_always files_installed no_rows)
              (StopCmd.mkArgs None true) (fresh 0)
  = (Ok tt, mkWorld 0 [(0, EvPid (Some 4242%positive));
                       (0, EvPid (Some 4242%positive));
                       (0, EvShell (Kill9 4242) 0)]).
Proof. reflexivity. Qed.

(* ===================================================================== *)
(** ** C7: stopping a stopped node *)
(* ===================================================================== *)



(* ===================================================================== *)
(** ** C5: graceful stop, bounded poll, forced kill *)
(* ===================================================================== *)




(* ===================================================================== *)
(** ** What a computation adds to the trace *)
(* ===================================================================== *)

Section Adds.

Variable Q : Event -> Prop.

Lemma adds_nothing {A} (m : M A) :
  (forall w, snd (m w) = w) -> adds Q m.
Proof.
  intros H w. exists []. rewrite H. split; [|constructor].
  unfold extends. rewrite app_nil_r. reflexivity.
Qed.

Lemma adds_ret {A} (a : A) : adds Q (ret a).
Proof. apply adds_nothing. reflexivity. Qed.

Lemma adds_raise {A} (e : Exn) : adds Q (@raise A e).
Proof. apply adds_nothing. reflexivity. Qed.

Lemma adds_observe {A} (o : World -> Outcome A) : adds Q (observe o).
Proof. apply adds_nothing. reflexivity. Qed.

Lemma adds_observe_pure {A} (o : World -> A) : adds Q (observe_pure o).
Proof. apply adds_nothing. reflexivity. Qed.

Lemma adds_time_time : adds Q time_time.
Proof. apply adds_nothing. reflexivity. Qed.

Lemma adds_emit (e : Event) : Q e -> adds Q (emit e).
Proof.
  intros He w. exists [(clock w, e)]. split; [reflexivity|].
  constructor; [assumption|constructor].
Qed.

Lemma adds_info (m : Message) : Q (EvInfo m) -> adds Q (info m).
Proof. apply adds_emit. Qed.

Lemma adds_time_sleep (d : Z) : Q (EvSleep d) -> adds Q (time_sleep d).
Proof.
  intros He w. unfold time_sleep. destruct (d <? 0).
  - exists []. split; [unfold extends; simpl; rewrite app_nil_r; reflexivity|constructor].
  - exists [(clock w, EvSleep d)]. split; [reflexivity|].
    constructor; [assumption|constructor].
Qed.

Lemma adds_bind {A B} (m : M A) (k : A -> M B) :
  adds Q m -> (forall a, adds Q (k a)) -> adds Q (bind m k).
Proof.
  intros Hm Hk w. unfold bind.
  destruct (Hm w) as (added & Hext & Hall).
  destruct (m w) as [[a|e|] w1]; simpl in *.
  - destruct (Hk a w1) as (added' & Hext' & Hall').
    exists (added ++ added'). split.
    + unfold extends in *. rewrite Hext', Hext, app_assoc. reflexivity.
    + apply Forall_app. split; assumption.
  - exists added. split; assumption.
  - exists added. split; assumption.
Qed.

Lemma adds_ShellCmd_call (E : Env) (c : ShellLine) (b : bool) :
  (forall rc, Q (EvShell c rc)) -> adds Q (ShellCmd_call E c b).
Proof.
  intros Hc w. exists [(clock w, EvShell c (shell_rc E c w))].
  split.
  - unfold ShellCmd_call. destruct (b && negb (shell_rc E c w =? 0)); reflexivity.
  - constructor; [apply Hc|constructor].
Qed.

Lemma adds_shell (E : Env) (c : ShellLine) :
  (forall rc, Q (EvShell c rc)) -> adds Q (shell E c).
Proof.
  intros Hc. apply adds_bind; [apply adds_ShellCmd_call; assumption|].
  intros a. apply adds_ret.
Qed.

Lemma adds_shell_no_pipe (E : Env) (c : ShellLine) :
  (forall rc, Q (EvShell c rc)) -> adds Q (shell_no_pipe E c).
Proof.
  intros Hc. apply adds_bind; [apply adds_ShellCmd_call; assumption|].
  intros a. apply adds_ret.
Qed.

Lemma adds_shell_return (E : Env) (c : ShellLine) :
  (forall rc, Q (EvShell c rc)) -> adds Q (shell_return E c).
Proof.
  intros Hc. apply adds_bind; [apply adds_ShellCmd_call; assumption|].
  intros a. apply adds_ret.
Qed.

Lemma adds_try_except_pass (body : M unit) :
  adds Q body -> adds Q (try_except_pass body).
Proof.
  intros Hb w. unfold try_except_pass.
  destruct (Hb w) as (added & Hext & Hall).
  exists added. destruct (body w) as [[a|e|] w1]; split; assumption.
Qed.

Lemma adds_try_except_CtlError {A} (body : M A) (handler : CtlErr -> M A) :
  adds Q body -> (forall e, adds Q (handler e)) ->
  adds Q (try_except_CtlError body handler).
Proof.
  intros Hb Hh w. unfold try_except_CtlError.
  destruct (Hb w) as (added & Hext & Hall).
  destruct (body w) as [[a|[e|code| | | |]|] w1]; simpl in *;
    try (exists added; split; assumption).
  destruct (Hh e w1) as (added' & Hext' & Hall').
  exists (added ++ added'). split.
  - unfold extends in *. rewrite Hext', Hext, app_assoc. reflexivity.
  - apply Forall_app. split; assumption.
Qed.

Lemma adds_on_error {A} (body : M A) :
  Q (EvInfo MsgError) -> adds Q body -> adds Q (on_error body).
Proof.
  intros HQ Hb w. unfold on_error.
  destruct (Hb w) as (added & Hext & Hall).
  destruct (body w) as [[a|[e|code| | | |]|] w1]; simpl in *;
    try (exists added; split; assumption);
    (exists (added ++ [(clock w1, EvInfo MsgError)]); split;
     [unfold extends in *; simpl; rewrite Hext, app_assoc; reflexivity
     |apply Forall_app; split; [assumption|constructor; [assumption|constructor]]]).
Qed.

Lemma adds_loop_rounds (f : M bool) (I : Z) :
  Q (EvSleep I) -> adds Q f ->
  forall fuel expired current, adds Q (loop_rounds fuel expired I f current).
Proof.
  intros HI Hf. induction fuel as [|fuel IH]; intros expired current; simpl.
  - destruct (current <? expired); [|apply adds_ret].
    apply adds_nothing. reflexivity.
  - destruct (current <? expired); [|apply adds_ret].
    apply adds_bind; [assumption|]. intros [|]; [apply adds_ret|].
    apply adds_bind; [apply adds_time_sleep; assumption|]. intros _.
    apply adds_bind; [apply adds_time_time|]. intros c. apply IH.
Qed.

Lemma adds_loop_until_timeout (f : M bool) (T I : Z) :
  Q (EvSleep I) -> adds Q f -> adds Q (loop_until_timeout T I f).
Proof.
  intros HI Hf. unfold loop_until_timeout.
  apply adds_bind; [apply adds_time_time|]. intros c.
  apply adds_loop_rounds; assumption.
Qed.

Lemma adds_get_management_node_pid (E : Env) :
  (forall r, Q (EvPid r)) -> adds Q (get_management_node_pid E).
Proof.
  intros HQ. unfold get_management_node_pid.
  apply adds_bind; [apply adds_observe|]. intros r.
  apply adds_bind; [apply adds_emit; apply HQ|]. intros _. apply adds_ret.
Qed.

End Adds.

Create HintDb adds.
#[export] Hint Resolve adds_ret adds_raise adds_observe adds_observe_pure
  adds_time_time adds_emit adds_info adds_time_sleep adds_ShellCmd_call
  adds_shell adds_shell_no_pipe adds_shell_return adds_try_except_pass
  adds_on_error adds_loop_until_timeout adds_get_management_node_pid : adds.
#[export] Hint Extern 1 (anything _) => exact I : adds.
#[export] Hint Extern 4 (adds _ (bind _ _)) => apply adds_bind; [|intros ?] : adds.
#[export] Hint Extern 4 (adds _ (if ?b then _ else _)) => destruct b : adds.
#[export] Hint Extern 4 (adds _ (match ?x with _ => _ end)) => destruct x : adds.

Lemma StopCmd_run_adds (E : Env) (args : StopCmd.Args) :
  adds anything (StopCmd.run E args).
Proof.
  assert (Hk : adds anything (StopCmd.kill_if_present E args 30)).
  { unfold StopCmd.kill_if_present. auto 10 with adds. }
  unfold StopCmd.run, StopCmd._stop_remote, StopCmd.wait_stop.
  destruct (opt_truthy (StopCmd.host args)).
  - destruct (StopCmd.host args); auto with adds.
  - apply adds_bind; [auto with adds|]. intros [p|]; [|auto with adds].
    cbv zeta. destruct (negb (StopCmd.force args)); [|assumption].
    apply adds_bind; [auto with adds|]. intros _.
    apply adds_bind; [auto 10 with adds|]. intros [|]; auto with adds.
Qed.

Lemma internal_run_with_first_event (E : Env) (cmd : M unit) (name args : string) :
  adds anything cmd ->
  forall w, exists rest,
    extends w (snd (internal_run_with E cmd name args w))
      ((clock w, EvInternalRun name args) :: rest).
Proof.
  intros Hcmd w. unfold internal_run_with.
  unfold bind at 1. unfold emit at 1.
  assert (Hrest : adds anything
            (observe (locate_zstack_home E) ;; observe (check_zstack_user E) ;; cmd)).
  { auto 10 with adds. }
  destruct (Hrest (log (EvInternalRun name args) w)) as (added & Hext & _).
  exists added. unfold extends in *. rewrite Hext. simpl.
  rewrite <- app_assoc. reflexivity.
Qed.

(* ===================================================================== *)
(** ** Facts about [start_node] *)
(* ===================================================================== *)

Lemma check_keeps_clock (E : Env) (w : World) :
  clock (snd (StartCmd.check E w)) = clock w.
Proof.
  unfold StartCmd.check, create_check_mgmt_node_command, shell_return,
    ShellCmd_call, observe_pure, bind, raise, ret.
  simpl.
  repeat match goal with
         | |- context [if ?b then _ else _] => destruct b; simpl
         end; reflexivity.
Qed.

Lemma check_instantaneous (E : Env) : instantaneous (StartCmd.check E).
Proof.
  intros w w' H. pose proof (check_keeps_clock E w) as Hc.
  rewrite H in Hc. exact Hc.
Qed.

Lemma rounds_interval_1 (T : Z) : rounds T 1 = Z.to_nat T.
Proof.
  unfold rounds. replace (T + 1 - 1) with T by lia.
  rewrite Z.div_1_r. reflexivity.
Qed.

(** A predicate that always answers [False], and at once, is polled [n]
    times and the poll gives up after [n] intervals. *)
Lemma poll_n_never (f : M bool) (I : Z) :
  0 <= I ->
  (forall w, fst (f w) = Ok false) ->
  (forall w, clock (snd (f w)) = clock w) ->
  forall n w, exists w',
    poll_n n I f w = (Ok false, w') /\ clock w' = clock w + Z.of_nat n * I.
Proof.
  intros HI Hnever Hclock. induction n as [|n IH]; intros w.
  - exists w. split; [reflexivity|]. simpl. lia.
  - cbn [poll_n]. unfold bind at 1.
    pose proof (Hnever w) as Hf. pose proof (Hclock w) as Hc.
    destruct (f w) as [res w1]. simpl in Hf, Hc. subst res.
    unfold bind, time_sleep.
    replace (I <? 0) with false by (symmetry; apply Z.ltb_ge; lia).
    match goal with
    | |- context [poll_n n I f ?w2] => destruct (IH w2) as (w' & Hrun & Hclk)
    end.
    exists w'. split; [exact Hrun|]. simpl in Hclk. lia.
Qed.

(** A run of [start_node] whose readiness request is answered at the third
    poll, two seconds into the wait. *)
Example start_node_becomes_ready :
  let r := StartCmd.run (sample_env rc_ready_at_7 pid_managed files_installed no_rows)
                        StartCmd.default_args (fresh 0) in
  fst r = Ok tt /\ clock (snd r) = 7 /\
  last (trace (snd r)) (0, EvSleep 0) = (7, EvInfo MsgStartedOk) /\
  In (0, EvShell StartupScript 0) (trace (snd r)).
Proof. vm_compute. repeat split. auto 10. Qed.

(* ===================================================================== *)
(** ** C6: starting a running node *)
(* ===================================================================== *)

(** C6, as stated, fails: [start_node] on a running node returns normally
    but is not free of side effects: before it looks for the process it
    runs [rm -f] on the boot error log, which is there before the call and
    gone after it. *)
Lemma start_node_when_running_removes_boot_error_log :
  let E := sample_env rc_ok pid_always files_with_boot_error_log no_rows in
  let w := fresh 0 in
  let r := StartCmd.run E StartCmd.default_args w in
  pid_lookup E w = Ok (Some 4242%positive) /\
  fst r = Ok tt /\
  path_exists E StartCmd.boot_error_log w = true /\
  path_exists E StartCmd.boot_error_log (snd r) = false /\
  trace (snd r) = [(0, EvShell RmBootErrorLog 0);
                   (0, EvPid (Some 4242%positive));
                   (0, EvInfo (MsgAlreadyRunning 4242%positive))].
Proof. repeat split. Qed.

(** C6 (amended).  [start_node] on this machine first removes the boot
    error log with [rm -f]; if that command fails its error is raised.
    Otherwise, when [get_management_node_pid] then finds a management node,
    the command prints that the node is already running and returns
    normally: no dependency is checked, no start command is run, nothing is
    waited for. *)
Theorem start_node_when_running
    (E : Env) (args : StartCmd.Args) (w : World) (p : positive) :
  opt_truthy (StartCmd.host args) = false ->
  let rc := shell_rc E RmBootErrorLog w in
  let w1 := log (EvShell RmBootErrorLog rc) w in
  pid_lookup E w1 = Ok (Some p) ->
  StartCmd.run E args w =
    if rc =? 0
    then (Ok tt, mkWorld (clock w)
                   (trace w ++ [(clock w, EvShell RmBootErrorLog 0);
                                (clock w, EvPid (Some p));
                                (clock w, EvInfo (MsgAlreadyRunning p))]))
    else (Raise (CtlError (ShellFailed RmBootErrorLog rc)), w1).
Proof.
  intros Hlocal rc w1 Hpid. unfold StartCmd.run. rewrite Hlocal.
  destruct (rc =? 0) eqn:Hrc.
  - apply Z.eqb_eq in Hrc.
    erewrite bind_ok by (apply shell_ok; assumption).
    unfold w1 in Hpid. rewrite Hrc in Hpid.
    erewrite bind_ok by (apply get_management_node_pid_eq; eassumption).
    unfold info, emit, log. simpl. rewrite <- !app_assoc. reflexivity.
  - apply Z.eqb_neq in Hrc.
    erewrite bind_raise by (apply shell_failed; assumption).
    reflexivity.
Qed.

Lemma start_node_when_running_witness :
  let E := sample_env rc_ok pid_always files_installed no_rows in
  StartCmd.run E StartCmd.default_args (fresh 3) =
    (Ok tt, mkWorld 3 [(3, EvShell RmBootErrorLog 0);
                       (3, EvPid (Some 4242%positive));
                       (3, EvInfo (MsgAlreadyRunning 4242%positive))]).
Proof.
  intros E.
  apply (start_node_when_running E StartCmd.default_args (fresh 3) 4242%positive);
    reflexivity.
Defined.

(* ===================================================================== *)
(** ** C4: the readiness timeout and the stop that follows it *)
(* ===================================================================== *)




(** Beside C4: without [wget] and [curl] there is no readiness request
    to send; [check] then calls [None], the [TypeError] is not a
    [CtlError], and [start_node] ends with it at the first poll without
    attempting any stop. *)
Lemma start_node_without_probe_tool :
  let E := sample_env rc_no_probe_tool pid_after_startup files_installed no_rows in
  let r := StartCmd.run E (StartCmd.mkArgs None 3) (fresh 0) in
  fst r = Raise TypeError /\
  clock (snd r) = 5 /\
  ~ In (5, EvInternalRun "stop_node" "") (trace (snd r)) /\
  pid_lookup E (snd r) = Ok (Some 4242%positive).
Proof.
  vm_compute. repeat split.
  intros H. repeat (destruct H as [H|H]; [discriminate H|]). exact H.
Qed.

(* ===================================================================== *)
(** ** C8: the topology-wide commands *)
(* ===================================================================== *)

Lemma bind_ret_unit (m : M unit) (w : World) :
  bind m (fun _ => ret tt) w = m w.
Proof.
  unfold bind, ret. destruct (m w) as [[[]|e|] w']; reflexivity.
Qed.

Lemma run_steps_app_raise (pre post : list (M unit)) (s : M unit)
    (w w1 w2 : World) (e : Exn) :
  run_steps pre w = (Ok tt, w1) ->
  s w1 = (Raise e, w2) ->
  run_steps (pre ++ s :: post) w = (Raise e, w2).
Proof.
  revert w. induction pre as [|s0 pre IH]; intros w Hpre Hs.
  - simpl in Hpre. unfold ret in Hpre. inversion Hpre; subst.
    simpl. apply bind_raise. assumption.
  - simpl in *. unfold bind in *.
    destruct (s0 w) as [[[]|e0|] w0]; try discriminate.
    apply IH; assumption.
Qed.

Lemma StopAllCmd_run_steps (E : Env) (w : World) :
  StopAllCmd.run E w = run_steps (StopAllCmd.steps E) w.
Proof.
  unfold StopAllCmd.run, StopAllCmd.steps. simpl.
  unfold bind at 1 2 3 4 5 6.
  destruct (StopAllCmd.stop_ui E w) as [[[]|e|] w1]; try reflexivity.
  destruct (StopAllCmd.stop_mgmt_node E w1) as [[[]|e|] w2]; try reflexivity.
  destruct (StopAllCmd.stop_kairosdb E w2) as [[[]|e|] w3]; try reflexivity.
  rewrite bind_ret_unit. reflexivity.
Qed.

Lemma StartAllCmd_run_steps (E : Env) (w : World) :
  StartAllCmd.run E w = run_steps (StartAllCmd.steps E) w.
Proof.
  unfold StartAllCmd.run, StartAllCmd.steps. simpl.
  unfold bind at 1 2 3 4 5 6.
  destruct (StartAllCmd.start_cassandra E w) as [[[]|e|] w1]; try reflexivity.
  destruct (StartAllCmd.start_kairosdb E w1) as [[[]|e|] w2]; try reflexivity.
  destruct (StartAllCmd.start_mgmt_node E w2) as [[[]|e|] w3]; try reflexivity.
  rewrite bind_ret_unit. reflexivity.
Qed.




(* ===================================================================== *)
(** ** Facts about the liveness gate *)
(* ===================================================================== *)

#[export] Hint Extern 1 (harmless _) => exact I : adds.

Lemma preflight_adds_harmless (E : Env) : adds harmless (UpgradeDbCmd.preflight E).
Proof.
  unfold UpgradeDbCmd.preflight, error_if_tool_is_missing.
  repeat (apply adds_bind; [auto with adds|intros ?]).
  auto 12 with adds.
Qed.

Lemma get_nodes_adds_harmless (E : Env) (p : Portal) : adds harmless (get_nodes E p).
Proof. unfold get_nodes. auto 10 with adds. Qed.

Lemma gate_adds_harmless (E : Env) (force : bool) :
  adds harmless (check_if_management_node_has_stopped E force).
Proof.
  pose proof (get_nodes_adds_harmless E) as Hq.
  unfold check_if_management_node_has_stopped, check, bypass_stale_check.
  apply adds_bind; [auto with adds|]. intros p.
  destruct force.
  - apply adds_bind; [apply Hq|]. intros [|n nodes]; [auto with adds|].
    apply adds_bind; [auto with adds|]. intros _.
    apply adds_bind; [auto with adds|]. intros _.
    apply adds_bind; [apply Hq|]. intros new_nodes.
    destruct (compare_samples new_nodes (n :: nodes)); auto with adds.
  - apply adds_bind; [apply Hq|]. intros [|n nodes]; auto with adds.
Qed.

(** With rows in the registry the plain check never passes. *)
Lemma plain_gate_never_passes (E : Env) :
  (forall p w, query_nodes E p w <> Ok []) ->
  forall w u w', check_if_management_node_has_stopped E false w <> (Ok u, w').
Proof.
  intros Hrows w u w'.
  unfold check_if_management_node_has_stopped, check, get_nodes,
    bind, observe, emit, ret, raise.
  destruct (get_database_portal E w) as [p| |]; try discriminate.
  pose proof (Hrows p w) as Hne.
  destruct (query_nodes E p w) as [[|n nodes]| |]; try discriminate.
  contradiction.
Qed.

Lemma compare_with_old_none (n : Node) (nodes : list Node) :
  compare_with_old n nodes = None <->
  (forall o, In o nodes -> hostname o = hostname n -> heartBeat o = heartBeat n).
Proof.
  induction nodes as [|o nodes IH]; simpl.
  - split; [intros _ o []|reflexivity].
  - destruct (hostname o =? hostname n)%string eqn:Hh;
      destruct (heartBeat o =? heartBeat n)%string eqn:Hb; simpl.
    + apply String.eqb_eq in Hb. rewrite IH. split.
      * intros H o' [<-|Hin]; auto.
      * intros H o' Hin. apply H. right. assumption.
    + apply String.eqb_eq in Hh. apply String.eqb_neq in Hb. split.
      * discriminate.
      * intros H. exfalso. apply Hb. apply H; auto.
    + apply String.eqb_neq in Hh. rewrite IH. split.
      * intros H o' [<-|Hin]; [contradiction|auto].
      * intros H o' Hin. apply H. right. assumption.
    + apply String.eqb_neq in Hh. rewrite IH. split.
      * intros H o' [<-|Hin]; [contradiction|auto].
      * intros H o' Hin. apply H. right. assumption.
Qed.

Lemma compare_with_old_some (n : Node) (nodes : list Node) (e : CtlErr) :
  compare_with_old n nodes = Some e ->
  exists o, In o nodes /\ hostname o = hostname n /\
            heartBeat o <> heartBeat n /\
            e = NodeStillAlive (hostname n) (heartBeat o) (heartBeat n).
Proof.
  induction nodes as [|o nodes IH]; simpl; [discriminate|].
  destruct (hostname o =? hostname n)%string eqn:Hh;
    destruct (heartBeat o =? heartBeat n)%string eqn:Hb; simpl;
    try (intros H; destruct (IH H) as (o' & Hin & Hrest);
         exists o'; split; [right; assumption|exact Hrest]).
  intros H. inversion H; subst. exists o.
  apply String.eqb_eq in Hh. apply String.eqb_neq in Hb. auto.
Qed.

(** The two samples agree when no node present in both has two different
    heart beats. *)
Lemma compare_samples_none (new_nodes nodes : list Node) :
  compare_samples new_nodes nodes = None <->
  (forall o n, In o nodes -> In n new_nodes ->
               hostname o = hostname n -> heartBeat o = heartBeat n).
Proof.
  induction new_nodes as [|n new_nodes IH]; simpl.
  - split; [intros _ o n _ []|reflexivity].
  - destruct (compare_with_old n nodes) as [e|] eqn:Hn.
    + split; [discriminate|]. intros H. exfalso.
      destruct (compare_with_old_some _ _ _ Hn) as (o & Hin & Hh & Hb & _).
      apply Hb. apply H; auto.
    + rewrite IH. rewrite compare_with_old_none in Hn. split.
      * intros H o n' Hin [<-|Hin']; auto.
      * intros H o n' Hin Hin'. apply H; auto.
Qed.

Lemma compare_samples_some (new_nodes nodes : list Node) (e : CtlErr) :
  compare_samples new_nodes nodes = Some e ->
  exists o n, In o nodes /\ In n new_nodes /\ hostname o = hostname n /\
              heartBeat o <> heartBeat n /\
              e = NodeStillAlive (hostname n) (heartBeat o) (heartBeat n).
Proof.
  induction new_nodes as [|n new_nodes IH]; simpl; [discriminate|].
  destruct (compare_with_old n nodes) as [e'|] eqn:Hn.
  - intros H. inversion H; subst.
    destruct (compare_with_old_some _ _ _ Hn) as (o & Hin & Hrest).
    exists o, n. split; [assumption|]. split; [left; reflexivity|exact Hrest].
  - intros H. destruct (IH H) as (o & n' & Hin & Hin' & Hrest).
    exists o, n'. split; [assumption|]. split; [right; assumption|exact Hrest].
Qed.

(* ===================================================================== *)
(** ** C2: [upgrade_db] without [--force] *)
(* ===================================================================== *)

(** C2, as stated, fails: the tools, the database settings and the
    migration tool are checked before the registry is read.  Here a live
    node is registered but [mysqldump] is missing: the command fails with
    the missing-tool error, not with the nodes-still-running error. *)
Lemma upgrade_db_checks_tools_before_nodes :
  let E := sample_env rc_no_mysqldump pid_never files_installed
             (fun _ => one_live_node) in
  let args := UpgradeDbCmd.mkArgs false UpgradeDbCmd.ArgFalse false in
  query_nodes E sample_portal (fresh 0) = Ok one_live_node /\
  UpgradeDbCmd.run E args (fresh 0) =
    (Raise (CtlError (ToolMissing Mysqldump)),
     mkWorld 0 [(0, EvShell (Which Mysqldump) 1)]) /\
  (forall ips, fst (UpgradeDbCmd.run E args (fresh 0))
               <> Raise (CtlError (NodesStillRunning ips))).
Proof. repeat split. intros ips H. discriminate H. Qed.

(** C2 (amended).  [upgrade_db] without [--force], when the node registry
    has at least one row: the command never returns normally and runs
    neither the backup nor the migration tool (no baseline, no migrate);
    and once the checks that precede the gate have passed (tools, database
    settings, migration tool and scripts) and the registry has been read,
    the command fails with the nodes-still-running error that lists the
    host names of the rows, having done nothing but read the registry. *)
Theorem upgrade_db_refuses_live_nodes
    (E : Env) (args : UpgradeDbCmd.Args) (w : World) :
  UpgradeDbCmd.force args = false ->
  (forall p w', query_nodes E p w' <> Ok []) ->
  let r := UpgradeDbCmd.run E args w in
  (forall v, fst r <> Ok v) /\
  (exists added,
     extends w (snd r) added /\ Forall (fun te => harmless (snd te)) added) /\
  (forall ctx w1 p nodes,
     UpgradeDbCmd.preflight E w = (Ok ctx, w1) ->
     get_database_portal E w1 = Ok p ->
     query_nodes E p w1 = Ok nodes ->
     r = (Raise (CtlError (NodesStillRunning (node_ips nodes))),
          log (EvQuery nodes) w1)).
Proof.
  intros Hforce Hrows r. subst r. unfold UpgradeDbCmd.run. rewrite Hforce.
  destruct (preflight_adds_harmless E w) as (added & Hext & Hall).
  unfold bind at 1 3 5.
  destruct (UpgradeDbCmd.preflight E w) as [[ctx|e|] w1] eqn:Hpre; simpl in *.
  - destruct (gate_adds_harmless E false w1) as (added' & Hext' & Hall').
    pose proof (plain_gate_never_passes E Hrows w1) as Hnever.
    unfold bind.
    destruct (check_if_management_node_has_stopped E false w1)
      as [[u|e|] w2] eqn:Hgate; simpl in *.
    + exfalso. apply (Hnever u w2). reflexivity.
    + split; [discriminate|]. split.
      * exists (added ++ added'). split.
        -- unfold extends in *. rewrite Hext', Hext, app_assoc. reflexivity.
        -- apply Forall_app. split; assumption.
      * intros ctx' w1' p nodes Heq Hp Hq. inversion Heq; subst.
        unfold check_if_management_node_has_stopped, check, get_nodes,
          bind, observe, emit, ret, raise in Hgate.
        rewrite Hp, Hq in Hgate.
        destruct nodes as [|n nodes]; [exfalso; apply (Hrows p w1'); assumption|].
        inversion Hgate; subst. reflexivity.
    + split; [discriminate|]. split.
      * exists (added ++ added'). split.
        -- unfold extends in *. rewrite Hext', Hext, app_assoc. reflexivity.
        -- apply Forall_app. split; assumption.
      * intros ctx' w1' p nodes Heq Hp Hq. inversion Heq; subst.
        unfold check_if_management_node_has_stopped, check, get_nodes,
          bind, observe, emit, ret, raise in Hgate.
        rewrite Hp, Hq in Hgate.
        destruct nodes as [|n nodes]; discriminate.
  - split; [discriminate|]. split.
    + exists added. split; assumption.
    + intros ctx w1' p nodes Heq. discriminate.
  - split; [discriminate|]. split.
    + exists added. split; assumption.
    + intros ctx w1' p nodes Heq. discriminate.
Qed.

Lemma upgrade_db_refuses_live_nodes_witness :
  let E := sample_env rc_ok pid_never files_installed (fun _ => one_live_node) in
  let args := UpgradeDbCmd.mkArgs false UpgradeDbCmd.ArgFalse false in
  UpgradeDbCmd.run E args (fresh 0) =
    (Raise (CtlError (NodesStillRunning ["10.0.0.11"])),
     mkWorld 0 [(0, EvShell (Which Mysqldump) 0);
                (0, EvShell (Which Mysql) 0);
                (0, EvQuery one_live_node)]).
Proof.
  intros E args.
  assert (Hrows : forall p w', query_nodes E p w' <> Ok []) by discriminate.
  destruct (upgrade_db_refuses_live_nodes E args (fresh 0) eq_refl Hrows)
    as (_ & _ & Hgate).
  apply (Hgate ("jdbc:mysql://localhost:3306/zstack", sample_portal)
               (snd (UpgradeDbCmd.preflight E (fresh 0)))
               sample_portal one_live_node); reflexivity.
Defined.

(* ===================================================================== *)
(** ** C3: [upgrade_db --force] *)
(* ===================================================================== *)

(** C3, as stated, fails: an unchanged heart beat of one node does not let
    the migration proceed.  Here the heart beat of 10.0.0.11 is the same in
    both samples, that of 10.0.0.12 has changed, and the command fails with
    the node-still-alive error without running the migration tool. *)
Lemma upgrade_db_force_one_stale_node_is_not_enough :
  let E := sample_env rc_ok pid_never files_installed rows_one_stale_one_alive in
  let args := UpgradeDbCmd.mkArgs true UpgradeDbCmd.ArgFalse false in
  In (mkNode "10.0.0.11" "1001") first_sample /\
  In (mkNode "10.0.0.11" "1001") second_sample /\
  UpgradeDbCmd.run E args (fresh 0) =
    (Raise (CtlError (NodeStillAlive "10.0.0.12" "1001" "1002")),
     mkWorld 10 [(0, EvShell (Which Mysqldump) 0);
                 (0, EvShell (Which Mysql) 0);
                 (0, EvQuery first_sample);
                 (0, EvInfo (MsgStaleWait ["10.0.0.11"; "10.0.0.12"]));
                 (0, EvSleep 10);
                 (10, EvQuery second_sample)]).
Proof. simpl. auto. Qed.

(** C3 (amended).  [upgrade_db --force], once the checks that precede the
    gate have passed and the registry holds rows: the registry is read, the
    command sleeps 10 seconds and reads the registry again; every row of
    the second sample is compared with every row of the first that has the
    same host name.  If no such pair differs in its heart beat the gate
    passes and the command goes on with the steps after it (dry-run test,
    backup, version table, migration).  If some pair differs the command
    fails with the node-still-alive error of such a pair, having done
    nothing but read the registry twice. *)
Theorem upgrade_db_force_compares_heartbeats
    (E : Env) (args : UpgradeDbCmd.Args) (w w1 : World)
    (db_url : string) (p p' : Portal) (nodes new_nodes : list Node) :
  UpgradeDbCmd.force args = true ->
  UpgradeDbCmd.preflight E w = (Ok (db_url, p), w1) ->
  get_database_portal E w1 = Ok p' ->
  query_nodes E p' w1 = Ok nodes ->
  nodes <> [] ->
  let waited :=
    mkWorld (clock w1 + 10)
            (trace w1 ++ [(clock w1, EvQuery nodes);
                          (clock w1, EvInfo (MsgStaleWait (node_ips nodes)));
                          (clock w1, EvSleep 10)]) in
  query_nodes E p' waited = Ok new_nodes ->
  let w3 := log (EvQuery new_nodes) waited in
  ((forall o n, In o nodes -> In n new_nodes ->
                hostname o = hostname n -> heartBeat o = heartBeat n) ->
   UpgradeDbCmd.run E args w = UpgradeDbCmd.after_gate E args p db_url w3)
  /\
  ((exists o n, In o nodes /\ In n new_nodes /\
                hostname o = hostname n /\ heartBeat o <> heartBeat n) ->
   exists o n, In o nodes /\ In n new_nodes /\
               hostname o = hostname n /\ heartBeat o <> heartBeat n /\
               UpgradeDbCmd.run E args w =
                 (Raise (CtlError (NodeStillAlive (hostname n) (heartBeat o)
                                                  (heartBeat n))), w3))
  /\
  (exists added,
     extends w w3 added /\ Forall (fun te => harmless (snd te)) added).
Proof.
  intros Hforce Hpre Hp Hq Hne waited Hq' w3.
  assert (Hharmless : exists added,
            extends w w3 added /\ Forall (fun te => harmless (snd te)) added).
  { destruct (preflight_adds_harmless E w) as (added & Hext & Hall).
    rewrite Hpre in Hext. simpl in Hext.
    exists (added ++ [(clock w1, EvQuery nodes);
                      (clock w1, EvInfo (MsgStaleWait (node_ips nodes)));
                      (clock w1, EvSleep 10);
                      (clock w1 + 10, EvQuery new_nodes)]).
    split.
    - unfold extends in *. unfold w3, waited, log. simpl.
      rewrite Hext, <- !app_assoc. reflexivity.
    - apply Forall_app. split; [assumption|].
      repeat constructor. }
  assert (Hgate :
    check_if_management_node_has_stopped E true w1 =
      match compare_samples new_nodes nodes with
      | Some e => (Raise (CtlError e), w3)
      | None => (Ok tt, w3)
      end).
  { unfold check_if_management_node_has_stopped.
    erewrite bind_ok by (unfold observe; rewrite Hp; reflexivity).
    unfold bypass_stale_check.
    erewrite bind_ok.
    2:{ unfold get_nodes. erewrite bind_ok by (unfold observe; rewrite Hq; reflexivity).
        reflexivity. }
    destruct nodes as [|n0 nodes0]; [contradiction|].
    set (nodes := n0 :: nodes0) in *.
    erewrite bind_ok by apply info_eq.
    erewrite bind_ok by reflexivity.
    assert (Hw : mkWorld
                   (clock (log (EvInfo (MsgStaleWait (node_ips nodes)))
                             (log (EvQuery nodes) w1)) + 10)
                   (trace (log (EvSleep 10)
                             (log (EvInfo (MsgStaleWait (node_ips nodes)))
                                (log (EvQuery nodes) w1)))) = waited).
    { unfold waited, log. simpl. rewrite <- !app_assoc. reflexivity. }
    rewrite Hw.
    erewrite bind_ok.
    2:{ unfold get_nodes. erewrite bind_ok by (unfold observe; rewrite Hq'; reflexivity).
        reflexivity. }
    fold w3. destruct (compare_samples new_nodes nodes); reflexivity. }
  split; [|split; [|exact Hharmless]].
  - intros Hsame. apply compare_samples_none in Hsame.
    rewrite Hsame in Hgate.
    unfold UpgradeDbCmd.run. rewrite Hforce.
    erewrite bind_ok by eassumption. cbv zeta.
    erewrite bind_ok by eassumption. reflexivity.
  - intros (o & n & Hin & Hin' & Hh & Hb).
    destruct (compare_samples new_nodes nodes) as [e|] eqn:Hcmp.
    + destruct (compare_samples_some _ _ _ Hcmp)
        as (o' & n' & Ho & Hn & Hh' & Hb' & ->).
      exists o', n'. repeat (split; [assumption|]).
      unfold UpgradeDbCmd.run. rewrite Hforce.
      erewrite bind_ok by eassumption. cbv zeta.
      erewrite bind_raise by eassumption. reflexivity.
    + exfalso. apply Hb.
      apply (proj1 (compare_samples_none new_nodes nodes) Hcmp o n); assumption.
Qed.

(** Stale rows only: the gate passes after 10 seconds and the migration
    tool is run. *)
Lemma upgrade_db_force_compares_heartbeats_witness :
  let E := sample_env rc_ok pid_never files_installed rows_all_stale in
  let args := UpgradeDbCmd.mkArgs true UpgradeDbCmd.ArgFalse false in
  let url := "jdbc:mysql://localhost:3306/zstack" in
  let r := UpgradeDbCmd.run E args (fresh 0) in
  fst r = Ok None /\ clock (snd r) = 10 /\
  In (10, EvShell (FlywayMigrate sample_portal url true) 0) (trace (snd r)).
Proof.
  intros E args url r.
  assert (Hr : r = UpgradeDbCmd.after_gate E args sample_portal url
                     (log (EvQuery first_sample)
                        (mkWorld 10
                           [(0, EvShell (Which Mysqldump) 0);
                            (0, EvShell (Which Mysql) 0);
                            (0, EvQuery first_sample);
                            (0, EvInfo (MsgStaleWait (node_ips first_sample)));
                            (0, EvSleep 10)]))).
  { apply (upgrade_db_force_compares_heartbeats E args (fresh 0)
             (snd (UpgradeDbCmd.preflight E (fresh 0)))
             url sample_portal sample_portal first_sample first_sample);
      try reflexivity.
    - discriminate.
    - intros o n Ho Hn Hh. simpl in Ho, Hn.
      destruct Ho as [<-|[<-|[]]]; destruct Hn as [<-|[<-|[]]];
        try reflexivity; discriminate Hh. }
  rewrite Hr. vm_compute. repeat split. auto 20.
Defined.

(* ===================================================================== *)
(** ** C10: the [--no-backup] option *)
(* ===================================================================== *)



(* ===================================================================== *)
(** ** C9: the scoped switch to the [zstack] account *)
(* ===================================================================== *)

Lemma seteuid_to_real_uid {Store} (s : Proc Store) :
  seteuid (ruid (cred s)) s
  = (Ok tt, mkProc (mkCred (ruid (cred s)) (ruid (cred s)) (suid (cred s))
                           (rgid (cred s)) (egid (cred s)) (sgid (cred s)))
                   (HOME s) (store s)).
Proof.
  unfold seteuid. rewrite Z.eqb_refl, orb_true_r. reflexivity.
Qed.

Lemma setegid_to_real_gid {Store} (s : Proc Store) :
  setegid (rgid (cred s)) s
  = (Ok tt, mkProc (mkCred (ruid (cred s)) (euid (cred s)) (suid (cred s))
                           (rgid (cred s)) (rgid (cred s)) (sgid (cred s)))
                   (HOME s) (store s)).
Proof.
  unfold setegid. rewrite Z.eqb_refl, orb_true_r. reflexivity.
Qed.

(** What a successful [__enter__] has saved and what it leaves alone. *)
Lemma enter_ok {Store} (acc : Accounts) (s s1 : Proc Store) (saved : Saved) :
  enter acc s = (Ok saved, s1) ->
  HOME s = Some (root_home saved) /\
  root_uid saved = ruid (cred s) /\ root_gid saved = rgid (cred s) /\
  ruid (cred s1) = ruid (cred s) /\ rgid (cred s1) = rgid (cred s) /\
  (exists uid dir, pw_zstack acc = Some (uid, dir)) /\
  (exists gid, gr_zstack acc = Some gid).
Proof.
  unfold enter. destruct (HOME s) as [home|]; [|discriminate].
  destruct (gr_zstack acc) as [gid|]; [|discriminate].
  unfold setegid.
  destruct ((euid (cred s) =? 0) || (gid =? rgid (cred s))
            || (gid =? egid (cred s)) || (gid =? sgid (cred s)));
    [|discriminate].
  destruct (pw_zstack acc) as [[uid dir]|]; [|discriminate].
  unfold seteuid. simpl.
  match goal with
  | |- context [if ?c then _ else _] => destruct c; [|discriminate]
  end.
  intros H. inversion H; subst. simpl.
  repeat split; eauto.
Qed.




(* ===================================================================== *)
(** ** Further properties of [loop_until_timeout] *)
(* ===================================================================== *)

Lemma poll_n_returns (f : M bool) (I : Z) :
  (forall w, fst (f w) <> Hang) ->
  forall n w, fst (poll_n n I f w) <> Hang.
Proof.
  intros Hf. induction n as [|n IH]; intros w.
  - simpl. discriminate.
  - cbn [poll_n]. unfold bind at 1. pose proof (Hf w) as Hw.
    destruct (f w) as [[[|]|e|] w1]; cbn [fst] in *; try discriminate.
    + unfold bind, time_sleep. destruct (I <? 0); [discriminate|]. apply IH.
    + contradiction.
Qed.

Lemma timeless_instantaneous (f : M bool) : timeless f -> instantaneous f.
Proof.
  intros Hf w w' H. pose proof (Hf w) as Hw. rewrite H in Hw. exact Hw.
Qed.

(** X1.  With a positive interval and a predicate that takes no time and
    always answers (by a value or by an exception), the loop always ends,
    and it ends before the deadline is passed by a whole interval: the
    time spent is less than [max 0 timeout + interval]. *)
Theorem loop_until_timeout_meets_deadline (T I : Z) (f : M bool) (w : World) :
  0 < I -> timeless f -> (forall w', fst (f w') <> Hang) ->
  let r := loop_until_timeout T I f w in
  fst r <> Hang /\
  clock w <= clock (snd r) < clock w + Z.max 0 T + I.
Proof.
  intros HI Hf Hret r. subst r.
  rewrite loop_until_timeout_poll_n
    by (try assumption; apply timeless_instantaneous; assumption).
  split; [apply poll_n_returns; assumption|].
  pose proof (poll_n_clock f I ltac:(lia) Hf (rounds T I) w) as Hclk.
  destruct (Z_lt_le_dec 0 T) as [HT|HT].
  - pose proof (rounds_bounds T I HI HT) as (_ & Hlo & _). cbv zeta in Hlo.
    rewrite Z.max_r by lia. nia.
  - rewrite rounds_nonpos by lia. simpl. lia.
Qed.

Lemma loop_until_timeout_meets_deadline_witness :
  let E := sample_env rc_ok pid_always files_installed no_rows in
  let r := loop_until_timeout 30 4 (StopCmd.wait_stop E) (fresh 0) in
  fst r <> Hang /\ 0 <= clock (snd r) < 0 + Z.max 0 30 + 4.
Proof.
  intros E.
  apply (loop_until_timeout_meets_deadline 30 4 (StopCmd.wait_stop E) (fresh 0)).
  - lia.
  - intros w. reflexivity.
  - intros w. discriminate.
Defined.

(** X2.  With a timeout of zero or less the loop returns [False] without
    calling the predicate, whatever the interval; so [start_node] with
    [--timeout 0] reports the no-ready-message error without sending a
    single readiness request. *)
Theorem nonpositive_timeout_never_polls
    (E : Env) (args : StartCmd.Args) (T I : Z) (f : M bool) (w : World) :
  T <= 0 -> StartCmd.timeout args <= 0 ->
  loop_until_timeout T I f w = (Ok false, w) /\
  StartCmd.wait_mgmt_node_start E args w
  = (Raise (CtlError (NoReadyMessage (StartCmd.timeout args))), w).
Proof.
  intros HT Hargs.
  assert (Hloop : forall T' I' f', T' <= 0 ->
            loop_until_timeout T' I' f' w = (Ok false, w)).
  { intros T' I' f' HT'. unfold loop_until_timeout, bind, time_time.
    cbn [loop_rounds].
    replace (clock w <? clock w + T') with false
      by (symmetry; apply Z.ltb_ge; lia).
    reflexivity. }
  split; [apply Hloop; assumption|].
  unfold StartCmd.wait_mgmt_node_start. cbv zeta.
  erewrite bind_ok by (apply Hloop; assumption). reflexivity.
Qed.

Lemma nonpositive_timeout_never_polls_witness :
  let E := sample_env rc_never_ready pid_managed files_installed no_rows in
  StartCmd.wait_mgmt_node_start E (StartCmd.mkArgs None 0) (fresh 5)
  = (Raise (CtlError (NoReadyMessage 0)), fresh 5).
Proof.
  intros E.
  apply (nonpositive_timeout_never_polls E (StartCmd.mkArgs None 0) 0 1
           (StartCmd.check E) (fresh 5)); simpl; lia.
Defined.

(* ===================================================================== *)
(** ** Further properties of [start_node] *)
(* ===================================================================== *)

#[export] Hint Extern 1 (not_start_script _) => exact I : adds.

Lemma check_rabbit_ips_adds (Q : Event -> Prop) (E : Env)
    (ips : list (string * string)) :
  adds Q (StartCmd.check_rabbit_ips E ips).
Proof.
  induction ips as [|[key ip] rest IH]; simpl.
  - apply adds_ret.
  - apply adds_bind; [apply adds_observe|]. intros up.
    destruct (negb up); [apply adds_raise|exact IH].
Qed.

Lemma dependency_checks_adds (E : Env) :
  adds not_start_script (dependency_checks E).
Proof.
  unfold dependency_checks, StartCmd.check_8080, StartCmd.check_msyql,
    StartCmd.check_rabbitmq.
  apply adds_bind; [auto with adds|]. intros user.
  destruct (negb (user =? "root")%string); [auto with adds|].
  apply adds_bind; [auto 10 with adds|]. intros _.
  apply adds_bind; [auto 12 with adds|]. intros _.
  apply adds_on_error; [exact I|].
  apply adds_bind; [auto with adds|]. intros ips.
  destruct ips; [auto with adds|apply check_rabbit_ips_adds].
Qed.



(** X4.  When the boot error log exists at the first poll of a wait with a
    positive timeout, [start_node] does not wait: the wait raises at once
    the boot-failed error with the content of the log, the stop of the
    node is attempted as after a timeout, and that error is the result. *)
Theorem start_node_reports_boot_error
    (E : Env) (args : StartCmd.Args) (w : World) :
  0 < StartCmd.timeout args ->
  path_exists E StartCmd.boot_error_log w = true ->
  let err := CtlError (BootFailed (read_file E StartCmd.boot_error_log w)) in
  let attempt := internal_run_stop_node E (log (EvInfo MsgStopFailedStart) w) in
  StartCmd.wait_mgmt_node_start E args w = (Raise err, w) /\
  StartCmd.guarded_wait E args w
  = (match fst attempt with Hang => Hang | _ => Raise err end, snd attempt).
Proof.
  intros HT Hlog err attempt.
  assert (Hcheck : StartCmd.check E w = (Raise err, w)).
  { unfold StartCmd.check, bind, observe_pure. rewrite Hlog. reflexivity. }
  assert (Hwait : StartCmd.wait_mgmt_node_start E args w = (Raise err, w)).
  { unfold StartCmd.wait_mgmt_node_start. cbv zeta.
    apply bind_raise.
    rewrite loop_until_timeout_poll_n by (try lia; apply check_instantaneous).
    rewrite rounds_interval_1.
    destruct (Z.to_nat (StartCmd.timeout args)) as [|n] eqn:Hn; [lia|].
    cbn [poll_n]. apply bind_raise. exact Hcheck. }
  split; [exact Hwait|].
  unfold StartCmd.guarded_wait, try_except_CtlError. rewrite Hwait.
  unfold bind at 1. unfold try_except_pass. unfold bind at 1.
  rewrite info_eq. fold attempt.
  destruct attempt as [[u|e|] w4]; reflexivity.
Qed.

Lemma start_node_reports_boot_error_witness :
  let E := sample_env rc_ok pid_always (fun _ _ => true) no_rows in
  StartCmd.wait_mgmt_node_start E StartCmd.default_args (fresh 5)
  = (Raise (CtlError (BootFailed "")), fresh 5).
Proof.
  intros E.
  apply (start_node_reports_boot_error E StartCmd.default_args (fresh 5));
    reflexivity.
Defined.

(* ===================================================================== *)
(** ** Further properties of [upgrade_db] and of the liveness gate *)
(* ===================================================================== *)

#[export] Hint Extern 1 (no_flyway _) => exact I : adds.

(** X5.  A dry run of [upgrade_db] changes nothing: with [--dry-run],
    whatever the environment and with or without [--force], the command
    runs neither the backup nor the migration tool; and when it returns it
    returns [True]. *)
Theorem upgrade_db_dry_run_is_harmless
    (E : Env) (args : UpgradeDbCmd.Args) (w : World) :
  UpgradeDbCmd.dry_run args = true ->
  let r := UpgradeDbCmd.run E args w in
  (exists added,
     extends w (snd r) added /\ Forall (fun te => harmless (snd te)) added) /\
  (forall v, fst r = Ok v -> v = Some true).
Proof.
  intros Hdry r.
  assert (Hadds : adds harmless (UpgradeDbCmd.run E args)).
  { unfold UpgradeDbCmd.run, UpgradeDbCmd.after_gate. rewrite Hdry.
    apply adds_bind; [apply preflight_adds_harmless|]. intros ctx. cbv zeta.
    apply adds_bind; [apply gate_adds_harmless|]. intros _.
    auto with adds. }
  split; [apply Hadds|].
  intros v Hv. subst r. unfold UpgradeDbCmd.run, UpgradeDbCmd.after_gate in Hv.
  rewrite Hdry in Hv. unfold bind, info, emit, ret in Hv.
  destruct (UpgradeDbCmd.preflight E w) as [[ctx|e|] w1]; try discriminate Hv.
  destruct (check_if_management_node_has_stopped E (UpgradeDbCmd.force args) w1)
    as [[u|e|] w2]; try discriminate Hv.
  simpl in Hv. congruence.
Qed.

Lemma upgrade_db_dry_run_is_harmless_witness :
  let E := sample_env rc_ok pid_never files_installed no_rows in
  let r := UpgradeDbCmd.run E (UpgradeDbCmd.mkArgs false UpgradeDbCmd.ArgFalse true)
             (fresh 0) in
  (exists added,
     extends (fresh 0) (snd r) added /\
     Forall (fun te => harmless (snd te)) added) /\
  (forall v, fst r = Ok v -> v = Some true).
Proof.
  intros E.
  apply (upgrade_db_dry_run_is_harmless E
           (UpgradeDbCmd.mkArgs false UpgradeDbCmd.ArgFalse true) (fresh 0)).
  reflexivity.
Defined.

Lemma backup_adds_no_flyway (E : Env) (args : UpgradeDbCmd.Args) (p : Portal) :
  adds no_flyway (UpgradeDbCmd.backup_current_database E args p).
Proof.
  unfold UpgradeDbCmd.backup_current_database.
  destruct (UpgradeDbCmd.truthy (UpgradeDbCmd.no_backup args)); [auto with adds|].
  apply adds_bind; [auto with adds|]. intros _.
  apply adds_bind; [auto with adds|]. intros _.
  apply adds_bind; [|intros _; auto with adds].
  destruct (str_truthy (db_password p)); auto with adds.
Qed.



Lemma contains_cons (sub : string) (c : ascii) (s : string) :
  contains sub s = true -> contains sub (String c s) = true.
Proof.
  intros H. cbn [contains]. destruct (String.prefix sub (String c s)); auto.
Qed.

Lemma contains_app_zstack (x : string) :
  contains "zstack" (x ++ "/zstack")%string = true.
Proof.
  induction x as [|c x IH].
  - reflexivity.
  - change ((String c x ++ "/zstack")%string)
      with (String c (x ++ "/zstack")%string).
    apply contains_cons. exact IH.
Qed.

Lemma rstrip_slash_no_trailing_slash (s t : string) :
  rstrip_slash s <> (t ++ "/")%string.
Proof.
  revert t. induction s as [|c s IH]; intros t.
  - simpl. destruct t; discriminate.
  - simpl. destruct (rstrip_slash s) as [|c' r] eqn:Hr.
    + destruct (Ascii.eqb c "/") eqn:Hc.
      * destruct t; discriminate.
      * destruct t as [|a t]; simpl.
        -- intros H. inversion H; subst. discriminate Hc.
        -- intros H. inversion H. destruct t; discriminate.
    + destruct t as [|a t]; simpl.
      * intros H. inversion H.
      * intros H. inversion H; subst. apply (IH t). assumption.
Qed.

Lemma rstrip_slash_app_slash (s : string) :
  rstrip_slash (s ++ "/") = rstrip_slash s.
Proof.
  induction s as [|c s IH].
  - reflexivity.
  - change ((String c s ++ "/")%string) with (String c (s ++ "/")%string).
    cbn [rstrip_slash]. rewrite IH. reflexivity.
Qed.

(** X7.  The database URL that [upgrade_db] hands to the migration tool
    always holds [zstack]: a configured URL that holds it is taken as it
    is, and a configured URL without it gets [/zstack] appended once its
    trailing slashes are removed, however many there are, so that no slash
    is doubled. *)
Theorem upgrade_db_url_names_the_database
    (E : Env) (w w1 : World) (url db_url : string) (p : Portal) :
  (forall w', get_db_url E w' = Ok url) ->
  UpgradeDbCmd.preflight E w = (Ok (db_url, p), w1) ->
  contains "zstack" db_url = true /\
  (contains "zstack" url = true -> db_url = url) /\
  (contains "zstack" url = false ->
     db_url = (rstrip_slash url ++ "/zstack")%string /\
     rstrip_slash (url ++ "/") = rstrip_slash url /\
     forall t, rstrip_slash url <> (t ++ "/")%string).
Proof.
  intros Hurl Hpre.
  unfold UpgradeDbCmd.preflight in Hpre.
  unfold bind at 1 in Hpre.
  destruct (error_if_tool_is_missing E Mysqldump w) as [[[]|e|] wa];
    try discriminate Hpre.
  unfold bind at 1 in Hpre.
  destruct (error_if_tool_is_missing E Mysql wa) as [[[]|e|] wb];
    try discriminate Hpre.
  unfold bind at 1 in Hpre. unfold observe at 1 in Hpre.
  rewrite Hurl in Hpre.
  unfold bind, observe, observe_pure, raise, ret in Hpre.
  destruct (get_database_portal E wb) as [p'| |]; try discriminate Hpre.
  destruct (negb (path_exists E UpgradeDbCmd.flyway_path wb));
    try discriminate Hpre.
  destruct (negb (path_exists E UpgradeDbCmd.upgrading_schema_dir wb));
    try discriminate Hpre.
  inversion Hpre; subst. clear Hpre.
  destruct (contains "zstack" url) eqn:Hc; simpl.
  - split; [exact Hc|]. split; [reflexivity|discriminate].
  - split; [apply contains_app_zstack|]. split; [discriminate|].
    intros _. split; [reflexivity|]. split.
    + apply rstrip_slash_app_slash.
    + apply rstrip_slash_no_trailing_slash.
Qed.

Lemma upgrade_db_url_names_the_database_witness :
  let E := sample_env rc_ok pid_never files_installed no_rows in
  contains "zstack" "jdbc:mysql://localhost:3306/zstack" = true.
Proof.
  intros E.
  apply (upgrade_db_url_names_the_database E (fresh 0)
           (snd (UpgradeDbCmd.preflight E (fresh 0)))
           "jdbc:mysql://localhost:3306"
           "jdbc:mysql://localhost:3306/zstack" sample_portal);
    reflexivity.
Defined.

(** X8.  Whether the forced gate passes does not depend on the order of
    the rows in either sample of the registry; and rows whose host name
    occurs in one sample only never make it fail. *)
Theorem compare_samples_ignores_row_order
    (nodes nodes' new_nodes new_nodes' : list Node) :
  Permutation nodes nodes' -> Permutation new_nodes new_nodes' ->
  (compare_samples new_nodes nodes = None <->
   compare_samples new_nodes' nodes' = None) /\
  ((forall o n, In o nodes -> In n new_nodes -> hostname o <> hostname n) ->
   compare_samples new_nodes nodes = None).
Proof.
  intros Hold Hnew. split.
  - rewrite !compare_samples_none. split; intros H o n Ho Hn.
    + apply H.
      * apply Permutation_in with (l := nodes'); [symmetry|]; assumption.
      * apply Permutation_in with (l := new_nodes'); [symmetry|]; assumption.
    + apply H.
      * apply Permutation_in with (l := nodes); assumption.
      * apply Permutation_in with (l := new_nodes); assumption.
  - intros Hdisjoint. apply compare_samples_none.
    intros o n Ho Hn Hh. exfalso. apply (Hdisjoint o n); assumption.
Qed.

Lemma compare_samples_ignores_row_order_witness :
  compare_samples second_sample first_sample = None <->
  compare_samples (rev second_sample) (rev first_sample) = None.
Proof.
  apply (compare_samples_ignores_row_order first_sample (rev first_sample)
           second_sample (rev second_sample)); apply Permutation_rev.
Defined.

(* ===================================================================== *)
(** ** Further properties of [UseUserZstack] *)
(* ===================================================================== *)

(** The process state inside the block when the caller is privileged. *)
Lemma enter_as_root {Store} (acc : Accounts) (s : Proc Store)
    (h zdir : string) (zuid zgid : Z) :
  euid (cred s) = 0 -> HOME s = Some h ->
  pw_zstack acc = Some (zuid, zdir) -> gr_zstack acc = Some zgid ->
  enter acc s
  = (Ok (mkSaved (ruid (cred s)) (rgid (cred s)) h),
     mkProc (mkCred (ruid (cred s)) zuid (suid (cred s))
                    (rgid (cred s)) zgid (sgid (cred s)))
            (Some zdir) (store s)).
Proof.
  intros He Hh Hpw Hgr. unfold enter, setegid, seteuid, set_HOME, expanduser_zstack.
  rewrite Hh, Hgr, Hpw. simpl. rewrite He. simpl. reflexivity.
Qed.

(** What the statement leaves behind once the block has been entered and
    the enclosed operation, which keeps the real ids, has ended. *)
Lemma exit_after_body {Store} (saved : Saved) (s s2 : Proc Store) :
  root_uid saved = ruid (cred s) -> root_gid saved = rgid (cred s) ->
  ruid (cred s2) = ruid (cred s) -> rgid (cred s2) = rgid (cred s) ->
  exit saved s2
  = (Ok tt, mkProc (mkCred (ruid (cred s)) (ruid (cred s)) (suid (cred s2))
                           (rgid (cred s)) (rgid (cred s)) (sgid (cred s2)))
                   (Some (root_home saved)) (store s2)).
Proof.
  intros Hu Hg Hru Hrg. unfold exit. rewrite Hu, Hg, <- Hru, <- Hrg.
  rewrite seteuid_to_real_uid.
  match goal with
  | |- context [setegid (rgid (cred s2)) ?x] =>
      change (rgid (cred s2)) with (rgid (cred x)) at 1;
      rewrite (setegid_to_real_gid x)
  end.
  reflexivity.
Qed.

(** X9.  For a privileged caller (effective uid 0) with [HOME] set and the
    [zstack] account present, the switch cannot fail: the enclosed
    operation runs with the effective uid and gid and the home directory
    of [zstack] while the real ids stay the caller's, and the statement
    ends as the operation ends, with the effective ids back at the real
    ids and [HOME] back at the caller's. *)
Theorem use_user_zstack_as_root {Store A : Type}
    (acc : Accounts) (body : Act Store A) (s : Proc Store)
    (h zdir : string) (zuid zgid : Z) :
  euid (cred s) = 0 -> HOME s = Some h ->
  pw_zstack acc = Some (zuid, zdir) -> gr_zstack acc = Some zgid ->
  (forall x, ruid (cred (snd (body x))) = ruid (cred x) /\
             rgid (cred (snd (body x))) = rgid (cred x)) ->
  let inside := mkProc (mkCred (ruid (cred s)) zuid (suid (cred s))
                               (rgid (cred s)) zgid (sgid (cred s)))
                       (Some zdir) (store s) in
  fst (body inside) <> Hang ->
  let r := with_use_user_zstack acc body s in
  fst r = fst (body inside) /\
  store (snd r) = store (snd (body inside)) /\
  euid (cred (snd r)) = ruid (cred s) /\
  egid (cred (snd r)) = rgid (cred s) /\
  HOME (snd r) = Some h.
Proof.
  intros He Hh Hpw Hgr Hbody inside Hret r. subst r.
  unfold with_use_user_zstack, init. rewrite Hpw, Hgr.
  rewrite (enter_as_root acc s h zdir zuid zgid He Hh Hpw Hgr).
  fold inside. destruct (Hbody inside) as (Hbu & Hbg).
  destruct (body inside) as [res s2]. cbn [fst snd] in *.
  rewrite (exit_after_body _ s s2) by (try reflexivity; assumption).
  destruct res as [a|e|]; cbn [fst snd]; try (repeat split; reflexivity).
  contradiction.
Qed.

Lemma use_user_zstack_as_root_witness :
  let root := mkProc (mkCred 0 0 0 0 0 0) (Some "/root") 7%nat in
  let body := fun s : Proc nat => (Ok (euid (cred s), HOME s), s) in
  fst (with_use_user_zstack zstack_accounts body root)
  = Ok (1000, Some "/home/zstack").
Proof.
  intros root body.
  apply (use_user_zstack_as_root zstack_accounts body root
           "/root" "/home/zstack" 1000 1000); try reflexivity.
  - intros x. split; reflexivity.
  - discriminate.
Defined.

(** X10.  When the block cannot be entered (no [zstack] account, [HOME]
    unset, or a switch refused), the enclosed operation is not run and the
    statement raises; the user ids, the real and saved group ids and
    [HOME] are as before, and the effective gid is either as before or
    already that of [zstack]. *)
Theorem use_user_zstack_refused {Store A : Type}
    (acc : Accounts) (body : Act Store A) (s : Proc Store) :
  (forall saved s1, enter acc s <> (Ok saved, s1)) ->
  let r := with_use_user_zstack acc body s in
  (exists e, fst r = Raise e) /\
  store (snd r) = store s /\
  HOME (snd r) = HOME s /\
  ruid (cred (snd r)) = ruid (cred s) /\
  euid (cred (snd r)) = euid (cred s) /\
  suid (cred (snd r)) = suid (cred s) /\
  rgid (cred (snd r)) = rgid (cred s) /\
  sgid (cred (snd r)) = sgid (cred s) /\
  (egid (cred (snd r)) = egid (cred s) \/
   gr_zstack acc = Some (egid (cred (snd r)))).
Proof.
  intros Hrefused r. subst r.
  unfold with_use_user_zstack, init.
  destruct (pw_zstack acc) as [[zuid zdir]|] eqn:Hpw;
    destruct (gr_zstack acc) as [zgid|] eqn:Hgr;
    try (cbn [fst snd]; repeat split; eauto; fail).
  pose proof (Hrefused) as Hne.
  unfold enter in *. rewrite Hpw, Hgr in *.
  destruct (HOME s) as [h|] eqn:Hh;
    [|cbn [fst snd]; rewrite ?Hh; repeat split; eauto].
  unfold setegid in *.
  destruct ((euid (cred s) =? 0) || (zgid =? rgid (cred s))
            || (zgid =? egid (cred s)) || (zgid =? sgid (cred s)));
    [|cbn [fst snd]; rewrite ?Hh; repeat split; eauto].
  unfold seteuid in *. cbn [cred HOME store euid ruid suid rgid egid sgid] in *.
  match goal with
  | |- context [if ?c then _ else _] => destruct c
  end.
  - exfalso. eapply Hne. reflexivity.
  - cbn [fst snd cred HOME store euid ruid suid rgid egid sgid].
    rewrite ?Hh. repeat split; eauto.
Qed.

(** An unprivileged caller that is not [zstack]. *)
Lemma use_user_zstack_refused_witness :
  let user := mkProc (mkCred 500 500 500 500 500 500) (Some "/home/op") 7%nat in
  let body := fun s : Proc nat => (Ok tt, mkProc (cred s) (HOME s) 8%nat) in
  let r := with_use_user_zstack zstack_accounts body user in
  (exists e, fst r = Raise e) /\ store (snd r) = 7%nat.
Proof.
  intros user body r.
  destruct (use_user_zstack_refused zstack_accounts body user) as (H1 & H2 & _).
  - intros saved s1. discriminate.
  - split; assumption.
Defined.

(* ===================================================================== *)
(** ** [find_process_by_cmdline] *)
(* ===================================================================== *)

Lemma scan_pids_some (keyword : string) (pids : list (string * option string))
    (pid : string) :
  scan_pids keyword pids = Some pid ->
  exists before cmdline after,
    pids = before ++ (pid, Some cmdline) :: after /\
    contains keyword cmdline = true /\
    (forall q c, In (q, Some c) before -> contains keyword c = false).
Proof.
  induction pids as [|[q [c|]] rest IH]; simpl; [discriminate| |].
  - destruct (contains keyword c) eqn:Hc; simpl.
    + intros H. inversion H; subst. exists [], c, rest.
      split; [reflexivity|]. split; [assumption|]. intros q' c' [].
    + intros H. destruct (IH H) as (before & cmdline & after & Heq & Hk & Hb).
      exists ((q, Some c) :: before), cmdline, after.
      split; [rewrite Heq; reflexivity|]. split; [assumption|].
      intros q' c' [Hin|Hin]; [inversion Hin; subst; assumption|eauto].
  - intros H. destruct (IH H) as (before & cmdline & after & Heq & Hk & Hb).
    exists ((q, None) :: before), cmdline, after.
    split; [rewrite Heq; reflexivity|]. split; [assumption|].
    intros q' c' [Hin|Hin]; [discriminate Hin|eauto].
Qed.

Lemma scan_pids_none (keyword : string) (pids : list (string * option string)) :
  scan_pids keyword pids = None <->
  (forall q c, In (q, Some c) pids -> contains keyword c = false).
Proof.
  induction pids as [|[q [c|]] rest IH]; simpl.
  - split; [intros _ q c []|reflexivity].
  - destruct (contains keyword c) eqn:Hc; simpl.
    + split; [discriminate|]. intros H.
      specialize (H q c (or_introl eq_refl)). congruence.
    + rewrite IH. split.
      * intros H q' c' [Hin|Hin]; [inversion Hin; subst; assumption|eauto].
      * intros H q' c' Hin. apply (H q' c'). right. assumption.
  - rewrite IH. split.
    + intros H q' c' [Hin|Hin]; [discriminate Hin|eauto].
    + intros H q' c' Hin. apply (H q' c'). right. assumption.
Qed.

(** X11.  [find_process_by_cmdline] answers with the first numeric entry of
    [/proc], in listing order, whose command line can be read and holds the
    keyword; entries that are not numeric or cannot be read are passed
    over.  It answers [None] exactly when no readable numeric entry holds
    the keyword. *)
Theorem find_process_by_cmdline_first_match
    (keyword : string) (proc : list (string * option string)) :
  (forall pid,
     find_process_by_cmdline keyword proc = Some pid ->
     isdigit pid = true /\
     exists before cmdline after,
       filter (fun entry => isdigit (fst entry)) proc
       = before ++ (pid, Some cmdline) :: after /\
       In (pid, Some cmdline) proc /\
       contains keyword cmdline = true /\
       (forall q c, In (q, Some c) before -> contains keyword c = false)) /\
  (find_process_by_cmdline keyword proc = None <->
   forall q c, In (q, Some c) proc -> isdigit q = true ->
               contains keyword c = false).
Proof.
  unfold find_process_by_cmdline. split.
  - intros pid H.
    destruct (scan_pids_some _ _ _ H) as (before & cmdline & after & Heq & Hk & Hb).
    assert (Hin : In (pid, Some cmdline)
                     (filter (fun entry => isdigit (fst entry)) proc)).
    { rewrite Heq. apply in_or_app. right. left. reflexivity. }
    apply filter_In in Hin. destruct Hin as (Hin & Hd). simpl in Hd.
    split; [assumption|]. exists before, cmdline, after.
    repeat split; assumption.
  - rewrite scan_pids_none. split.
    + intros H q c Hin Hd. apply (H q c). apply filter_In. split; assumption.
    + intros H q c Hin. apply filter_In in Hin. destruct Hin as (Hin & Hd).
      apply (H q c); assumption.
Qed.

Lemma find_process_by_cmdline_first_match_witness :
  isdigit "311" = true /\
  exists before cmdline after,
    filter (fun entry => isdigit (fst entry))
      [("self", Some "java -DappName=zstack"); ("17", None); ("204", Some "sshd");
       ("311", Some "java -DappName=zstack")]
    = before ++ ("311", Some cmdline) :: after /\
    In ("311", Some cmdline)
      [("self", Some "java -DappName=zstack"); ("17", None); ("204", Some "sshd");
       ("311", Some "java -DappName=zstack")] /\
    contains "appName=zstack" cmdline = true /\
    (forall q c, In (q, Some c) before -> contains "appName=zstack" c = false).
Proof.
  apply (proj1 (find_process_by_cmdline_first_match "appName=zstack"
                  [("self", Some "java -DappName=zstack"); ("17", None);
                   ("204", Some "sshd"); ("311", Some "java -DappName=zstack")])).
  reflexivity.
Defined.

Example find_process_by_cmdline_run :
  find_process_by_cmdline "appName=zstack"
    [("self", Some "java -DappName=zstack");
     ("17", None);
     ("204", Some "sshd");
     ("311", Some "java -Dcatalina.base=/usr/local/zstack -DappName=zstack");
     ("400", Some "tail -f -DappName=zstack")]
  = Some "311".
Proof. reflexivity. Qed.

(* ===================================================================== *)
(** ** Facts about the string methods *)
(* ===================================================================== *)

Lemma in_set_app (c : ascii) (a b : string) :
  in_set c (a ++ b) = in_set c a || in_set c b.
Proof.
  induction a as [|d a IH]; simpl; [reflexivity|].
  rewrite IH. apply orb_assoc.
Qed.

Lemma split_on_not_nil (sep : ascii) (s : string) : split_on sep s <> [].
Proof.
  destruct s as [|c s]; simpl; [discriminate|].
  destruct (split_on sep s); [discriminate|].
  destruct (Ascii.eqb c sep); discriminate.
Qed.

Lemma split_on_absent (sep : ascii) (s : string) :
  has_char sep s = false -> split_on sep s = [s].
Proof.
  unfold has_char. induction s as [|c s IH]; simpl; [reflexivity|].
  intros H. apply orb_false_iff in H. destruct H as (Hc & Hs).
  rewrite (IH Hs). rewrite Ascii.eqb_sym, Hc. reflexivity.
Qed.

Lemma split_on_app (sep : ascii) (l s : string) :
  has_char sep l = false ->
  split_on sep (l ++ String sep s) = l :: split_on sep s.
Proof.
  unfold has_char. induction l as [|c l IH]; simpl.
  - intros _. destruct (split_on sep s) eqn:Hs.
    + exfalso. exact (split_on_not_nil _ _ Hs).
    + rewrite Ascii.eqb_refl. reflexivity.
  - intros H. apply orb_false_iff in H. destruct H as (Hc & Hl).
    rewrite (IH Hl). rewrite Ascii.eqb_sym, Hc. reflexivity.
Qed.

Lemma split_on_join (sep : ascii) (lines : list string) :
  lines <> [] ->
  Forall (fun l => has_char sep l = false) lines ->
  split_on sep (join (String sep "") lines) = lines.
Proof.
  induction lines as [|l rest IH]; [congruence|].
  intros _ H. inversion H as [|? ? Hl Hrest]; subst.
  destruct rest as [|l' rest'].
  - simpl. apply split_on_absent. assumption.
  - change (join (String sep "") (l :: l' :: rest'))
      with (l ++ String sep (join (String sep "") (l' :: rest')))%string.
    rewrite split_on_app by assumption.
    rewrite IH; [reflexivity|discriminate|assumption].
Qed.

Lemma split_once_absent (sep : ascii) (s : string) :
  has_char sep s = false -> split_once sep s = [s].
Proof.
  unfold has_char. induction s as [|c s IH]; simpl; [reflexivity|].
  intros H. apply orb_false_iff in H. destruct H as (Hc & Hs).
  rewrite Ascii.eqb_sym, Hc, (IH Hs). reflexivity.
Qed.

Lemma split_once_app (sep : ascii) (k rest : string) :
  has_char sep k = false ->
  split_once sep (k ++ String sep rest) = [k; rest].
Proof.
  unfold has_char. induction k as [|c k IH]; simpl.
  - intros _. rewrite Ascii.eqb_refl. reflexivity.
  - intros H. apply orb_false_iff in H. destruct H as (Hc & Hk).
    rewrite Ascii.eqb_sym, Hc, (IH Hk). reflexivity.
Qed.

Lemma append_assoc (a b c : string) :
  ((a ++ b) ++ c = a ++ (b ++ c))%string.
Proof. induction a as [|x a IH]; simpl; [reflexivity|rewrite IH; reflexivity]. Qed.

Lemma rstrip_chars_app (chars a b : string) :
  rstrip_chars chars b <> "" ->
  rstrip_chars chars (a ++ b) = (a ++ rstrip_chars chars b)%string.
Proof.
  intros Hb. induction a as [|c a IH]; simpl; [reflexivity|].
  rewrite IH. destruct (a ++ rstrip_chars chars b)%string eqn:Heq; [|reflexivity].
  destruct a; simpl in Heq; [contradiction|discriminate].
Qed.

Lemma rstrip_chars_subset (small big s : string) :
  (forall c, in_set c small = true -> in_set c big = true) ->
  rstrip_chars big s = s -> rstrip_chars small s = s.
Proof.
  intros Hsub. induction s as [|c s IH]; simpl; [reflexivity|].
  destruct (rstrip_chars big s) as [|r0 r] eqn:Hr.
  - destruct (in_set c big) eqn:Hc; [discriminate|].
    intros H. inversion H; subst. simpl.
    destruct (in_set c small) eqn:Hc'; [|reflexivity].
    rewrite (Hsub _ Hc') in Hc. discriminate.
  - intros H. inversion H as [Hs]. rewrite Hs in *.
    rewrite (IH eq_refl). destruct s; [discriminate|reflexivity].
Qed.

Lemma lstrip_chars_keeps (chars s t : string) :
  s <> "" -> lstrip_chars chars s = s -> lstrip_chars chars (s ++ t) = (s ++ t)%string.
Proof.
  destruct s as [|c s]; [congruence|]. intros _. simpl.
  destruct (in_set c chars) eqn:Hc; [|reflexivity].
  intros H. exfalso.
  assert (Hlen : forall u, (String.length (lstrip_chars chars u) <= String.length u)%nat).
  { induction u as [|d u IHu]; simpl; [lia|].
    destruct (in_set d chars); simpl; lia. }
  specialize (Hlen s). rewrite H in Hlen. simpl in Hlen. lia.
Qed.

Lemma lstrip_chars_spaces (n : nat) (s : string) :
  lstrip_chars whitespace (spaces n ++ s) = lstrip_chars whitespace s.
Proof. induction n as [|n IH]; simpl; [reflexivity|exact IH]. Qed.

Lemma blanks_in_whitespace (c : ascii) :
  in_set c blanks = true -> in_set c whitespace = true.
Proof.
  unfold blanks, whitespace. simpl. intros H.
  repeat (apply orb_true_iff in H; destruct H as [H|H]);
    try discriminate; rewrite H; simpl; repeat rewrite orb_true_r; reflexivity.
Qed.

Lemma rstrip_chars_all (chars s : string) :
  forallb (fun c => in_set c chars) (list_ascii_of_string s) = true ->
  rstrip_chars chars s = "".
Proof.
  induction s as [|c s IH]; simpl; [reflexivity|].
  intros H. apply andb_true_iff in H. destruct H as (Hc & Hs).
  rewrite (IH Hs), Hc. reflexivity.
Qed.

Lemma prefix_first_line (p s : string) :
  has_char LF p = false ->
  String.prefix p (hd "" (split_on LF s)) = String.prefix p s.
Proof.
  unfold has_char. revert p. induction s as [|c s IH]; intros p Hp.
  - reflexivity.
  - simpl split_on. specialize (IH (tail1 p)).
    destruct (split_on LF s) as [|h t] eqn:Hs.
    + exfalso. exact (split_on_not_nil _ _ Hs).
    + simpl in IH. destruct (Ascii.eqb c LF) eqn:Hc.
      * apply Ascii.eqb_eq in Hc. subst c. destruct p as [|a p]; [reflexivity|].
        simpl. simpl in Hp. apply orb_false_iff in Hp. destruct Hp as (Ha & _).
        destruct (Ascii.ascii_dec a LF) as [->|_]; [|reflexivity].
        vm_compute in Ha. discriminate.
      * destruct p as [|a p]; [reflexivity|]. simpl.
        destruct (Ascii.ascii_dec a c); [|reflexivity].
        apply IH. simpl in Hp. apply orb_false_iff in Hp. apply Hp.
Qed.

(* ===================================================================== *)
(** ** [MySqlCommandLineQuery.query]: the parser *)
(* ===================================================================== *)

Lemma key_ok_spec (k : string) :
  key_ok k = true ->
  k <> "" /\ lstrip_chars whitespace k = k /\ rstrip_chars whitespace k = k /\
  has_char ":" k = false /\ has_char LF k = false /\ String.prefix "*" k = false.
Proof.
  unfold key_ok, str_truthy. intros H.
  repeat (apply andb_true_iff in H; let H' := fresh "H" in destruct H as (H & H')).
  repeat match goal with
         | X : negb _ = true |- _ => apply negb_true_iff in X
         | X : (_ =? _)%string = true |- _ => apply String.eqb_eq in X
         | X : (_ =? _)%string = false |- _ => apply String.eqb_neq in X
         end.
  repeat split; assumption.
Qed.

Lemma value_ok_spec (v : string) :
  value_ok v = true ->
  v <> "" /\ rstrip_chars whitespace v = v /\ has_char LF v = false.
Proof.
  unfold value_ok, str_truthy. intros H.
  repeat (apply andb_true_iff in H; let H' := fresh "H" in destruct H as (H & H')).
  repeat match goal with
         | X : negb _ = true |- _ => apply negb_true_iff in X
         | X : (_ =? _)%string = true |- _ => apply String.eqb_eq in X
         | X : (_ =? _)%string = false |- _ => apply String.eqb_neq in X
         end.
  repeat split; assumption.
Qed.

Lemma has_char_spaces (n : nat) : has_char LF (spaces n) = false.
Proof. induction n as [|n IH]; [reflexivity|exact IH]. Qed.

Lemma prefix_stars_spaces (n : nat) (k t : string) :
  k <> "" -> String.prefix "*" k = false ->
  String.prefix stars (spaces n ++ k ++ t) = false.
Proof.
  intros Hk Hp. destruct n as [|n]; [|reflexivity].
  destruct k as [|c k]; [congruence|]. unfold stars.
  cbn [spaces append String.prefix] in *.
  destruct (Ascii.ascii_dec "*" c); [|reflexivity].
  destruct k; discriminate.
Qed.

Lemma render_field_line (pad : string -> nat) (k v : string) :
  key_ok k = true -> value_ok v = true ->
  String.prefix stars (render_field pad (k, v)) = false /\
  has_char LF (render_field pad (k, v)) = false /\
  strip (render_field pad (k, v)) = (k ++ ": " ++ v)%string /\
  rstrip_chars blanks (render_field pad (k, v)) = render_field pad (k, v) /\
  render_field pad (k, v) <> "".
Proof.
  intros Hk Hv.
  destruct (key_ok_spec _ Hk) as (Hk0 & Hkl & Hkr & Hkc & Hkn & Hks).
  destruct (value_ok_spec _ Hv) as (Hv0 & Hvr & Hvn).
  unfold render_field. cbn [fst snd].
  assert (Hr : rstrip_chars whitespace (spaces (pad k) ++ k ++ ": " ++ v)
               = (spaces (pad k) ++ k ++ ": " ++ v)%string).
  { replace (spaces (pad k) ++ k ++ ": " ++ v)%string
      with ((spaces (pad k) ++ k ++ ": ") ++ v)%string.
    - rewrite rstrip_chars_app by (rewrite Hvr; assumption).
      rewrite Hvr. reflexivity.
    - rewrite !append_assoc. reflexivity. }
  split; [apply prefix_stars_spaces; assumption|].
  split.
  { unfold has_char in *. rewrite !in_set_app.
    fold (has_char LF (spaces (pad k))). rewrite has_char_spaces, Hkn, Hvn.
    reflexivity. }
  split.
  { unfold strip, strip_chars. rewrite Hr, lstrip_chars_spaces.
    apply lstrip_chars_keeps; assumption. }
  split.
  { apply (rstrip_chars_subset blanks whitespace);
      [exact blanks_in_whitespace|exact Hr]. }
  destruct (spaces (pad k)); [|discriminate].
  destruct k; [congruence|discriminate].
Qed.

Lemma parse_fields (pad : string -> nat) (fs : Dict) (rest : list string)
    (d : Dict) (ret : list Dict) :
  forallb (fun kv => key_ok (fst kv) && value_ok (snd kv)) fs = true ->
  parse_lines (map (render_field pad) fs ++ rest) (Some d) ret
  = parse_lines rest
      (Some (fold_left (fun d kv => dict_set (fst kv) (snd kv) d) fs d)) ret.
Proof.
  revert d. induction fs as [|[k v] fs IH]; intros d H; [reflexivity|].
  cbn [forallb fst snd] in H. apply andb_true_iff in H. destruct H as (Hkv & Hfs).
  apply andb_true_iff in Hkv. destruct Hkv as (Hk & Hv).
  destruct (render_field_line pad k v Hk Hv) as (Hp & _ & Hs & _).
  destruct (key_ok_spec _ Hk) as (Hk0 & Hkl & Hkr & Hkc & _).
  cbn [map app parse_lines fold_left fst snd]. rewrite Hp, Hs.
  change (k ++ ": " ++ v)%string with (k ++ String ":" (" " ++ v))%string.
  rewrite split_once_app by assumption.
  assert (Hsk : strip k = k).
  { unfold strip, strip_chars. rewrite Hkr. assumption. }
  rewrite Hsk. cbn [tail1 append]. apply IH. assumption.
Qed.

Lemma distinct_NoDup (l : list string) : distinct l = true -> NoDup l.
Proof.
  induction l as [|x l IH]; simpl; [constructor|].
  intros H. apply andb_true_iff in H. destruct H as (Hx & Hl).
  constructor; [|auto]. intros Hin. apply negb_true_iff in Hx.
  assert (existsb (String.eqb x) l = true); [|congruence].
  apply existsb_exists. exists x. split; [assumption|apply String.eqb_refl].
Qed.

Lemma dict_set_fresh (k v : string) (d : Dict) :
  ~ In k (map fst d) -> dict_set k v d = d ++ [(k, v)].
Proof.
  induction d as [|[k' v'] d IH]; simpl; [reflexivity|].
  intros H. destruct (String.eqb_spec k' k) as [->|_].
  - exfalso. apply H. left. reflexivity.
  - rewrite IH; [reflexivity|]. intros Hin. apply H. right. assumption.
Qed.

Lemma fold_dict_set (fs d : Dict) :
  NoDup (map fst d ++ map fst fs) ->
  fold_left (fun d kv => dict_set (fst kv) (snd kv) d) fs d = d ++ fs.
Proof.
  revert d. induction fs as [|[k v] fs IH]; intros d H; simpl.
  - rewrite app_nil_r. reflexivity.
  - simpl in H. pose proof (NoDup_remove_2 _ _ _ H) as Hk.
    rewrite dict_set_fresh.
    + rewrite IH.
      * rewrite <- app_assoc. reflexivity.
      * rewrite map_app, <- app_assoc. exact H.
    + intros Hin. apply Hk. apply in_or_app. left. assumption.
Qed.

Lemma row_ok_spec (row : string * Dict) :
  row_ok row = true ->
  String.prefix stars (fst row) = true /\ has_char LF (fst row) = false /\
  snd row <> [] /\ NoDup (map fst (snd row)) /\
  forallb (fun kv => key_ok (fst kv) && value_ok (snd kv)) (snd row) = true.
Proof.
  unfold row_ok. intros H.
  repeat (apply andb_true_iff in H; let H' := fresh "H" in destruct H as (H & H')).
  apply negb_true_iff in H3.
  repeat split; try assumption.
  - destruct (snd row); [discriminate|discriminate].
  - apply distinct_NoDup. assumption.
Qed.

Lemma parse_rows (pad : string -> nat) (rows : list (string * Dict))
    (current : option Dict) (ret : list Dict) :
  forallb row_ok rows = true ->
  parse_lines (flat_map (render_row pad) rows) current ret
  = Returns (flush current ret ++ map snd rows).
Proof.
  revert current ret. induction rows as [|[sep fs] rows IH]; intros current ret H.
  - simpl. rewrite app_nil_r. reflexivity.
  - cbn [forallb] in H. apply andb_true_iff in H. destruct H as (Hrow & Hrows).
    destruct (row_ok_spec _ Hrow) as (Hsep & _ & Hfs & Hnd & Hok).
    cbn [fst snd] in *.
    cbn [flat_map render_row fst snd app parse_lines]. rewrite Hsep.
    rewrite parse_fields by assumption.
    rewrite fold_dict_set by exact Hnd. cbn [app].
    rewrite IH by assumption. cbn [map snd].
    destruct fs as [|item fs]; [congruence|]. cbn [flush].
    rewrite <- app_assoc. reflexivity.
Qed.

Lemma rendered_lines_have_no_LF (pad : string -> nat) (rows : list (string * Dict)) :
  forallb row_ok rows = true ->
  Forall (fun l => has_char LF l = false) (flat_map (render_row pad) rows).
Proof.
  induction rows as [|[sep fs] rows IH]; intros H; [constructor|].
  cbn [forallb] in H. apply andb_true_iff in H. destruct H as (Hrow & Hrows).
  destruct (row_ok_spec _ Hrow) as (_ & Hsep & _ & _ & Hok). cbn [fst snd] in *.
  cbn [flat_map render_row fst snd]. apply Forall_app. split; [|auto].
  constructor; [assumption|]. clear -Hok.
  induction fs as [|[k v] fs IHfs]; [constructor|].
  cbn [forallb fst snd] in Hok. apply andb_true_iff in Hok. destruct Hok as (Hkv & Hfs).
  apply andb_true_iff in Hkv. destruct Hkv as (Hk & Hv).
  constructor; [|auto]. apply (render_field_line pad k v Hk Hv).
Qed.

Lemma rstrip_join_last (chars sep : string) (init : list string) (l : string) :
  rstrip_chars chars l = l -> l <> "" ->
  rstrip_chars chars (join sep (init ++ [l])) = join sep (init ++ [l]) /\
  join sep (init ++ [l]) <> "".
Proof.
  intros Hl Hl0. induction init as [|p init IH].
  - simpl. split; assumption.
  - destruct IH as (IH & IH0). cbn [app].
    destruct (init ++ [l]) as [|q rest] eqn:Heq.
    + destruct init; discriminate.
    + change (join sep (p :: q :: rest))
        with (p ++ sep ++ join sep (q :: rest))%string.
      assert (Hne : forall a b : string, b <> "" -> (a ++ b)%string <> "").
      { intros a b Hb. destruct a; [exact Hb|discriminate]. }
      split; [|apply Hne, Hne, IH0].
      rewrite <- append_assoc.
      rewrite rstrip_chars_app by (rewrite IH; exact IH0).
      rewrite IH. reflexivity.
Qed.

Lemma rendered_last_line (pad : string -> nat) (rows : list (string * Dict)) :
  rows <> [] -> forallb row_ok rows = true ->
  exists init k v,
    flat_map (render_row pad) rows = init ++ [render_field pad (k, v)] /\
    key_ok k = true /\ value_ok v = true.
Proof.
  intros Hne H. destruct (exists_last Hne) as (rows0 & [sep fs] & ->).
  rewrite forallb_app in H. apply andb_true_iff in H. destruct H as (_ & H).
  cbn [forallb] in H. rewrite andb_true_r in H.
  destruct (row_ok_spec _ H) as (_ & _ & Hfs & _ & Hok). cbn [fst snd] in *.
  destruct (exists_last Hfs) as (fs0 & [k v] & ->).
  rewrite forallb_app in Hok. apply andb_true_iff in Hok. destruct Hok as (_ & Hok).
  cbn [forallb fst snd] in Hok. rewrite andb_true_r in Hok.
  apply andb_true_iff in Hok. destruct Hok as (Hk & Hv).
  exists (flat_map (render_row pad) rows0 ++ sep :: map (render_field pad) fs0), k, v.
  split; [|split; assumption].
  rewrite flat_map_app. cbn [flat_map]. unfold render_row. cbn [fst snd].
  rewrite app_nil_r, map_app. cbn [map].
  rewrite <- app_assoc. reflexivity.
Qed.

Lemma rendered_is_stripped (pad : string -> nat) (rows : list (string * Dict)) :
  rows <> [] -> forallb row_ok rows = true ->
  strip_chars blanks (render pad rows) = render pad rows /\
  render pad rows <> "".
Proof.
  intros Hne H. unfold render, strip_chars.
  destruct (rendered_last_line pad rows Hne H) as (init & k & v & Heq & Hk & Hv).
  destruct (render_field_line pad k v Hk Hv) as (_ & _ & _ & Hr & Hl0).
  destruct (rstrip_join_last blanks (String LF "") init _ Hr Hl0) as (Hj & Hj0).
  rewrite Heq, Hj. rewrite <- Heq. split; [|rewrite Heq; exact Hj0].
  destruct rows as [|[sep fs] rows]; [congruence|].
  cbn [forallb] in H. apply andb_true_iff in H. destruct H as (Hrow & _).
  destruct (row_ok_spec _ Hrow) as (Hsep & _). cbn [fst snd] in Hsep.
  cbn [flat_map render_row fst snd app].
  destruct sep as [|c sep]; [discriminate|].
  unfold stars in Hsep. cbn [String.prefix] in Hsep.
  destruct (Ascii.ascii_dec "*" c) as [<-|]; [|discriminate].
  destruct (map (render_field pad) fs ++ flat_map (render_row pad) rows);
    reflexivity.
Qed.

(** X12.  [MySqlCommandLineQuery.query] reads back what [mysql] prints in
    its vertical format.  For any rows, each a line starting with nine
    stars followed by at least one line [name: value], the names padded
    with spaces on the left as [mysql] does, the parser returns the rows
    in order, each as the dictionary of its names and values, provided
    the names of a row are distinct and names and values are plain: not
    empty, no line feed, no white space at the end, and for a name no
    colon, no white space or star in front. *)
Theorem query_parse_round_trip (pad : string -> nat)
    (rows : list (string * Dict)) :
  forallb row_ok rows = true ->
  query_parse (render pad rows) = Returns (map snd rows).
Proof.
  intros H. destruct rows as [|row rows]; [reflexivity|].
  assert (Hne : row :: rows <> []) by discriminate.
  destruct (rendered_is_stripped pad _ Hne H) as (Hs & Hs0).
  unfold query_parse. rewrite Hs.
  unfold str_truthy. apply String.eqb_neq in Hs0. rewrite Hs0. cbn [negb].
  unfold render. rewrite split_on_join.
  - rewrite parse_rows by assumption. reflexivity.
  - destruct row as [sep fs]. discriminate.
  - apply rendered_lines_have_no_LF. assumption.
Qed.

Lemma query_parse_round_trip_witness :
  query_parse
    (render (fun k => (9 - String.length k)%nat)
       [("*************************** 1. row ***************************",
         [("hostName", "10.0.0.1"); ("heartBeat", "2016-01-12 10:30:01")]);
        ("*************************** 2. row ***************************",
         [("hostName", "10.0.0.2"); ("heartBeat", "2016-01-12 10:30:04")])])
  = Returns [[("hostName", "10.0.0.1"); ("heartBeat", "2016-01-12 10:30:01")];
             [("hostName", "10.0.0.2"); ("heartBeat", "2016-01-12 10:30:04")]].
Proof.
  apply (query_parse_round_trip (fun k => (9 - String.length k)%nat)
           [("*************************** 1. row ***************************",
             [("hostName", "10.0.0.1"); ("heartBeat", "2016-01-12 10:30:01")]);
            ("*************************** 2. row ***************************",
             [("hostName", "10.0.0.2"); ("heartBeat", "2016-01-12 10:30:04")])]).
  vm_compute. reflexivity.
Defined.

(** X13.  What [MySqlCommandLineQuery.query] does with output it cannot
    read.  Output of blanks only gives the empty list.  Output that, once
    stripped, does not begin with nine stars raises [CtlError].  After a
    line of stars, a line without a colon raises [ValueError] from the
    unpacking, not [CtlError]. *)
Theorem query_parse_rejects (output : string) :
  (forallb (fun c => in_set c blanks) (list_ascii_of_string output) = true ->
   query_parse output = Returns []) /\
  (strip_chars blanks output <> "" ->
   String.prefix stars (strip_chars blanks output) = false ->
   query_parse output = RaisesCtlError "cannot parse mysql output") /\
  (forall sep l rest,
     split_on LF (strip_chars blanks output) = sep :: l :: rest ->
     String.prefix stars sep = true ->
     String.prefix stars l = false ->
     has_char ":" (strip l) = false ->
     query_parse output = RaisesValueError).
Proof.
  unfold query_parse. split; [|split].
  - intros H. unfold strip_chars. rewrite (rstrip_chars_all _ _ H). reflexivity.
  - intros Hne Hp. unfold str_truthy.
    apply String.eqb_neq in Hne. rewrite Hne. cbn [negb].
    rewrite <- (prefix_first_line stars) in Hp by reflexivity.
    destruct (split_on LF (strip_chars blanks output)) as [|l rest] eqn:Hs.
    + exfalso. exact (split_on_not_nil _ _ Hs).
    + cbn [hd] in Hp. cbn [parse_lines]. rewrite Hp. reflexivity.
  - intros sep l rest Hs Hsep Hl Hc.
    assert (Hne : strip_chars blanks output <> "").
    { intros He. rewrite He in Hs. simpl in Hs. inversion Hs. }
    unfold str_truthy. apply String.eqb_neq in Hne. rewrite Hne. cbn [negb].
    rewrite Hs. cbn [parse_lines]. rewrite Hsep, Hl.
    rewrite (split_once_absent _ _ Hc). reflexivity.
Qed.

Lemma query_parse_rejects_witness :
  query_parse "ERROR 1045 (28000): Access denied for user"
  = RaisesCtlError "cannot parse mysql output" /\
  query_parse (String LF (String LF " ")) = Returns [] /\
  query_parse ("*************************** 1. row" ++ String LF "no such table")
  = RaisesValueError.
Proof.
  split; [|split].
  - apply (query_parse_rejects "ERROR 1045 (28000): Access denied for user");
      [vm_compute; discriminate|reflexivity].
  - apply (query_parse_rejects (String LF (String LF " "))). reflexivity.
  - eapply (query_parse_rejects
              ("*************************** 1. row" ++ String LF "no such table")).
    + vm_compute. reflexivity.
    + reflexivity.
    + reflexivity.
    + reflexivity.
Defined.

(* ===================================================================== *)
(** ** [Ctl.get_database_portal] *)
(* ===================================================================== *)

Lemma lstrip_slash_keeps (hostport t : string) :
  has_char "/" hostport = false -> hostport <> "" ->
  lstrip_chars "/" (hostport ++ t) = (hostport ++ t)%string.
Proof.
  intros H Hne. destruct hostport as [|c s]; [congruence|].
  unfold has_char in H. cbn [in_set] in H.
  apply orb_false_iff in H. destruct H as (Hc & _).
  cbn [append lstrip_chars in_set]. rewrite Ascii.eqb_sym, Hc. reflexivity.
Qed.

Lemma first_part (sep : ascii) (a rest : string) :
  has_char sep a = false ->
  rest = "" \/ (exists t, rest = String sep t) ->
  hd "" (split_on sep (a ++ rest)) = a.
Proof.
  intros Ha [->|(t & ->)].
  - assert (Hnil : (a ++ "")%string = a).
    { clear. induction a as [|c a IH]; simpl; [reflexivity|rewrite IH; reflexivity]. }
    rewrite Hnil, split_on_absent by assumption. reflexivity.
  - rewrite split_on_app by assumption. reflexivity.
Qed.

Lemma host_and_port_of_url (hostport rest : string) :
  has_char "/" hostport = false -> hostport <> "" ->
  rest = "" \/ (exists t, rest = String "/" t) ->
  Ctl.host_and_port ("jdbc:mysql://" ++ hostport ++ rest) = split_on ":" hostport.
Proof.
  intros H Hne Hrest. unfold Ctl.host_and_port.
  change (lstrip_chars "jdbc:mysql:" ("jdbc:mysql://" ++ hostport ++ rest))
    with (String "/" (String "/" (hostport ++ rest))).
  change (lstrip_chars "/" (String "/" (String "/" (hostport ++ rest))))
    with (lstrip_chars "/" (hostport ++ rest)).
  rewrite lstrip_slash_keeps by assumption.
  rewrite first_part by assumption. reflexivity.
Qed.

Lemma portal_of_config (config : Dict) (user password hostport rest : string) :
  dict_get "DB.user" config = Some user -> user <> "" ->
  dict_get "DB.password" config = Some password ->
  dict_get "DB.url" config = Some ("jdbc:mysql://" ++ hostport ++ rest)%string ->
  has_char "/" hostport = false -> hostport <> "" ->
  rest = "" \/ (exists t, rest = String "/" t) ->
  Ctl.get_database_portal (Some config)
  = match split_on ":" hostport with
    | [h; p] => Returns (mkPortal h p user password)
    | _ => RaisesValueError
    end.
Proof.
  intros Hu Hu0 Hp Hurl Hslash Hne Hrest.
  unfold Ctl.get_database_portal, Ctl.get_db_url, Ctl.read_property.
  rewrite Hu, Hp, Hurl. unfold opt_truthy, str_truthy.
  apply String.eqb_neq in Hu0.
  assert (Hnz : ("jdbc:mysql://" ++ hostport ++ rest =? "")%string = false)
    by reflexivity.
  repeat first [rewrite Hu0 | rewrite Hnz | progress cbn [negb]].
  rewrite host_and_port_of_url by assumption. reflexivity.
Qed.



(* ===================================================================== *)
(** ** The property files *)
(* ===================================================================== *)

Lemma dict_get_set (k k' v : string) (d : Dict) :
  dict_get k (dict_set k' v d) = if (k' =? k)%string then Some v else dict_get k d.
Proof.
  induction d as [|[k0 v0] d IH]; simpl.
  - reflexivity.
  - destruct (String.eqb_spec k0 k') as [->|Hne]; simpl.
    + destruct (k' =? k)%string; reflexivity.
    + rewrite IH. destruct (String.eqb_spec k0 k) as [->|Hne'].
      * destruct (String.eqb_spec k' k) as [->|_]; [congruence|reflexivity].
      * reflexivity.
Qed.

Lemma dict_get_app (k : string) (a b : Dict) :
  dict_get k (a ++ b) = match dict_get k a with
                        | Some v => Some v
                        | None => dict_get k b
                        end.
Proof.
  induction a as [|[k0 v0] a IH]; simpl; [reflexivity|].
  destruct (k0 =? k)%string; [reflexivity|exact IH].
Qed.

(** Setting properties from left to right: the last value given for a key
    is the one that stays. *)
Lemma dict_get_fold_set (k : string) (kvs config : Dict) :
  dict_get k (fold_left (fun d kv => dict_set (fst kv) (snd kv) d) kvs config)
  = match dict_get k (rev kvs) with
    | Some v => Some v
    | None => dict_get k config
    end.
Proof.
  revert config. induction kvs as [|[k0 v0] kvs IH]; intros config; simpl.
  - reflexivity.
  - rewrite IH, dict_get_app, dict_get_set. simpl.
    destruct (dict_get k (rev kvs)); [reflexivity|].
    destruct (k0 =? k)%string; reflexivity.
Qed.

Lemma written_assignments (kvs : Dict) (tail : list string) (config : Dict) :
  Forall (fun kv => has_char "=" (fst kv) = false) kvs ->
  written (map (split_once "=") (map assignment kvs ++ tail)) config
  = written (map (split_once "=") tail)
      (fold_left (fun d kv => dict_set (fst kv) (snd kv) d) kvs config).
Proof.
  revert config. induction kvs as [|[k v] kvs IH]; intros config H; [reflexivity|].
  inversion H as [|? ? Hk Hrest]; subst. cbn [fst] in Hk.
  cbn [map app fold_left fst snd]. unfold assignment at 1. cbn [fst snd].
  rewrite split_once_app by assumption. cbn [written]. apply IH. assumption.
Qed.

Lemma written_never_CtlError (lst : list (list string)) (config : Dict) (msg : string) :
  fst (written lst config) <> RaisesCtlError msg.
Proof.
  revert config. induction lst as [|item rest IH]; intros config; simpl; [discriminate|].
  destruct item as [|key [|value [|extra more]]]; simpl; try discriminate. apply IH.
Qed.

Section Privileged.

Import UseUserZstack.

Variable acc : Accounts.
Variables (zuid zgid : Z) (zdir h : string).
Hypothesis Hpw : pw_zstack acc = Some (zuid, zdir).
Hypothesis Hgr : gr_zstack acc = Some zgid.

Lemma with_use_user_zstack_privileged {Store A} (body : Act Store A) (s : Proc Store) :
  privileged h s ->
  (forall x, cred (snd (body x)) = cred x) ->
  let inside := mkProc (mkCred (ruid (cred s)) zuid (suid (cred s))
                               (rgid (cred s)) zgid (sgid (cred s)))
                       (Some zdir) (store s) in
  fst (body inside) <> Hang ->
  with_use_user_zstack acc body s
  = (fst (body inside),
     mkProc (settled (cred s)) (Some h) (store (snd (body inside)))).
Proof.
  intros (Hr & He & Hh) Hbody inside Hret.
  unfold with_use_user_zstack, UseUserZstack.init. rewrite Hpw, Hgr.
  rewrite (enter_as_root acc s h zdir zuid zgid He Hh Hpw Hgr).
  fold inside. specialize (Hbody inside).
  destruct (body inside) as [res s2]. cbn [fst snd] in *.
  rewrite (exit_after_body _ s s2)
    by (try reflexivity; rewrite Hbody; reflexivity).
  rewrite Hbody. unfold settled. cbn [suid sgid inside cred root_home].
  destruct res as [a|e|]; try reflexivity. contradiction.
Qed.

Lemma privileged_settled {Store} (s : Proc Store) (f : Store) :
  privileged h s -> privileged h (mkProc (settled (cred s)) (Some h) f).
Proof.
  intros (Hr & He & Hh). unfold privileged, settled. cbn [cred ruid euid HOME].
  repeat split; assumption.
Qed.

Lemma write_items_run (lst : list (list string)) (config : Dict)
    (s : Proc PropertyFile.Files) :
  store s = Some config ->
  PropertyFile.write_items lst config s
  = (Ok (fst (written lst config)),
     mkProc (cred s) (HOME s) (Some (snd (written lst config)))).
Proof.
  revert config s. induction lst as [|item rest IH]; intros config s Hs.
  - simpl. rewrite <- Hs. destruct s; reflexivity.
  - destruct item as [|key [|value [|extra more]]];
      try (simpl; rewrite <- Hs; destruct s; reflexivity).
    cbn [PropertyFile.write_items written PropertyFile.config_write].
    rewrite IH by reflexivity. reflexivity.
Qed.

Lemma write_properties_privileged (lst : list (list string)) (config : Dict)
    (s : Proc PropertyFile.Files) :
  privileged h s -> store s = Some config ->
  PropertyFile.write_properties acc lst config s
  = (match fst (written lst config) with
     | Returns _ => Ok tt
     | _ => Raise (SystemExit 1)
     end,
     mkProc (settled (cred s)) (Some h) (Some (snd (written lst config)))).
Proof.
  intros Hp Hs. unfold PropertyFile.write_properties, PropertyFile.on_error_block.
  rewrite with_use_user_zstack_privileged; try assumption.
  - rewrite write_items_run by exact Hs. cbn [fst snd store].
    destruct (fst (written lst config)) as [[]|msg|] eqn:Hw; try reflexivity.
    exfalso. exact (written_never_CtlError _ _ _ Hw).
  - intros x. clear. revert config x.
    induction lst as [|item rest IH]; intros config x; [reflexivity|].
    destruct item as [|key [|value [|extra more]]]; try reflexivity.
    cbn [PropertyFile.write_items PropertyFile.config_write].
    rewrite IH. reflexivity.
  - rewrite write_items_run by exact Hs. discriminate.
Qed.

End Privileged.

Lemma join_first_word (sep a b : string) (rest : list string) :
  join sep ((a ++ b)%string :: rest) = (a ++ join sep (b :: rest))%string.
Proof.
  destruct rest as [|r rest]; [reflexivity|].
  change (join sep ((a ++ b)%string :: r :: rest))
    with ((a ++ b) ++ sep ++ join sep (r :: rest))%string.
  rewrite append_assoc. reflexivity.
Qed.

Lemma has_char_join (c : ascii) (sep : string) (parts : list string) :
  has_char c sep = false ->
  Forall (fun p => has_char c p = false) parts ->
  has_char c (join sep parts) = false.
Proof.
  intros Hsep H. induction H as [|p rest Hp Hrest IH]; [reflexivity|].
  destruct rest as [|r rest]; [exact Hp|].
  change (join sep (p :: r :: rest)) with (p ++ sep ++ join sep (r :: rest))%string.
  unfold has_char in *. rewrite !in_set_app, Hp, Hsep, IH. reflexivity.
Qed.

Lemma dict_get_absent (k : string) (d : Dict) :
  ~ In k (map fst d) -> dict_get k d = None.
Proof.
  induction d as [|[k0 v0] d IH]; simpl; [reflexivity|].
  intros H. destruct (String.eqb_spec k0 k) as [->|_].
  - exfalso. apply H. left. reflexivity.
  - apply IH. intros Hin. apply H. right. assumption.
Qed.

Lemma dict_del_keys (k k' : string) (d : Dict) :
  In k (map fst (dict_del k' d)) -> In k (map fst d).
Proof.
  induction d as [|[k0 v0] d IH]; simpl; [tauto|].
  destruct (k0 =? k')%string; simpl; [tauto|]. intros [H|H]; [left; exact H|right; auto].
Qed.

Lemma dict_del_NoDup (k' : string) (d : Dict) :
  NoDup (map fst d) -> NoDup (map fst (dict_del k' d)).
Proof.
  induction d as [|[k0 v0] d IH]; simpl; [trivial|].
  intros H. inversion H as [|? ? Hnotin Hnd]; subst.
  destruct (k0 =? k')%string; [assumption|]. simpl. constructor; [|auto].
  intros Hin. apply Hnotin. eapply dict_del_keys. exact Hin.
Qed.

Lemma dict_get_del (k k' : string) (d : Dict) :
  NoDup (map fst d) ->
  dict_get k (dict_del k' d) = if (k' =? k)%string then None else dict_get k d.
Proof.
  induction d as [|[k0 v0] d IH]; simpl.
  - intros _. destruct (k' =? k)%string; reflexivity.
  - intros H. inversion H as [|? ? Hnotin Hnd]; subst.
    destruct (String.eqb_spec k0 k') as [->|Hne].
    + destruct (String.eqb_spec k' k) as [->|_]; [|reflexivity].
      apply dict_get_absent. assumption.
    + simpl. rewrite (IH Hnd).
      destruct (String.eqb_spec k0 k) as [->|_]; [|reflexivity].
      destruct (String.eqb_spec k' k) as [->|_]; [congruence|reflexivity].
Qed.

Lemma dict_get_fold_del (k : string) (keys : list string) (d : Dict) :
  NoDup (map fst d) ->
  dict_get k (fold_left (fun d k => dict_del k d) keys d)
  = if existsb (String.eqb k) keys then None else dict_get k d.
Proof.
  revert d. induction keys as [|k' keys IH]; intros d Hnd; [reflexivity|].
  cbn [fold_left existsb]. rewrite IH by (apply dict_del_NoDup; assumption).
  rewrite dict_get_del by assumption. rewrite (String.eqb_sym k k').
  destruct (existsb (String.eqb k) keys); [rewrite orb_true_r; reflexivity|].
  rewrite orb_false_r. reflexivity.
Qed.

Lemma settled_settled (c : UseUserZstack.Cred) : settled (settled c) = settled c.
Proof. reflexivity. Qed.

Lemma setenv_run (acc : Accounts) (zuid zgid : Z) (zdir h : string)
    (s : Proc PropertyFile.Files) (arg : string) (rest : list string) :
  pw_zstack acc = Some (zuid, zdir) -> gr_zstack acc = Some zgid ->
  privileged h s ->
  let old := match store s with Some items => items | None => [] end in
  let lst := [split_once "=" (join " " (arg :: rest))] in
  SetEnvironmentVariableCmd.run acc true (arg :: rest) s
  = (match fst (written lst old) with
     | Returns _ => Ok tt
     | _ => Raise (SystemExit 1)
     end,
     mkProc (settled (cred s)) (Some h) (Some (snd (written lst old)))).
Proof.
  intros Hpw Hgr Hp old lst.
  unfold SetEnvironmentVariableCmd.run. cbn [negb].
  unfold PropertyFile.act_bind at 1.
  rewrite (with_use_user_zstack_privileged acc zuid zgid zdir h Hpw Hgr);
    [|assumption|intros x; reflexivity|discriminate].
  cbn [fst snd SetEnvironmentVariableCmd.create_if_missing store].
  match goal with
  | |- PropertyFile.act_bind _ _ ?x = _ => set (s1 := x)
  end.
  assert (Hs1 : store s1 = Some old).
  { unfold s1, old. cbn [store]. destruct (store s); reflexivity. }
  assert (Hp1 : privileged h s1) by (apply privileged_settled; assumption).
  unfold PropertyFile.act_bind, PropertyFile.init. rewrite Hs1.
  rewrite (write_properties_privileged acc zuid zgid zdir h Hpw Hgr _ old s1 Hp1 Hs1).
  reflexivity.
Qed.

(** X15.  [zstack-ctl configure k1=v1 k2=v2 ...], run locally by root on
    an existing [zstack.properties], writes the properties from left to
    right, each under the text before its first [=], and stops at the
    first argument that has no [=]: the properties before it are already
    in the file, that argument and those after it are not, and the
    command exits with status 1.  Without such an argument it returns and
    all are in the file; a key given twice keeps its last value, and the
    keys not named keep theirs. *)
Theorem configure_stops_at_malformed_property
    (acc : Accounts) (zuid zgid : Z) (zdir h : string)
    (s : Proc PropertyFile.Files) (config kvs : Dict) (tail : list string) :
  pw_zstack acc = Some (zuid, zdir) -> gr_zstack acc = Some zgid ->
  privileged h s -> store s = Some config ->
  Forall (fun kv => has_char "=" (fst kv) = false) kvs ->
  match tail with
  | [] => kvs <> []
  | bad :: _ => has_char "=" bad = false
  end ->
  let r := ConfigureCmd.run_local acc (map assignment kvs ++ tail) s in
  fst r = match tail with
          | [] => Ok tt
          | _ :: _ => Raise (SystemExit 1)
          end /\
  exists items,
    store (snd r) = Some items /\
    forall k, dict_get k items = match dict_get k (rev kvs) with
                                 | Some v => Some v
                                 | None => dict_get k config
                                 end.
Proof.
  intros Hpw Hgr Hp Hs Hkvs Htail r. subst r.
  unfold ConfigureCmd.run_local.
  destruct (map assignment kvs ++ tail) as [|a0 args] eqn:Hargs.
  { apply app_eq_nil in Hargs. destruct Hargs as (Hk & Ht). subst tail.
    destruct kvs; [congruence|discriminate]. }
  rewrite <- Hargs. clear Hargs a0 args.
  unfold Ctl.write_properties, PropertyFile.act_bind, PropertyFile.init.
  rewrite Hs. unfold PropertyFile.on_error_act.
  rewrite (write_properties_privileged acc zuid zgid zdir h Hpw Hgr _ config s Hp Hs).
  rewrite written_assignments by assumption.
  destruct tail as [|bad rest].
  - cbn [map written fst snd store]. split; [reflexivity|].
    eexists. split; [reflexivity|]. intros k. apply dict_get_fold_set.
  - cbn [map]. rewrite (split_once_absent _ _ Htail).
    cbn [written fst snd store]. split; [reflexivity|].
    eexists. split; [reflexivity|]. intros k. apply dict_get_fold_set.
Qed.

Lemma configure_stops_at_malformed_property_witness :
  let s := mkProc (mkCred 0 0 0 0 0 0) (Some "/root")
             (Some [("DB.user", "zstack"); ("DB.password", "")]) in
  let r := ConfigureCmd.run_local zstack_accounts
             ["DB.password=s3cret=="; "DB.url"; "DB.user=root"] s in
  fst r = Raise (SystemExit 1) /\
  store (snd r) = Some [("DB.user", "zstack"); ("DB.password", "s3cret==")].
Proof.
  intros s r.
  assert (Hkvs : Forall (fun kv : string * string => has_char "=" (fst kv) = false)
                   [("DB.password", "s3cret==")])
    by (repeat constructor).
  destruct (configure_stops_at_malformed_property zstack_accounts 1000 1000
              "/home/zstack" "/root" s
              [("DB.user", "zstack"); ("DB.password", "")]
              [("DB.password", "s3cret==")] ["DB.url"; "DB.user=root"]
              eq_refl eq_refl (conj eq_refl (conj eq_refl eq_refl)) eq_refl
              Hkvs eq_refl)
    as (Hfst & _).
  split; [exact Hfst|reflexivity].
Defined.







(* ===================================================================== *)
(** ** Commands given as text: the monad *)
(* ===================================================================== *)

Lemma cmd_bind_ok {A B} (m : Cmd A) (k : A -> Cmd B) (h h' : Host) (a : A) :
  m h = (Ok a, h') -> cmd_bind m k h = k a h'.
Proof. intros H. unfold cmd_bind. rewrite H. reflexivity. Qed.

Lemma cmd_bind_raise {A B} (m : Cmd A) (k : A -> Cmd B) (h h' : Host) (e : Exn) :
  m h = (Raise e, h') -> cmd_bind m k h = (Raise e, h').
Proof. intros H. unfold cmd_bind. rewrite H. reflexivity. Qed.

Lemma lift_observe {A} (o : World -> Outcome A) (h : Host) :
  lift (observe o) h = (o (world h), h).
Proof. destruct h. reflexivity. Qed.

Lemma lift_observe_pure {A} (o : World -> A) (h : Host) :
  lift (observe_pure o) h = (Ok (o (world h)), h).
Proof. destruct h. reflexivity. Qed.

Lemma lift_sleep_1 (h : Host) :
  lift (time_sleep 1) h
  = (Ok tt, mkHost (mkWorld (clock (world h) + 1)
                            (trace (world h) ++ [(clock (world h), EvSleep 1)]))
                   (texts h)).
Proof. reflexivity. Qed.

Lemma text_shell_return_eq (E : TextEnv) (cmd : string) (h : Host) :
  text_shell_return E cmd h
  = (Ok (text_rc E cmd h),
     mkHost (world h) (texts h ++ [(clock (world h), TxShell cmd (text_rc E cmd h))])).
Proof. reflexivity. Qed.

Lemma text_shell_eq (E : TextEnv) (cmd : string) (h : Host) :
  text_shell E cmd h
  = (if negb (text_rc E cmd h =? 0) then Raise (failed_to_execute cmd)
     else Ok (text_stdout E cmd h),
     mkHost (world h) (texts h ++ [(clock (world h), TxShell cmd (text_rc E cmd h))])).
Proof.
  unfold text_shell, cmd_bind, text_ShellCmd. cbn [andb].
  destruct (negb (text_rc E cmd h =? 0)); reflexivity.
Qed.

Lemma shell_cmds_app (a b : list (Z * TextEvent)) :
  shell_cmds (a ++ b) = shell_cmds a ++ shell_cmds b.
Proof.
  induction a as [|[t e] a IH]; [reflexivity|].
  destruct e; simpl; rewrite IH; reflexivity.
Qed.

(** The loop that waits for the port: it ends, with [false] after exactly
    [rounds] seconds and [rounds] probes, or with [true] in less, and
    runs nothing but its probes. *)
Lemma wait_port_spec (E : TextEnv) (what port : string) (rounds : nat) (h : Host) :
  exists (b : bool) (h' : Host) (added : list (Z * TextEvent)),
    wait_port E what port rounds h = (Ok b, h') /\
    texts h' = texts h ++ added /\
    (b = false ->
       clock (world h') = clock (world h) + Z.of_nat rounds /\
       List.length (shell_cmds added) = rounds) /\
    (b = true ->
       clock (world h) <= clock (world h') < clock (world h) + Z.of_nat rounds /\
       (List.length (shell_cmds added) <= rounds)%nat).
Proof.
  revert h. induction rounds as [|n IH]; intros h.
  - exists false, h, []. cbn [wait_port cmd_ret]. rewrite app_nil_r.
    repeat split; try reflexivity; try discriminate. simpl. lia.
  - cbn [wait_port].
    erewrite cmd_bind_ok by apply text_shell_return_eq.
    destruct (text_rc E _ h =? 0) eqn:Hrc.
    + eexists true, _, _. split; [|split; [|split]].
      * unfold cmd_bind, info_text, note, cmd_ret. cbn [world texts]. reflexivity.
      * cbn [texts]. rewrite <- app_assoc. reflexivity.
      * discriminate.
      * intros _. cbn [world clock shell_cmds app List.length]. split; lia.
    + erewrite cmd_bind_ok by apply lift_sleep_1.
      match goal with
      | |- context [wait_port E what port n ?h1] =>
          destruct (IH h1) as (b & h' & added & Heq & Htexts & Hfalse & Htrue)
      end.
      cbn [world texts clock] in *.
      exists b, h'. eexists. split; [exact Heq|]. split.
      * rewrite Htexts, <- app_assoc. reflexivity.
      * rewrite shell_cmds_app. cbn [shell_cmds app List.length].
        split; intros Hb.
        -- destruct (Hfalse Hb) as (Hc & Hl). rewrite Hc, Hl. split; lia.
        -- destruct (Htrue Hb) as (Hc & Hl). split; lia.
Qed.





(* ===================================================================== *)
(** ** Stopping a service *)
(* ===================================================================== *)

Lemma found_pid_is_truthy (keyword : string) (proc : list (string * option string))
    (pid : string) :
  find_process_by_cmdline keyword proc = Some pid -> opt_truthy (Some pid) = true.
Proof.
  unfold find_process_by_cmdline. intros H.
  destruct (scan_pids_some _ _ _ H) as (before & cmdline & after & Heq & _).
  assert (Hin : In (pid, Some cmdline)
                   (filter (fun entry => isdigit (fst entry)) proc)).
  { rewrite Heq. apply in_or_app. right. left. reflexivity. }
  apply filter_In in Hin. destruct Hin as (_ & Hd). cbn [fst] in Hd.
  destruct pid; [discriminate|reflexivity].
Qed.

(** The loop that waits for the process to go: it ends, runs no command,
    and sleeps one second after each poll that finds the process.  It
    returns from inside after fewer than [count] sleeps; else it runs out
    after [count] sleeps and leaves the pid of the last poll. *)
Lemma wait_gone_spec (E : TextEnv) (what keyword : string) (count : nat)
    (pid : option string) (h : Host) :
  exists (b : bool) (last : option string) (h' : Host)
         (added : list (Z * TextEvent)) (k : nat),
    wait_gone E what keyword count pid h = (Ok (b, last), h') /\
    texts h' = texts h ++ added /\
    shell_cmds added = [] /\
    clock (world h') = clock (world h) + Z.of_nat k /\
    (b = true -> (k < count)%nat) /\
    (b = false -> k = count /\ (last = pid \/ opt_truthy last = true)).
Proof.
  revert pid h. induction count as [|n IH]; intros pid h.
  - exists false, pid, h, [], O. cbn [wait_gone cmd_ret].
    rewrite app_nil_r. repeat split; try reflexivity; try discriminate.
    + simpl. lia.
    + left. reflexivity.
  - cbn [wait_gone]. unfold find_process at 1.
    erewrite cmd_bind_ok by reflexivity.
    destruct (opt_truthy (find_process_by_cmdline keyword (proc_entries E h))) eqn:Hp;
      cbn [negb].
    + erewrite cmd_bind_ok by apply lift_sleep_1.
      match goal with
      | |- context [wait_gone E what keyword n ?p ?h1] =>
          destruct (IH p h1) as (b & last & h' & added & k & Heq & Htexts & Hsh & Hc & Htrue & Hfalse)
      end.
      cbn [world texts clock] in *.
      exists b, last, h', added, (S k). split; [exact Heq|].
      split; [exact Htexts|]. split; [exact Hsh|]. split; [lia|]. split.
      * intros Hb. specialize (Htrue Hb). lia.
      * intros Hb. destruct (Hfalse Hb) as (Hk & Hlast). split; [lia|].
        right. destruct Hlast as [->|Hl]; assumption.
    + eexists true, _, _, _, O. split; [reflexivity|].
      cbn [world texts clock]. split; [reflexivity|]. split; [reflexivity|].
      split; [lia|]. split; [intros _; lia|discriminate].
Qed.

(** What both [stop] methods do once the first signal has been sent. *)
Lemma wait_then_kill (E : TextEnv) (what keyword still : string)
    (pid0 : string) (h : Host) :
  opt_truthy (Some pid0) = true ->
  let r := (r <- wait_gone E what keyword 30 (Some pid0) ;;
            if fst r then cmd_ret tt
            else
              info_text still ;;
              text_shell E ("kill -9 " ++ show_opt (snd r)) ;;
              cmd_ret tt)%cmd h in
  exists added,
    texts (snd r) = texts h ++ added /\
    ((fst r = Ok tt /\
      clock (world h) <= clock (world (snd r)) < clock (world h) + 30 /\
      shell_cmds added = []) \/
     (clock (world (snd r)) = clock (world h) + 30 /\
      exists pid,
        pid <> "" /\
        shell_cmds added = ["kill -9 " ++ pid]%string /\
        (fst r = Ok tt \/ fst r = Raise (failed_to_execute ("kill -9 " ++ pid))))).
Proof.
  intros Hpid0 r. subst r.
  destruct (wait_gone_spec E what keyword 30 (Some pid0) h)
    as (b & last & h' & added & k & Heq & Htexts & Hsh & Hc & Htrue & Hfalse).
  erewrite cmd_bind_ok by exact Heq. cbn [fst snd].
  destruct b.
  - exists added. split; [exact Htexts|]. left. cbn [cmd_ret fst snd].
    specialize (Htrue eq_refl). repeat split; try assumption; lia.
  - destruct (Hfalse eq_refl) as (Hk & Hlast). subst k.
    assert (Htruthy : opt_truthy last = true).
    { destruct Hlast as [->|Hl]; assumption. }
    destruct last as [pid|]; [|discriminate].
    erewrite cmd_bind_ok by reflexivity. cbn [show_opt].
    match goal with
    | |- context [cmd_bind (text_shell E ?c) _ ?h2] =>
        pose proof (text_shell_eq E c h2) as Hkill;
        destruct (text_rc E c h2 =? 0) eqn:Hrc; cbn [negb] in Hkill
    end.
    + erewrite cmd_bind_ok by exact Hkill. cbn [cmd_ret fst snd world texts clock].
      eexists. split; [rewrite Htexts, <- !app_assoc; reflexivity|].
      right. split; [rewrite Hc; simpl; lia|].
      exists pid. split; [intros ->; discriminate|].
      split; [|left; reflexivity].
      rewrite !shell_cmds_app, Hsh. reflexivity.
    + erewrite cmd_bind_raise by exact Hkill. cbn [fst snd world texts clock].
      eexists. split; [rewrite Htexts, <- !app_assoc; reflexivity|].
      right. split; [rewrite Hc; simpl; lia|].
      exists pid. split; [intros ->; discriminate|].
      split; [|right; reflexivity].
      rewrite !shell_cmds_app, Hsh. reflexivity.
Qed.



Example cassandra_stop_graceful :
  let r := CassandraCmd.stop (sample_text_env rc_port_closed cassandra_for_3s no_rows)
             (CassandraCmd.mkArgs false true false (-1)) fresh_host in
  fst r = Ok tt /\ clock (world (snd r)) = 3 /\
  shell_cmds (texts (snd r)) = ["kill 812"].
Proof. vm_compute. repeat split. Qed.

Example cassandra_stop_forced :
  let r := CassandraCmd.stop (sample_text_env rc_port_closed cassandra_forever no_rows)
             (CassandraCmd.mkArgs false true false (-1)) fresh_host in
  fst r = Ok tt /\ clock (world (snd r)) = 30 /\
  shell_cmds (texts (snd r)) = ["kill 812"; "kill -9 812"].
Proof. vm_compute. repeat split. Qed.



(* ===================================================================== *)
(** ** [rollback_db] *)
(* ===================================================================== *)

Lemma lift_ok {A} (m : M A) (h : Host) (a : A) (w' : World) :
  m (world h) = (Ok a, w') -> lift m h = (Ok a, mkHost w' (texts h)).
Proof. intros H. unfold lift. rewrite H. reflexivity. Qed.

Lemma lift_raise {A} (m : M A) (h : Host) (e : Exn) (w' : World) :
  m (world h) = (Raise e, w') -> lift m h = (Raise e, mkHost w' (texts h)).
Proof. intros H. unfold lift. rewrite H. reflexivity. Qed.



Example rollback_db_run :
  let E := sample_text_env (fun _ _ => 0) no_process no_rows in
  let r := RollbackDatabaseCmd.run E
             (RollbackDatabaseCmd.mkArgs "/var/lib/zstack/dump.sql" (Some "s3cret") true)
             fresh_host in
  fst r = Ok tt /\
  shell_cmds (texts (snd r))
  = ["mysql -u root -ps3cret --host localhost --port 3306 -e " ++ dq ++ "select 1" ++ dq;
     "mysql -u root -ps3cret --host localhost --port 3306 -t zstack < /var/lib/zstack/dump.sql"]%string.
Proof. vm_compute. split; reflexivity. Qed.

(* ===================================================================== *)
(** ** [deploydb] *)
(* ===================================================================== *)

Lemma Ctl_write_properties_privileged
    (acc : Accounts) (zuid zgid : Z) (zdir h : string)
    (lst : list (list string)) (config : Dict) (s : Proc PropertyFile.Files) :
  pw_zstack acc = Some (zuid, zdir) -> gr_zstack acc = Some zgid ->
  privileged h s -> store s = Some config ->
  Ctl.write_properties acc lst s
  = (match fst (written lst config) with
     | Returns _ => Ok tt
     | _ => Raise (SystemExit 1)
     end,
     mkProc (settled (cred s)) (Some h) (Some (snd (written lst config)))).
Proof.
  intros Hpw Hgr Hp Hs.
  unfold Ctl.write_properties, PropertyFile.act_bind, PropertyFile.init.
  rewrite Hs. unfold PropertyFile.on_error_act.
  rewrite (write_properties_privileged acc zuid zgid zdir h Hpw Hgr _ config s Hp Hs).
  destruct (fst (written lst config)); reflexivity.
Qed.

Lemma deploy_eq (E : TextEnv) (script_path property_file_path : string)
    (args : DeployDBCmd.Args) (h : Host) (w1 : World) :
  error_if_tool_is_missing (under E) Mysql (world h) = (Ok tt, w1) ->
  path_exists (under E) script_path w1 = true ->
  path_exists (under E) property_file_path w1 = true ->
  let check := DeployDBCmd.check_existing_db args in
  let script := DeployDBCmd.deploy_cmd script_path args in
  let rc := text_rc E check (mkHost w1 (texts h)) in
  let h2 := mkHost w1 (texts h ++ [(clock w1, TxShell check rc)]) in
  let rc2 := text_rc E script h2 in
  DeployDBCmd.deploy E script_path property_file_path args h
  = if (rc =? 0) && negb (DeployDBCmd.drop args) then
      if DeployDBCmd.keep_db args then
        (Ok tt,
         mkHost w1 (texts h ++ [(clock w1, TxShell check rc);
                                (clock w1, TxInfo "detected existing zstack database and keep it")]))
      else (Raise (CtlError (OtherCtlError "detected existing zstack database")), h2)
    else
      (if negb (rc2 =? 0) then
         if (contains "ERROR 1044" (text_stdout E script h2)
             || contains "ERROR 1044" (text_stderr E script h2))
            || (contains "Access denied" (text_stdout E script h2)
                || contains "Access denied" (text_stderr E script h2))
         then Raise (CtlError (OtherCtlError "failed to deploy database, access denied"))
         else Raise (failed_to_execute script)
       else Ok tt,
       mkHost w1 (texts h ++ [(clock w1, TxShell check rc); (clock w1, TxShell script rc2)])).
Proof.
  intros Htool Hscript Hprop check script rc h2 rc2.
  unfold DeployDBCmd.deploy.
  erewrite cmd_bind_ok by (apply lift_ok; exact Htool).
  erewrite cmd_bind_ok
    by (rewrite lift_observe_pure; cbn [world]; rewrite Hscript; reflexivity).
  cbn [negb].
  erewrite cmd_bind_ok
    by (rewrite lift_observe_pure; cbn [world]; rewrite Hprop; reflexivity).
  cbn [negb]. fold check script.
  unfold text_ShellCmd at 1. cbn [andb].
  erewrite cmd_bind_ok by reflexivity. cbn [fst world texts clock].
  fold rc. fold h2.
  destruct ((rc =? 0) && negb (DeployDBCmd.drop args)).
  - destruct (DeployDBCmd.keep_db args).
    + unfold info_text, note. cbn [world texts clock h2].
      rewrite <- app_assoc. reflexivity.
    + reflexivity.
  - unfold text_ShellCmd. cbn [andb fst]. fold rc2.
    cbn [world texts clock h2]. rewrite <- app_assoc. cbn [app].
    destruct (negb (rc2 =? 0)); [destruct (_ || _)|]; reflexivity.
Qed.

(** X24.  [zstack-ctl deploydb] runs the deploy script, which erases the
    database, exactly when the test [use zstack] fails or [--drop] is
    given.  When the test succeeds without [--drop], the only command run
    is the test; the command then raises [CtlError] unless [--keep-db] is
    given.  (A test that fails for another reason than a missing
    database, such as a wrong root password, also leads to the script.) *)
Theorem deploydb_runs_the_script_iff
    (E : TextEnv) (script_path property_file_path : string)
    (args : DeployDBCmd.Args) (h : Host) (w1 : World) :
  error_if_tool_is_missing (under E) Mysql (world h) = (Ok tt, w1) ->
  path_exists (under E) script_path w1 = true ->
  path_exists (under E) property_file_path w1 = true ->
  let h1 := mkHost w1 (texts h) in
  let check := DeployDBCmd.check_existing_db args in
  let script := DeployDBCmd.deploy_cmd script_path args in
  let r := DeployDBCmd.deploy E script_path property_file_path args h in
  exists added,
    texts (snd r) = texts h ++ added /\
    world (snd r) = w1 /\
    (text_rc E check h1 = 0 /\ DeployDBCmd.drop args = false ->
     shell_cmds added = [check] /\
     fst r = if DeployDBCmd.keep_db args then Ok tt
             else Raise (CtlError (OtherCtlError "detected existing zstack database"))) /\
    (text_rc E check h1 <> 0 \/ DeployDBCmd.drop args = true ->
     shell_cmds added = [check; script] /\
     (fst r = Ok tt <->
      text_rc E script
        (mkHost w1 (texts h ++ [(clock w1, TxShell check (text_rc E check h1))])) = 0)).
Proof.
  intros Htool Hscript Hprop h1 check script r. subst r.
  rewrite (deploy_eq E script_path property_file_path args h w1 Htool Hscript Hprop).
  fold check script. fold h1.
  set (rc := text_rc E check h1).
  set (h2 := mkHost w1 (texts h ++ [(clock w1, TxShell check rc)])).
  set (rc2 := text_rc E script h2).
  destruct ((rc =? 0) && negb (DeployDBCmd.drop args)) eqn:Hcase.
  - apply andb_true_iff in Hcase. destruct Hcase as (Hrc & Hdrop).
    apply Z.eqb_eq in Hrc. apply negb_true_iff in Hdrop.
    destruct (DeployDBCmd.keep_db args); eexists; cbn [fst snd world texts h2];
      (split; [reflexivity|]); (split; [reflexivity|]); split;
      try (intros _; split; reflexivity);
      intros [Hne|Hd]; try contradiction; congruence.
  - assert (Hnot : ~ (rc = 0 /\ DeployDBCmd.drop args = false)).
    { intros (Hrc & Hdrop). rewrite Hrc, Hdrop in Hcase. discriminate. }
    eexists. cbn [fst snd world texts].
    split; [reflexivity|]. split; [reflexivity|]. split.
    + intros Hyes. contradiction.
    + intros _. split; [reflexivity|].
      destruct (Z.eqb_spec rc2 0) as [Hz|Hnz]; cbn [negb].
      * split; [intros _; exact Hz|reflexivity].
      * split; [|contradiction].
        destruct (_ || _); discriminate.
Qed.

Lemma deploydb_runs_the_script_iff_witness :
  let E := sample_text_env (fun _ _ => 0) no_process no_rows in
  let args := DeployDBCmd.mkArgs None (Some "s3cret") "10.0.0.5" "3306" false false false in
  let r := DeployDBCmd.deploy E "/usr/local/zstack/deploydb.sh"
             "/usr/local/zstack/zstack.properties" args fresh_host in
  fst r = Raise (CtlError (OtherCtlError "detected existing zstack database")).
Proof.
  intros E args r.
  destruct (deploydb_runs_the_script_iff E "/usr/local/zstack/deploydb.sh"
              "/usr/local/zstack/zstack.properties" args fresh_host
              (mkWorld 0 [(0, EvShell (Which Mysql) 0)])
              eq_refl eq_refl eq_refl)
    as (added & _ & _ & Hkeep & _).
  exact (proj2 (Hkeep (conj eq_refl eq_refl))).
Defined.

Lemma append_nil_r (s : string) : (s ++ "")%string = s.
Proof. induction s as [|c s IH]; simpl; [reflexivity|rewrite IH; reflexivity]. Qed.



(* ===================================================================== *)
(** ** [upgrade_management_node] on the local machine *)
(* ===================================================================== *)

Lemma grows_ret {A} (a : A) : grows (cmd_ret a).
Proof. intros h. exists []. rewrite app_nil_r. reflexivity. Qed.

Lemma grows_raise {A} (e : Exn) : grows (@cmd_raise A e).
Proof. intros h. exists []. rewrite app_nil_r. reflexivity. Qed.

Lemma grows_lift {A} (m : M A) : grows (lift m).
Proof. intros h. exists []. rewrite app_nil_r. reflexivity. Qed.

Lemma grows_note (e : TextEvent) : grows (note e).
Proof. intros h. eexists. reflexivity. Qed.

Lemma grows_text_shell (E : TextEnv) (cmd : string) : grows (text_shell E cmd).
Proof. intros h. rewrite text_shell_eq. eexists. reflexivity. Qed.

Lemma grows_bind {A B} (m : Cmd A) (k : A -> Cmd B) :
  grows m -> (forall a, grows (k a)) -> grows (cmd_bind m k).
Proof.
  intros Hm Hk h. unfold cmd_bind. destruct (Hm h) as (more & Hmore).
  destruct (m h) as [[a|e|] h1]; cbn [snd] in *.
  - destruct (Hk a h1) as (more' & Hmore'). exists (more ++ more').
    rewrite Hmore', Hmore, app_assoc. reflexivity.
  - exists more. exact Hmore.
  - exists more. exact Hmore.
Qed.

Lemma grows_look {A} (f : Host -> Outcome A) : grows (fun h => (f h, h)).
Proof. intros h. exists []. rewrite app_nil_r. reflexivity. Qed.

Ltac grows_steps :=
  repeat first
    [ apply grows_text_shell
    | apply grows_note
    | apply grows_lift
    | apply grows_ret
    | apply grows_raise
    | apply grows_look
    | apply grows_bind; [|intros ?]
    | match goal with
      | |- grows (if ?b then _ else _) => destruct b
      end ].

Ltac not_a_removal :=
  let t := fresh "t" in
  let rc := fresh "rc" in
  let Hin := fresh "Hin" in
  intros t rc Hin; cbn [In app] in Hin;
  repeat (destruct Hin as [Hin|Hin]);
  try contradiction;
  try (inversion Hin; fail);
  injection Hin;
  unfold UpgradeManagementNodeCmd.backup_cmd, UpgradeManagementNodeCmd.wget_cmd,
    UpgradeManagementNodeCmd.remove_cmd;
  simpl; intros; congruence.

Lemma backup_spec (E : TextEnv) (P : UpgradeManagementNodeCmd.Paths) (h : Host) :
  exists added,
    texts (snd (UpgradeManagementNodeCmd.backup E P h)) = texts h ++ added /\
    no_removal P added /\
    (fst (UpgradeManagementNodeCmd.backup E P h) = Ok tt ->
     (exists t, In (t, TxShell (UpgradeManagementNodeCmd.backup_cmd P) 0) added) /\
     exists w w',
       internal_run (under E) "save_config"
         ("--save-to " ++ UpgradeManagementNodeCmd.property_file_backup_dir P) w
       = (Ok tt, w')).
Proof.
  destruct (internal_run (under E) "save_config"
              ("--save-to " ++ UpgradeManagementNodeCmd.property_file_backup_dir P)
              (world h)) as [res w1] eqn:Hsave.
  destruct res as [[]|e|].
  - set (copy := UpgradeManagementNodeCmd.backup_cmd P).
    set (rc := text_rc E copy (mkHost w1 (texts h))).
    assert (Hrun : UpgradeManagementNodeCmd.backup E P h
                   = if negb (rc =? 0)
                     then (Raise (failed_to_execute copy),
                           mkHost w1 (texts h ++ [(clock w1, TxShell copy rc)]))
                     else (Ok tt,
                           mkHost w1 (texts h ++ [(clock w1, TxShell copy rc);
                                                  (clock w1, TxInfo ("backup " ++ UpgradeManagementNodeCmd.zstack_home P ++ " to " ++ UpgradeManagementNodeCmd.upgrade_tmp_dir P))]))).
    { unfold UpgradeManagementNodeCmd.backup.
      erewrite cmd_bind_ok by (apply lift_ok; exact Hsave).
      unfold cmd_bind at 1. rewrite text_shell_eq. fold copy.
      cbn [world texts clock]. fold rc.
      destruct (negb (rc =? 0)); [reflexivity|].
      unfold info_text, note. cbn [world texts clock].
      rewrite <- app_assoc. reflexivity. }
    rewrite Hrun. destruct (Z.eqb_spec rc 0) as [Hz|Hnz]; cbn [negb fst snd texts].
    + eexists. split; [reflexivity|]. split; [not_a_removal|].
      intros _. split; [|eauto]. rewrite Hz. eexists. left. reflexivity.
    + eexists. split; [reflexivity|]. split; [not_a_removal|].
      intros Hbad. discriminate Hbad.
  - assert (Hrun : UpgradeManagementNodeCmd.backup E P h
                   = (Raise e, mkHost w1 (texts h))).
    { unfold UpgradeManagementNodeCmd.backup.
      erewrite cmd_bind_raise by (apply lift_raise; exact Hsave). reflexivity. }
    rewrite Hrun. cbn [fst snd texts]. exists []. rewrite app_nil_r.
    split; [reflexivity|]. split; [intros t rc []|discriminate].
  - assert (Hrun : UpgradeManagementNodeCmd.backup E P h
                   = (Hang, mkHost w1 (texts h))).
    { unfold UpgradeManagementNodeCmd.backup, cmd_bind, lift.
      rewrite Hsave. reflexivity. }
    rewrite Hrun. cbn [fst snd texts]. exists []. rewrite app_nil_r.
    split; [reflexivity|]. split; [intros t rc []|discriminate].
Qed.

Lemma download_spec (E : TextEnv) (P : UpgradeManagementNodeCmd.Paths)
    (war_file : string) (need_download : bool) (h : Host) :
  exists added,
    texts (snd (UpgradeManagementNodeCmd.download_war_if_needed E P war_file need_download h))
    = texts h ++ added /\
    no_removal P added /\
    (fst (UpgradeManagementNodeCmd.download_war_if_needed E P war_file need_download h) = Ok tt ->
     need_download = true ->
     exists t, In (t, TxShell (UpgradeManagementNodeCmd.wget_cmd P war_file) 0) added).
Proof.
  destruct need_download.
  - set (wget := UpgradeManagementNodeCmd.wget_cmd P war_file).
    set (rc := text_rc E wget h).
    assert (Hrun : UpgradeManagementNodeCmd.download_war_if_needed E P war_file true h
                   = if negb (rc =? 0)
                     then (Raise (failed_to_execute wget),
                           mkHost (world h) (texts h ++ [(clock (world h), TxShell wget rc)]))
                     else (Ok tt,
                           mkHost (world h)
                             (texts h ++ [(clock (world h), TxShell wget rc);
                                          (clock (world h), TxInfo ("downloaded new zstack.war to " ++ UpgradeManagementNodeCmd.downloaded_war P))]))).
    { unfold UpgradeManagementNodeCmd.download_war_if_needed.
      unfold cmd_bind at 1. rewrite text_shell_eq. fold wget. fold rc.
      destruct (negb (rc =? 0)); [reflexivity|].
      unfold info_text, note. cbn [world texts clock].
      rewrite <- app_assoc. reflexivity. }
    rewrite Hrun. destruct (Z.eqb_spec rc 0) as [Hz|Hnz]; cbn [negb fst snd texts].
    + eexists. split; [reflexivity|]. split; [not_a_removal|].
      intros _ _. rewrite Hz. eexists. left. reflexivity.
    + eexists. split; [reflexivity|]. split; [not_a_removal|].
      intros Hbad. discriminate Hbad.
  - exists []. cbn [UpgradeManagementNodeCmd.download_war_if_needed cmd_ret fst snd].
    rewrite app_nil_r.
    split; [reflexivity|]. split; [intros t rc []|discriminate].
Qed.

Lemma stop_node_spec (E : TextEnv) (P : UpgradeManagementNodeCmd.Paths) (h : Host) :
  exists added,
    texts (snd (UpgradeManagementNodeCmd.stop_node E h)) = texts h ++ added /\
    no_removal P added /\
    (fst (UpgradeManagementNodeCmd.stop_node E h) = Ok tt ->
     exists w w', internal_run (under E) "stop_node" "" w = (Ok tt, w')).
Proof.
  destruct (internal_run (under E) "stop_node" "" (world h)) as [res w1] eqn:Hstop.
  assert (Hrun : UpgradeManagementNodeCmd.stop_node E h
                 = (res, mkHost w1 (texts h ++ [(clock (world h),
                                                 TxInfo "start to stop the management node ...")]))).
  { unfold UpgradeManagementNodeCmd.stop_node.
    erewrite cmd_bind_ok by reflexivity.
    unfold lift. cbn [world texts clock]. rewrite Hstop. reflexivity. }
  rewrite Hrun. cbn [fst snd texts].
  eexists. split; [reflexivity|]. split; [not_a_removal|].
  intros ->. eauto.
Qed.

Lemma rest_grows (E : TextEnv) (P : UpgradeManagementNodeCmd.Paths)
    (need_download : bool) :
  grows (cmd_bind (UpgradeManagementNodeCmd.upgrade E P need_download) (fun _ =>
         cmd_bind (UpgradeManagementNodeCmd.restore_config E P) (fun _ =>
         cmd_bind (UpgradeManagementNodeCmd.install_tools E P) (fun _ =>
         cmd_bind (UpgradeManagementNodeCmd.save_new_war E P need_download) (fun _ =>
         cmd_bind (UpgradeManagementNodeCmd.chown_to_zstack E P) (fun _ =>
         info_text "Successfully upgraded the ZStack management node to a new version.")))))).
Proof.
  unfold UpgradeManagementNodeCmd.upgrade, UpgradeManagementNodeCmd.restore_config,
    UpgradeManagementNodeCmd.install_tools, UpgradeManagementNodeCmd.save_new_war,
    UpgradeManagementNodeCmd.chown_to_zstack.
  grows_steps.
Qed.

(** X26.  [zstack-ctl upgrade_management_node] on the local machine
    removes the installation ([rm -rf] of [ZSTACK_HOME]) only after
    [save_config] has returned, the copy of the installation to the
    upgrade directory has succeeded, the new [zstack.war] has been
    downloaded if it is a URL, and [stop_node] has returned.  So when one
    of these has failed, nothing has been removed. *)
Theorem local_upgrade_removes_after_backup
    (E : TextEnv) (P : UpgradeManagementNodeCmd.Paths)
    (war_file : string) (need_download : bool) (h : Host) :
  let r := UpgradeManagementNodeCmd.local_upgrade E P war_file need_download h in
  exists added,
    texts (snd r) = texts h ++ added /\
    forall t rc,
      In (t, TxShell (UpgradeManagementNodeCmd.remove_cmd P) rc) added ->
      (exists t', In (t', TxShell (UpgradeManagementNodeCmd.backup_cmd P) 0) added) /\
      (need_download = true ->
       exists t', In (t', TxShell (UpgradeManagementNodeCmd.wget_cmd P war_file) 0) added) /\
      (exists w w',
         internal_run (under E) "save_config"
           ("--save-to " ++ UpgradeManagementNodeCmd.property_file_backup_dir P) w
         = (Ok tt, w')) /\
      (exists w w', internal_run (under E) "stop_node" "" w = (Ok tt, w')).
Proof.
  intros r. subst r. unfold UpgradeManagementNodeCmd.local_upgrade.
  destruct (backup_spec E P h) as (a1 & Ht1 & Hno1 & Hok1).
  unfold cmd_bind at 1.
  destruct (UpgradeManagementNodeCmd.backup E P h) as [[[]|e|] h1];
    cbn [fst snd] in *;
    try (exists a1; split; [exact Ht1|]; intros t rc Hin; exfalso; exact (Hno1 t rc Hin)).
  destruct (Hok1 eq_refl) as (Hcopy & Hsave).
  destruct (download_spec E P war_file need_download h1) as (a2 & Ht2 & Hno2 & Hok2).
  unfold cmd_bind at 1.
  destruct (UpgradeManagementNodeCmd.download_war_if_needed E P war_file need_download h1)
    as [[[]|e|] h2]; cbn [fst snd] in *;
    try (exists (a1 ++ a2); split; [rewrite Ht2, Ht1, app_assoc; reflexivity|];
         intros t rc Hin; exfalso; apply in_app_or in Hin;
         destruct Hin as [Hin|Hin]; [exact (Hno1 t rc Hin)|exact (Hno2 t rc Hin)]).
  destruct (stop_node_spec E P h2) as (a3 & Ht3 & Hno3 & Hok3).
  unfold cmd_bind at 1.
  destruct (UpgradeManagementNodeCmd.stop_node E h2) as [[[]|e|] h3];
    cbn [fst snd] in *;
    try (exists (a1 ++ a2 ++ a3); split;
         [rewrite Ht3, Ht2, Ht1, <- !app_assoc; reflexivity|];
         intros t rc Hin; exfalso; apply in_app_or in Hin;
         destruct Hin as [Hin|Hin]; [exact (Hno1 t rc Hin)|];
         apply in_app_or in Hin;
         destruct Hin as [Hin|Hin]; [exact (Hno2 t rc Hin)|exact (Hno3 t rc Hin)]).
  destruct (rest_grows E P need_download h3) as (a4 & Ht4).
  exists (a1 ++ a2 ++ a3 ++ a4). split.
  - rewrite Ht4, Ht3, Ht2, Ht1, <- !app_assoc. reflexivity.
  - intros t rc _. split; [|split; [|split]].
    + destruct Hcopy as (t' & Hin). exists t'. apply in_or_app. left. exact Hin.
    + intros Hd. destruct (Hok2 eq_refl Hd) as (t' & Hin). exists t'.
      apply in_or_app. right. apply in_or_app. left. exact Hin.
    + exact Hsave.
    + exact (Hok3 eq_refl).
Qed.

Lemma local_upgrade_removes_after_backup_witness :
  let E := sample_text_env (fun _ _ => 0) no_process no_rows in
  let r := UpgradeManagementNodeCmd.local_upgrade E sample_paths
             "/root/zstack.war" false fresh_host in
  fst r = Ok tt /\
  exists t, In (t, TxShell (UpgradeManagementNodeCmd.backup_cmd sample_paths) 0)
              (texts (snd r)).
Proof.
  intros E r. split; [vm_compute; reflexivity|].
  destruct (local_upgrade_removes_after_backup E sample_paths
              "/root/zstack.war" false fresh_host) as (added & Ht & Hafter).
  fold r in Ht. change (texts (snd r) = added) in Ht.
  assert (Hin : In (0, TxShell (UpgradeManagementNodeCmd.remove_cmd sample_paths) 0) added).
  { rewrite <- Ht. vm_compute. tauto. }
  rewrite Ht. exact (proj1 (Hafter 0 0 Hin)).
Defined.

Example local_upgrade_stops_when_the_backup_fails :
  let E := sample_text_env (fun cmd h => if String.prefix "cp -r" cmd then 1 else 0)
             no_process no_rows in
  let r := UpgradeManagementNodeCmd.local_upgrade E sample_paths
             "/root/zstack.war" false fresh_host in
  fst r = Raise (failed_to_execute (UpgradeManagementNodeCmd.backup_cmd sample_paths)) /\
  shell_cmds (texts (snd r)) = [UpgradeManagementNodeCmd.backup_cmd sample_paths].
Proof. vm_compute. split; reflexivity. Qed.
